(** * VIIRS NOAA enterprise EDR reader: a shallow embedding of
      [satpy/readers/viirs_edr.py] and the properties of its file handlers. *)

From Stdlib Require Import ZArith Lia Ascii String List Bool.
From stdpp Require Import base option list gmap strings.

Local Open Scope Z_scope.
Local Open Scope string_scope.

(** ** Python exceptions and fallible computations *)

Inductive exn : Type :=
  | KeyError (key : string)
  | IndexError
  | TypeError
  | ValueError
  | AxisError.

Inductive result (A : Type) : Type :=
  | Ok (a : A)
  | Raise (e : exn).
Arguments Ok {A} a.
Arguments Raise {A} e.

#[export] Instance result_ret : MRet result := fun _ a => Ok a.
#[export] Instance result_bind : MBind result := fun _ _ f m =>
  match m with
  | Ok a => f a
  | Raise e => Raise e
  end.

#[export] Instance result_fmap : FMap result := fun _ _ f m =>
  match m with
  | Ok a => Ok (f a)
  | Raise e => Raise e
  end.

Definition of_option {A} (o : option A) (e : exn) : result A :=
  match o with
  | Some a => Ok a
  | None => Raise e
  end.

(** ** Strings: the pieces of Python's [str] the reader uses *)

Module PyStr.

Definition upper_char (c : ascii) : ascii :=
  let n := nat_of_ascii c in
  if ((97 <=? n) && (n <=? 122))%nat then ascii_of_nat (n - 32) else c.

Definition lower_char (c : ascii) : ascii :=
  let n := nat_of_ascii c in
  if ((65 <=? n) && (n <=? 90))%nat then ascii_of_nat (n + 32) else c.

Fixpoint map_chars (f : ascii -> ascii) (s : string) : string :=
  match s with
  | EmptyString => EmptyString
  | String c s' => String (f c) (map_chars f s')
  end.

(** [s.upper()] and [s.lower()], on ASCII text. *)
Definition upper : string -> string := map_chars upper_char.
Definition lower : string -> string := map_chars lower_char.

(** [sub in s] *)
Fixpoint contains (sub s : string) : bool :=
  String.prefix sub s ||
  match s with
  | EmptyString => false
  | String _ s' => contains sub s'
  end.

(** [s.split(c)] for a one-character separator: every occurrence of the
    separator cuts, so consecutive separators give empty pieces. *)
Fixpoint split_on (c : ascii) (s : string) : list string :=
  match s with
  | EmptyString => [EmptyString]
  | String a s' =>
      if Ascii.eqb a c then EmptyString :: split_on c s'
      else match split_on c s' with
           | [] => [String a EmptyString]
           | w :: ws => String a w :: ws
           end
  end.

Definition newline : string := String (ascii_of_nat 10) EmptyString.

(** [sep.join(pieces)] *)
Fixpoint join (sep : string) (pieces : list string) : string :=
  match pieces with
  | [] => EmptyString
  | [w] => w
  | w :: ws => w +:+ sep +:+ join sep ws
  end.

End PyStr.

(** ** Arrays: a shape and the elements in row-major order *)

Record ndarray (A : Type) : Type := NdArray {
  shape : list nat;
  flat : list A
}.
Arguments NdArray {A} shape flat.
Arguments shape {A} n.
Arguments flat {A} n.

Module Nd.
Section Ops.
Context {A B : Type}.

Definition ndim (a : ndarray A) : nat := length (shape a).

Definition size (s : list nat) : nat := foldr Nat.mul 1%nat s.

(** The invariant of an array: as many elements as the shape says. *)
Definition wf (a : ndarray A) : Prop := length (flat a) = size (shape a).

Definition map (f : A -> B) (a : ndarray A) : ndarray B :=
  NdArray (shape a) (List.map f (flat a)).

(** Element [i, j] of a two-dimensional array. *)
Definition at2 (a : ndarray A) (i j : nat) : option A :=
  match shape a with
  | [r; c] => if decide (i < r ∧ j < c)%nat then flat a !! (i * c + j)%nat else None
  | _ => None
  end.

(** Cut a list into blocks of [n] elements. *)
Fixpoint blocks (k n : nat) (l : list A) : list (list A) :=
  match k with
  | O => []
  | S k' => take n l :: blocks k' n (drop n l)
  end.

(** [a.repeat(n, axis=ax)]: along axis [ax] every index is repeated [n]
    times, that is, every block of the trailing axes is. *)
Definition repeat (n ax : nat) (a : ndarray A) : result (ndarray A) :=
  match shape a !! ax with
  | None => Raise AxisError
  | Some d =>
      let inner := size (drop (S ax) (shape a)) in
      let outer := size (take (S ax) (shape a)) in
      Ok (NdArray (<[ax := (d * n)%nat]> (shape a))
            (concat (List.map (fun blk => concat (replicate n blk))
                              (blocks outer inner (flat a)))))
  end.

(** The elements of [b] as seen after broadcasting [b] to the shape [s]:
    [bs] is the shape of [b], aligned to the right of [s]; an axis of
    [b] must have the length of the axis of [s] or length one. *)
Fixpoint broadcast_flat (s bs : list nat) (l : list A) : option (list A) :=
  match s with
  | [] => match bs with [] => Some l | _ => None end
  | d :: s' =>
      if decide (length bs ≤ length s')%nat then
        r ← broadcast_flat s' bs l; Some (concat (replicate d r))
      else
        match bs with
        | [] => None
        | e :: bs' =>
            if decide (e = d) then
              rs ← mapM (broadcast_flat s' bs') (blocks d (size bs') l);
              Some (concat rs)
            else if decide (e = 1%nat) then
              r ← broadcast_flat s' bs' l; Some (concat (replicate d r))
            else None
        end
  end.

Definition broadcast_to (s : list nat) (b : ndarray A) : option (list A) :=
  broadcast_flat s (shape b) (flat b).

End Ops.
End Nd.

(** ** Values of metadata dictionaries *)

(** Array elements are values of a numeric type [T] that comes with the
    operations the reader asks of the array library. *)
Class ArrayOps (T : Type) : Type := {
  num_le : T -> T -> bool;        (* elementwise [<=] *)
  num_mul : T -> T -> T;          (* elementwise [*] *)
  num_add : T -> T -> T;          (* elementwise [+] *)
  num_nan : T;                    (* the fill value of [where] *)
  num_hundred : T;                (* the literal [100.0] *)
  num_of_Z : Z -> T;              (* a Python int used as a number *)
  num_as_int : T -> option Z      (* the value of an element of integer type *)
}.

Section Reader.

Context {T : Type} `{ArrayOps T}.

#[warnings="-register-all"]
Inductive pyval : Type :=
  | PNone
  | PBool (b : bool)
  | PInt (z : Z)
  | PNum (x : T)
  | PStr (s : string)
  | PTuple (l : list pyval)
  | PList (l : list pyval).

(** [v == s] for a string literal [s]. *)
Definition is_str (v : pyval) (s : string) : bool :=
  match v with
  | PStr s' => String.eqb s' s
  | _ => false
  end.

(** [v in (s1, s2, ...)] for string literals. *)
Definition str_in (v : pyval) (l : list string) : bool :=
  existsb (is_str v) l.

Definition is_none (v : pyval) : bool :=
  match v with
  | PNone => true
  | _ => false
  end.

(** [d.get(k)]: [None] when the key is missing. *)
Definition dict_get (d : gmap string pyval) (k : string) : pyval :=
  default PNone (d !! k).

(** [d[k]] *)
Definition dict_item (d : gmap string pyval) (k : string) : result pyval :=
  of_option (d !! k) (KeyError k).

(** [v[i]] used as a number, as in [valid_range[0] <= data_arr]. *)
Definition item_num (v : pyval) (i : nat) : result T :=
  match v with
  | PTuple l | PList l =>
      match l !! i with
      | None => Raise IndexError
      | Some (PNum x) => Ok x
      | Some (PInt z) => Ok (num_of_Z z)
      | Some (PBool b) => Ok (num_of_Z (Z.b2z b))
      | Some _ => Raise TypeError
      end
  | _ => Raise TypeError
  end.

(** ** The array library's dataset: variables, data arrays *)

Record XVariable : Type := mkVariable {
  dims : list string;
  data : ndarray T;
  attrs : gmap string pyval
}.

(** The variables of a dataset in their order, which names are coordinates
    and which coordinates carry an index. *)
Record Dataset : Type := mkDataset {
  variables : list (string * XVariable);
  coord_names : list string;
  indexes : list string
}.

Record DataArray : Type := mkDataArray {
  da_var : XVariable;
  da_coords : list string;
  da_indexes : list string
}.

Definition mem (k : string) (l : list string) : bool :=
  existsb (String.eqb k) l.

Fixpoint assoc {V : Type} (k : string) (l : list (string * V)) : option V :=
  match l with
  | [] => None
  | (k', v) :: l' => if String.eqb k' k then Some v else assoc k l'
  end.

(** [d[k] = v] on an ordered dictionary: an existing key keeps its place. *)
Fixpoint assoc_set {V : Type} (k : string) (v : V) (l : list (string * V))
  : list (string * V) :=
  match l with
  | [] => [(k, v)]
  | (k', v') :: l' =>
      if String.eqb k' k then (k', v) :: l' else (k', v') :: assoc_set k v l'
  end.

Definition keys {V : Type} (l : list (string * V)) : list string := List.map fst l.

(** [key in ds] *)
Definition ds_contains (ds : Dataset) (k : string) : bool :=
  mem k (keys (variables ds)).

(** [ds[k]] for the name of a variable: the variable with the coordinates
    of the dataset that fit its dimensions. For a key that names no
    variable the array library raises the [KeyError] when the key names no
    dimension either and has no dot in it; it answers the name of a
    dimension with the index of that dimension and a dotted name with an
    attribute of a variable, and neither is modelled: what is proved of a
    missing key below is stated for keys of the first kind, or for the
    fixed names of the handlers. *)
Definition ds_getitem (ds : Dataset) (k : string) : result DataArray :=
  v ← of_option (assoc k (variables ds)) (KeyError k);
  let coords :=
    keys (List.filter
            (fun kv => mem (fst kv) (coord_names ds)
                       && forallb (fun d => mem d (dims v)) (dims (snd kv)))
            (variables ds)) in
  Ok (mkDataArray v coords (List.filter (fun i => mem i coords) (indexes ds))).

(** [ds[k] = arr] *)
Definition ds_setitem (ds : Dataset) (k : string) (arr : DataArray) : Dataset :=
  mkDataset (assoc_set k (da_var arr) (variables ds)) (coord_names ds) (indexes ds).

Definition da_shape (arr : DataArray) : list nat := shape (data (da_var arr)).
Definition da_attrs (arr : DataArray) : gmap string pyval := attrs (da_var arr).
Definition da_values (arr : DataArray) : list T := flat (data (da_var arr)).

Definition set_data (arr : DataArray) (d : ndarray T) : DataArray :=
  mkDataArray (mkVariable (dims (da_var arr)) d (attrs (da_var arr)))
              (da_coords arr) (da_indexes arr).

Definition set_attr (arr : DataArray) (k : string) (v : pyval) : DataArray :=
  mkDataArray (mkVariable (dims (da_var arr)) (data (da_var arr))
                          (<[k := v]> (attrs (da_var arr))))
              (da_coords arr) (da_indexes arr).

(** [arr.where(cond)] for a condition computed from the elements of [arr]. *)
Definition da_where (cond : T -> bool) (arr : DataArray) : DataArray :=
  set_data arr (Nd.map (fun x => if cond x then x else num_nan) (data (da_var arr))).

(** [arr.reset_coords(drop=True)]: every coordinate without an index goes. *)
Definition reset_coords_drop (arr : DataArray) : DataArray :=
  mkDataArray (da_var arr)
              (List.filter (fun c => mem c (da_indexes arr)) (da_coords arr))
              (da_indexes arr).

(** ** The file handlers *)

Definition M_COLS : nat := 3200.

Inductive handler_class : Type :=
  | VIIRSJRRFileHandler
  | VIIRSSurfaceReflectanceWithVIHandler
  | VIIRSLSTHandler.

(** A file handler after the base initialisation: [ftype] is
    [filetype_info["file_type"]], [nc] the opened dataset, and
    [file_type_matches] the method inherited from [BaseFileHandler], which
    answers [None] when the handler's file type is not the dataset's. *)
Record FileHandler : Type := mkHandler {
  cls : handler_class;
  filename_info : gmap string string;
  ftype : string;
  file_type_matches : pyval -> option bool;
  nc : Dataset;
  _filter_veg : bool
}.

Definition sensor_name : string := "viirs".

Definition rows_per_scans (data_arr : DataArray) : result Z :=
  cols ← of_option (da_shape data_arr !! 1%nat) IndexError;
  Ok (if Nat.eqb cols M_COLS then 16 else 32).

Definition platform_dict : list (string * string) :=
  [("NPP", "Suomi-NPP");
   ("JPSS-1", "NOAA-20");
   ("J01", "NOAA-20");
   ("JPSS-2", "NOAA-21");
   ("J02", "NOAA-21")].

Definition platform_name (h : FileHandler) : result string :=
  platform_path ← of_option (filename_info h !! "platform_shortname")
                            (KeyError "platform_shortname");
  let key := PyStr.upper platform_path in
  of_option (assoc key platform_dict) (KeyError key).

(** [VIIRSJRRFileHandler._mask_invalid] *)
Definition _mask_invalid_base (data_arr : DataArray) (ds_info : gmap string pyval)
  : result DataArray :=
  let valid_range :=
    match ds_info !! "valid_range" with
    | Some v => v
    | None => dict_get (da_attrs data_arr) "valid_range"
    end in
  valid_range ←
    (if bool_decide (is_Some (da_attrs data_arr !! "valid_min")) && is_none valid_range
     then vmin ← dict_item (da_attrs data_arr) "valid_min";
          vmax ← dict_item (da_attrs data_arr) "valid_max";
          Ok (PTuple [vmin; vmax])
     else Ok valid_range);
  if is_none valid_range then Ok data_arr
  else
    lo ← item_num valid_range 0;
    hi ← item_num valid_range 1;
    Ok (da_where (fun x => num_le lo x && num_le x hi) data_arr).

(** The valid range in the words of the specification: the one of the
    dataset info if present, else the [valid_range] attribute of the array,
    else the pair of its [valid_min] and [valid_max] attributes. *)
Definition valid_range_of_spec (ds_info attrs : gmap string pyval) : option pyval :=
  match ds_info !! "valid_range" with
  | Some v => Some v
  | None =>
      match attrs !! "valid_range" with
      | Some v => Some v
      | None =>
          match attrs !! "valid_min", attrs !! "valid_max" with
          | Some vmin, Some vmax => Some (PTuple [vmin; vmax])
          | _, _ => None
          end
      end
  end.

(** The valid range with the cases the specification leaves out: the
    entry of the dataset info when the info has the key, else the
    [valid_range] attribute of the array; when that gives nothing (no entry, or [None]) and the
    array has a [valid_min] attribute, the pair of [valid_min] and
    [valid_max], where a missing [valid_max] is a [KeyError]; [None] when
    there is no range. *)
Definition valid_range_amended (ds_info attrs : gmap string pyval)
  : result (option pyval) :=
  let explicit :=
    match ds_info !! "valid_range" with
    | Some v => Some v
    | None => attrs !! "valid_range"
    end in
  match explicit with
  | Some v =>
      if is_none v
      then match attrs !! "valid_min", attrs !! "valid_max" with
           | None, _ => Ok None
           | Some vmin, Some vmax => Ok (Some (PTuple [vmin; vmax]))
           | Some _, None => Raise (KeyError "valid_max")
           end
      else Ok (Some v)
  | None =>
      match attrs !! "valid_min", attrs !! "valid_max" with
      | None, _ => Ok None
      | Some vmin, Some vmax => Ok (Some (PTuple [vmin; vmax]))
      | Some _, None => Raise (KeyError "valid_max")
      end
  end.

(** Boolean arrays with their dimension names, as the quality-flag
    comparisons produce them. *)
Record Mask : Type := mkMask {
  mk_dims : list string;
  mk_data : ndarray bool
}.

(** The integer elements of a flag variable; [&] is a type error on an
    array that is not of integer type. *)
Definition int_data (arr : DataArray) : result (ndarray Z) :=
  zs ← of_option (mapM num_as_int (da_values arr)) TypeError;
  Ok (NdArray (da_shape arr) zs).

Definition flag_mask (arr : DataArray) (q : ndarray Z) (f : Z -> bool) : Mask :=
  mkMask (dims (da_var arr)) (Nd.map f q).

(** [a | b] on masks of the same dimensions and shape (the flag variables of
    one file); other operands are refused here. *)
Definition mask_or (a b : Mask) : result Mask :=
  if bool_decide (mk_dims a = mk_dims b)
     && bool_decide (shape (mk_data a) = shape (mk_data b))
  then Ok (mkMask (mk_dims a)
             (NdArray (shape (mk_data a))
                      (zip_with orb (flat (mk_data a)) (flat (mk_data b)))))
  else Raise ValueError.

(** [arr.where(good)] for a mask of the dimensions and shape of [arr]. *)
Definition da_where_mask (arr : DataArray) (good : Mask) : result DataArray :=
  if bool_decide (dims (da_var arr) = mk_dims good)
     && bool_decide (da_shape arr = shape (mk_data good))
  then Ok (set_data arr
             (NdArray (da_shape arr)
                (zip_with (fun x (g : bool) => if g then x else num_nan)
                          (da_values arr) (flat (mk_data good)))))
  else Raise ValueError.

Definition _get_veg_index_good_mask (h : FileHandler) : result Mask :=
  qf1 ← ds_getitem (nc h) "QF1 Surface Reflectance";
  q1 ← int_data qf1;
  let has_sun_glint := flag_mask qf1 q1 (fun q => (Z.land q 192 >? 0)%Z) in
  let is_cloudy := flag_mask qf1 q1 (fun q => (Z.land q 12 >? 0)%Z) in
  let cloud_quality := flag_mask qf1 q1 (fun q => (Z.land q 3 <? 2)%Z) in
  qf2 ← ds_getitem (nc h) "QF2 Surface Reflectance";
  q2 ← int_data qf2;
  let has_snow_or_ice := flag_mask qf2 q2 (fun q => (Z.land q 32 >? 0)%Z) in
  let has_cloud_shadow := flag_mask qf2 q2 (fun q => (Z.land q 8 >? 0)%Z) in
  let has_water :=
    flag_mask qf2 q2 (fun q => let water_mask := Z.land q 7 in
                               (water_mask <=? 2)%Z || (water_mask =? 5)%Z) in
  qf7 ← ds_getitem (nc h) "QF7 Surface Reflectance";
  q7 ← int_data qf7;
  let has_aerosols := flag_mask qf7 q7 (fun q => (Z.land q 12 >? 8)%Z) in
  let adjacent_to_cloud := flag_mask qf7 q7 (fun q => (Z.land q 2 >? 0)%Z) in
  m ← mask_or has_sun_glint is_cloudy;
  m ← mask_or m cloud_quality;
  m ← mask_or m has_snow_or_ice;
  m ← mask_or m has_cloud_shadow;
  m ← mask_or m has_water;
  m ← mask_or m has_aerosols;
  bad_mask ← mask_or m adjacent_to_cloud;
  r1 ← Nd.repeat 2 1 (mk_data bad_mask);
  bad_mask_iband ← Nd.repeat 2 0 r1;
  if bool_decide (Nd.ndim bad_mask_iband = length (dims (da_var qf1)))
  then Ok (mkMask (dims (da_var qf1)) (Nd.map negb bad_mask_iband))
  else Raise ValueError.

(** [VIIRSSurfaceReflectanceWithVIHandler._mask_invalid] *)
Definition _mask_invalid_vi (h : FileHandler) (data_arr : DataArray)
    (ds_info : gmap string pyval) : result DataArray :=
  new_data_arr ← _mask_invalid_base data_arr ds_info;
  file_key ← dict_item ds_info "file_key";
  if str_in file_key ["NDVI"; "EVI"] && _filter_veg h then
    good_mask ← _get_veg_index_good_mask h;
    da_where_mask new_data_arr good_mask
  else Ok new_data_arr.

(** [self._mask_invalid], by the class of the handler. *)
Definition _mask_invalid (h : FileHandler) (data_arr : DataArray)
    (ds_info : gmap string pyval) : result DataArray :=
  match cls h with
  | VIIRSSurfaceReflectanceWithVIHandler => _mask_invalid_vi h data_arr ds_info
  | _ => _mask_invalid_base data_arr ds_info
  end.

Definition _decode_flag_meanings (data_arr : DataArray) : DataArray :=
  match dict_get (da_attrs data_arr) "flag_meanings" with
  | PStr flag_meanings =>
      if negb (PyStr.contains PyStr.newline flag_meanings)
      then set_attr data_arr "flag_meanings"
             (PList (List.map PStr (PyStr.split_on " "%char flag_meanings)))
      else data_arr
  | _ => data_arr
  end.

Definition get_dataset (h : FileHandler) (info : gmap string pyval)
  : result DataArray :=
  file_key ← dict_item info "file_key";
  (* only a string names a variable of the file *)
  data_arr ← match file_key with
             | PStr k => ds_getitem (nc h) k
             | _ => Raise (KeyError "")
             end;
  data_arr ← _mask_invalid h data_arr info;
  let units := match info !! "units" with
               | Some u => u
               | None => dict_get (da_attrs data_arr) "units"
               end in
  let units := if is_none units || is_str units "unitless" then PStr "1" else units in
  let data_arr :=
    if is_str units "%" && str_in (dict_get (da_attrs data_arr) "units") ["1"; "unitless"]
    then set_data data_arr (Nd.map (fun x => num_mul x num_hundred) (data (da_var data_arr)))
    else data_arr in
  let data_arr := set_attr data_arr "units" units in
  let data_arr := match info !! "standard_name" with
                  | Some sn => set_attr data_arr "standard_name" sn
                  | None => data_arr
                  end in
  let data_arr := _decode_flag_meanings data_arr in
  pname ← platform_name h;
  let data_arr := set_attr data_arr "platform_name" (PStr pname) in
  let data_arr := set_attr data_arr "sensor" (PStr sensor_name) in
  rps ← rows_per_scans data_arr;
  let data_arr := set_attr data_arr "rows_per_scan" (PInt rps) in
  if str_in (dict_get (da_attrs data_arr) "standard_name") ["longitude"; "latitude"]
  then Ok (reset_coords_drop data_arr)
  else Ok data_arr.

(** ** Available datasets *)

(** What a generator produced: the items it yielded, in order, and the
    exception that ended it, if one did. *)
Definition ds_item : Type := option bool * gmap string pyval.
Definition generated : Type := list ds_item * option exn.

Definition gen_yield (items : list ds_item) (g : generated) : generated :=
  ((items ++ fst g)%list, snd g).

#[warnings="-register-all"]
Fixpoint hashable (v : pyval) : bool :=
  match v with
  | PList _ => false
  | PTuple l => forallb hashable l
  | _ => true
  end.

(** [handled_var_names.add(file_key)]; only strings can later be equal to a
    variable name. *)
Definition handled_add (handled : gset string) (file_key : pyval)
  : result (gset string) :=
  match file_key with
  | PStr k => Ok ({[k]} ∪ handled)
  | _ => if hashable file_key then Ok handled else Raise TypeError
  end.

(** [file_key in self.nc] *)
Definition in_nc (h : FileHandler) (file_key : pyval) : bool :=
  match file_key with
  | PStr k => ds_contains (nc h) k
  | _ => false
  end.

Definition dynamic_ds_info (h : FileHandler) (var_name : string) (data_arr : DataArray)
  : gmap string pyval :=
  let m_lon_name := "longitude_" +:+ ftype h in
  let m_lat_name := "latitude_" +:+ ftype h in
  let m_coords := PTuple [PStr m_lon_name; PStr m_lat_name] in
  let i_lon_name := "longitude_i_" +:+ ftype h in
  let i_lat_name := "latitude_i_" +:+ ftype h in
  let i_coords := PTuple [PStr i_lon_name; PStr i_lat_name] in
  let is_lon := PyStr.contains "longitude" (PyStr.lower var_name) in
  let is_lat := PyStr.contains "latitude" (PyStr.lower var_name) in
  let res750 := bool_decide (da_shape data_arr !! 1%nat = Some M_COLS) in
  let ds_info : gmap string pyval :=
    <["coordinates" := if res750 then m_coords else i_coords]>
    (<["resolution" := PInt (if res750 then 750 else 375)]>
    (<["name" := PStr var_name]>
    (<["file_type" := PStr (ftype h)]>
    (<["file_key" := PStr var_name]> ∅)))) in
  if is_lon then
    delete "coordinates"
      (<["name" := PStr (if res750 then m_lon_name else i_lon_name)]>
      (<["units" := PStr "degrees_east"]>
      (<["standard_name" := PStr "longitude"]> ds_info)))
  else if is_lat then
    delete "coordinates"
      (<["name" := PStr (if res750 then m_lat_name else i_lat_name)]>
      (<["units" := PStr "degrees_north"]>
      (<["standard_name" := PStr "latitude"]> ds_info)))
  else ds_info.

Fixpoint dynamic_loop (h : FileHandler) (handled : gset string)
    (var_names : list string) : generated :=
  match var_names with
  | [] => ([], None)
  | var_name :: rest =>
      match ds_getitem (nc h) var_name with
      | Raise e => ([], Some e)
      | Ok data_arr =>
          let is_lon := PyStr.contains "longitude" (PyStr.lower var_name) in
          let is_lat := PyStr.contains "latitude" (PyStr.lower var_name) in
          if bool_decide (var_name ∈ handled) && negb (is_lon || is_lat)
          then dynamic_loop h handled rest
          else if negb (Nat.eqb (Nd.ndim (data (da_var data_arr))) 2)
          then dynamic_loop h handled rest
          else gen_yield [(Some true, dynamic_ds_info h var_name data_arr)]
                         (dynamic_loop h handled rest)
      end
  end.

Definition _dynamic_variables_from_file (h : FileHandler) (handled_var_names : gset string)
  : generated :=
  dynamic_loop h handled_var_names (keys (variables (nc h))).

(** The loop over the configured datasets; when it ends normally the
    generator goes on with the variables found in the file. *)
Fixpoint configured_loop (h : FileHandler) (handled_var_names : gset string)
    (configured : list ds_item) : generated :=
  match configured with
  | [] => _dynamic_variables_from_file h handled_var_names
  | (is_avail, ds_info) :: rest =>
      match (name ← dict_item ds_info "name";
             let file_key := default name (ds_info !! "file_key") in
             handled ← handled_add handled_var_names file_key;
             Ok (file_key, handled)) with
      | Raise e => ([], Some e)
      | Ok (file_key, handled) =>
          match is_avail with
          | Some _ =>
              gen_yield [(is_avail, ds_info)] (configured_loop h handled rest)
          | None =>
              match dict_item ds_info "file_type" with
              | Raise e => ([], Some e)
              | Ok ds_ftype =>
                  let not_ours :=
                    match file_type_matches h ds_ftype with
                    | None => [(None, ds_info)]
                    | Some _ => []
                    end in
                  gen_yield (not_ours ++ [(Some (in_nc h file_key), ds_info)])%list
                            (configured_loop h handled rest)
              end
          end
      end
  end.

Definition available_datasets (h : FileHandler)
    (configured_datasets : option (list ds_item)) : generated :=
  configured_loop h ∅ (default [] configured_datasets).

(** The variables of the file that the dynamic part advertises: those with
    two dimensions that the configuration did not handle, and the
    longitudes and latitudes with two dimensions in any case. *)
Definition is_lonlat (var_name : string) : bool :=
  PyStr.contains "longitude" (PyStr.lower var_name)
  || PyStr.contains "latitude" (PyStr.lower var_name).

Definition discovered (h : FileHandler) (handled : gset string)
    (var_name : string) (data_arr : DataArray) : Prop :=
  ds_getitem (nc h) var_name = Ok data_arr
  ∧ Nd.ndim (data (da_var data_arr)) = 2%nat
  ∧ (var_name ∉ handled ∨ is_lonlat var_name = true).

(** ** The land surface temperature handler *)

Definition _manual_scalings : list (string * (string * string)) :=
  [("VLST", ("LST_ScaleFact", "LST_Offset"));
   ("emis_m15", ("LSE_ScaleFact", "LSE_Offset"));
   ("emis_m16", ("LSE_ScaleFact", "LSE_Offset"));
   ("emis_bbe", ("LSE_ScaleFact", "LSE_Offset"));
   ("Satellite_Azimuth_Angle", ("AZI_ScaleFact", "AZI_Offset"))].

(** [a * scale + offset] on the arrays themselves, as the [data] setter of a
    variable accepts it: the result must have the shape of [a], so both
    companions must broadcast to that shape. *)
Definition scaled (a scale offset : ndarray T) : result (ndarray T) :=
  sc ← of_option (Nd.broadcast_to (shape a) scale) ValueError;
  off ← of_option (Nd.broadcast_to (shape a) offset) ValueError;
  Ok (NdArray (shape a)
        (zip_with num_add (zip_with num_mul (flat a) sc) off)).

Definition scale_var (ds : Dataset) (var_name : string) : result Dataset :=
  match assoc var_name _manual_scalings with
  | None => Ok ds
  | Some (scale_name, offset_name) =>
      data_arr ← ds_getitem ds var_name;
      scale_factor ← ds_getitem ds scale_name;
      add_offset ← ds_getitem ds offset_name;
      new_data ← scaled (data (da_var data_arr)) (data (da_var scale_factor))
                        (data (da_var add_offset));
      Ok (ds_setitem ds var_name (set_data data_arr new_data))
  end.

Fixpoint scale_loop (ds : Dataset) (var_names : list string) : result Dataset :=
  match var_names with
  | [] => Ok ds
  | var_name :: rest => ds' ← scale_var ds var_name; scale_loop ds' rest
  end.

Definition _scale_data (ds : Dataset) : result Dataset :=
  scale_loop ds (keys (variables ds)).

(** [VIIRSLSTHandler.__init__] on the handler the base class set up. *)
Definition VIIRSLSTHandler_init (h : FileHandler) : result FileHandler :=
  nc' ← _scale_data (nc h);
  Ok (mkHandler VIIRSLSTHandler (filename_info h) (ftype h)
                (file_type_matches h) nc' (_filter_veg h)).

(** A variable of the file as the specification describes it after the
    initialisation: rescaled with its companions when [_manual_scalings]
    names it, as it was otherwise. *)
Definition rescaled_of_spec (ds : Dataset) (var_name : string) (var : XVariable)
  : result XVariable :=
  match assoc var_name _manual_scalings with
  | None => Ok var
  | Some (scale_name, offset_name) =>
      scale_factor ← of_option (assoc scale_name (variables ds)) (KeyError scale_name);
      add_offset ← of_option (assoc offset_name (variables ds)) (KeyError offset_name);
      new_data ← scaled (data var) (data scale_factor) (data add_offset);
      Ok (mkVariable (dims var) new_data (attrs var))
  end.

(** The companions of every variable to rescale are in the file and
    broadcast to its shape, as a test that attempts the rescaling of each
    variable; [companions_present] below states the condition itself. *)
Definition companions_ok (ds : Dataset) : bool :=
  forallb (fun kv => match rescaled_of_spec ds (fst kv) (snd kv) with
                     | Ok _ => true
                     | Raise _ => false
                     end)
          (variables ds).

(** The same condition stated on the file itself: every variable that
    [_manual_scalings] names has both companions among the variables of the
    file, and the data of each companion broadcasts to the shape of the
    variable. *)
Definition companions_present (ds : Dataset) : Prop :=
  ∀ name var scale_name offset_name,
    assoc name (variables ds) = Some var →
    assoc name _manual_scalings = Some (scale_name, offset_name) →
    ∃ scale_factor add_offset,
      assoc scale_name (variables ds) = Some scale_factor
      ∧ assoc offset_name (variables ds) = Some add_offset
      ∧ is_Some (Nd.broadcast_to (shape (data var)) (data scale_factor))
      ∧ is_Some (Nd.broadcast_to (shape (data var)) (data add_offset)).

(** The vegetation-index filter in the words of the specification: the
    flags of an M-band pixel for which the pixel is masked. *)
Definition bad_pixel_of_spec (qf1 qf2 qf7 : Z) : bool :=
  (Z.land qf1 192 >? 0)%Z                                (* sun glint *)
  || (Z.land qf1 12 >? 0)%Z                              (* not confidently clear *)
  || (Z.land qf1 3 <? 2)%Z                               (* low cloud mask quality *)
  || Z.testbit qf2 5                                     (* snow or ice *)
  || Z.testbit qf2 3                                     (* cloud shadow *)
  || ((Z.land qf2 7 <=? 2)%Z || (Z.land qf2 7 =? 5)%Z)   (* water *)
  || (Z.land qf7 12 >? 8)%Z                              (* high aerosol quantity *)
  || Z.testbit qf7 1.                                    (* adjacent to cloud *)

(** The flag variables of a surface reflectance file as the filter needs
    them: present, of integer type, on the same two dimensions, with [r]
    rows and [c] columns each. *)
Definition flags_ok (h : FileHandler) (flag_dims : list string) (r c : nat)
    (q1 q2 q7 : ndarray Z) : Prop :=
  ∃ qf1 qf2 qf7,
    ds_getitem (nc h) "QF1 Surface Reflectance" = Ok qf1
    ∧ ds_getitem (nc h) "QF2 Surface Reflectance" = Ok qf2
    ∧ ds_getitem (nc h) "QF7 Surface Reflectance" = Ok qf7
    ∧ int_data qf1 = Ok q1 ∧ int_data qf2 = Ok q2 ∧ int_data qf7 = Ok q7
    ∧ dims (da_var qf1) = flag_dims ∧ dims (da_var qf2) = flag_dims
    ∧ dims (da_var qf7) = flag_dims ∧ length flag_dims = 2%nat
    ∧ shape q1 = [r; c] ∧ shape q2 = [r; c] ∧ shape q7 = [r; c]
    ∧ Nd.wf q1 ∧ Nd.wf q2 ∧ Nd.wf q7.

End Reader.

Arguments pyval : clear implicits.
Arguments XVariable : clear implicits.
Arguments Dataset : clear implicits.
Arguments DataArray : clear implicits.
Arguments FileHandler : clear implicits.
Arguments ds_item : clear implicits.
Arguments generated : clear implicits.

(** ** The steps of loading *)

Section Steps.

Context {T : Type} `{ArrayOps T}.

(** The array that [get_dataset] builds before it looks at the coordinates. *)
Definition loaded (info : gmap string (pyval T)) (masked : DataArray T)
    (pname : string) (rps : Z) : DataArray T :=
  let file_units := dict_get (da_attrs masked) "units" in
  let units := match info !! "units" with Some u => u | None => file_units end in
  let units := if is_none units || is_str units "unitless" then PStr "1" else units in
  let data_arr :=
    if is_str units "%" && str_in file_units ["1"; "unitless"]
    then set_data masked (Nd.map (fun x => num_mul x num_hundred) (data (da_var masked)))
    else masked in
  let data_arr := set_attr data_arr "units" units in
  let data_arr := match info !! "standard_name" with
                  | Some sn => set_attr data_arr "standard_name" sn
                  | None => data_arr
                  end in
  let data_arr := _decode_flag_meanings data_arr in
  set_attr (set_attr (set_attr data_arr "platform_name" (PStr pname))
                     "sensor" (PStr sensor_name))
           "rows_per_scan" (PInt rps).

(** The key of a configured dataset: its [file_key], else its [name]. *)
Definition file_key_of (ds_info : gmap string (pyval T)) : pyval T :=
  default (dict_get ds_info "name") (ds_info !! "file_key").

(** A configured dataset that the loop can answer for without an
    exception and that is the handler's own when it is still undecided: it
    has a name, its key is hashable, and when no handler has decided on it,
    it has a file type that [file_type_matches] accepts. *)
Definition answerable (h : FileHandler T) (item : ds_item T) : Prop :=
  is_Some (snd item !! "name")
  ∧ hashable (file_key_of (snd item)) = true
  ∧ (fst item = None →
     ∃ ds_ftype, snd item !! "file_type" = Some ds_ftype
                 ∧ is_Some (file_type_matches h ds_ftype)).

(** The answer for such a dataset: the earlier decision, or whether the
    key names a variable of the file. *)
Definition answer (h : FileHandler T) (item : ds_item T) : ds_item T :=
  (match fst item with
   | Some b => Some b
   | None => Some (in_nc h (file_key_of (snd item)))
   end, snd item).

(** The variable names that the configured datasets have handled when the
    loop is through: the keys that are strings. *)
Fixpoint configured_keys (configured : list (ds_item T)) : gset string :=
  match configured with
  | [] => ∅
  | item :: rest =>
      match file_key_of (snd item) with
      | PStr k => {[k]} ∪ configured_keys rest
      | _ => configured_keys rest
      end
  end.

End Steps.

(** ** Opening a file *)

Section Init.

Context {T : Type} `{ArrayOps T}.

(** What the initialisation takes from outside this module: the chunk size
    limit in bytes of [satpy.utils.get_chunk_size_limit], the dataset that
    [xr.open_dataset] reads from a file name with the chunks asked for, and
    [Dataset.rename] of the array library. *)
Variable get_chunk_size_limit : Z.
Variable open_dataset : string -> list (string * Z) -> result (Dataset T).
Variable rename : Dataset T -> list (string * string) -> result (Dataset T).

(** Entire scans as chunks: the rows of a chunk at M-band and at I-band
    resolution. *)
Definition row_chunks_m : Z :=
  Z.max (get_chunk_size_limit / 4 / Z.of_nat M_COLS) 1.

Definition row_chunks_i : Z := row_chunks_m * 2.

Definition chunks : list (string * Z) :=
  [("Columns", -1);
   ("Rows", row_chunks_m);
   ("Along_Scan_375m", -1);
   ("Along_Track_375m", row_chunks_i);
   ("Along_Scan_750m", -1);
   ("Along_Track_750m", row_chunks_m)].

(** [ds.dims]: the dimensions of all the variables. *)
Definition ds_dims (ds : Dataset T) : list string :=
  concat (List.map (fun kv => dims (snd kv)) (variables ds)).

(** [ds[k].attrs.update({key: v})]: the attributes belong to the variable
    of the dataset. *)
Definition attrs_update (ds : Dataset T) (k key : string) (v : pyval T)
  : result (Dataset T) :=
  arr ← ds_getitem ds k;
  Ok (ds_setitem ds k (set_attr arr key v)).

(** The renaming in [__init__]: rows and columns become [y] and [x]. *)
Definition rename_xy (nc : Dataset T) : result (Dataset T) :=
  if mem "Columns" (ds_dims nc) then
    rename nc [("Columns", "x"); ("Rows", "y")]
  else if mem "Along_Track_375m" (ds_dims nc) then
    nc ← rename nc [("Along_Scan_375m", "x"); ("Along_Track_375m", "y")];
    rename nc [("Along_Scan_750m", "x"); ("Along_Track_750m", "y")]
  else Ok nc.

(** The standard names that [__init__] gives by hand. *)
Definition set_standard_names (nc : Dataset T) : result (Dataset T) :=
  nc ← (if ds_contains nc "Latitude"
        then attrs_update nc "Latitude" "standard_name" (PStr "latitude")
        else Ok nc);
  if ds_contains nc "Longitude"
  then attrs_update nc "Longitude" "standard_name" (PStr "longitude")
  else Ok nc.

(** [VIIRSJRRFileHandler.__init__], for a handler of class [c]; it gives the
    handler and its [algorithm_version]. *)
Definition base_init (c : handler_class) (filter_veg : bool) (filename : string)
    (filename_info : gmap string string) (file_type : string)
    (matches : pyval T -> option bool) : result (FileHandler T * string) :=
  nc ← open_dataset filename chunks;
  nc ← rename_xy nc;
  nc ← set_standard_names nc;
  algorithm_version ← of_option (filename_info !! "platform_shortname")
                                (KeyError "platform_shortname");
  Ok (mkHandler c filename_info file_type matches nc filter_veg, algorithm_version).

Definition VIIRSJRRFileHandler_init : string -> gmap string string -> string ->
    (pyval T -> option bool) -> result (FileHandler T * string) :=
  base_init VIIRSJRRFileHandler true.

(** [VIIRSSurfaceReflectanceWithVIHandler.__init__]; [filter_veg] is [True]
    when the caller does not give it. *)
Definition VIIRSSurfaceReflectanceWithVIHandler_init (filter_veg : option bool) :
    string -> gmap string string -> string ->
    (pyval T -> option bool) -> result (FileHandler T * string) :=
  base_init VIIRSSurfaceReflectanceWithVIHandler (default true filter_veg).

(** [VIIRSLSTHandler.__init__] from the file name on. *)
Definition VIIRSLSTHandler_open (filename : string)
    (filename_info : gmap string string) (file_type : string)
    (matches : pyval T -> option bool) : result (FileHandler T * string) :=
  hv ← base_init VIIRSLSTHandler true filename filename_info file_type matches;
  h ← VIIRSLSTHandler_init (fst hv);
  Ok (h, snd hv).

End Init.

(** ** A concrete element type: exact integers and the fill value *)

Module Cells.

Inductive cell : Type :=
  | NaN
  | Num (z : Z).

Definition le (a b : cell) : bool :=
  match a, b with
  | Num x, Num y => (x <=? y)%Z
  | _, _ => false
  end.

Definition lift2 (f : Z -> Z -> Z) (a b : cell) : cell :=
  match a, b with
  | Num x, Num y => Num (f x y)
  | _, _ => NaN
  end.

Definition as_int (a : cell) : option Z :=
  match a with
  | Num x => Some x
  | NaN => None
  end.

#[export] Instance cell_ops : ArrayOps cell := {|
  num_le := le;
  num_mul := lift2 Z.mul;
  num_add := lift2 Z.add;
  num_nan := NaN;
  num_hundred := Num 100;
  num_of_Z := Num;
  num_as_int := as_int
|}.

End Cells.

(** ** Small files to run the handlers on *)

Module Examples.
Import Cells.

Definition variable (ds : list string) (sh : list nat) (values : list cell)
    (ats : list (string * pyval cell)) : XVariable cell :=
  mkVariable ds (NdArray sh values) (list_to_map ats).

(** [BaseFileHandler.file_type_matches] for a handler of file type [ft]:
    [True] when the dataset names that type, alone or in a list, [None]
    otherwise. *)
Definition matches (ft : string) (ds_ftype : pyval cell) : option bool :=
  let hit := match ds_ftype with
             | PList l | PTuple l => existsb (fun v => is_str v ft) l
             | _ => is_str ds_ftype ft
             end in
  if hit then Some true else None.

(** An aerosol optical depth file of two rows and two columns. *)
Definition aod_nc : Dataset cell :=
  mkDataset
    [("Latitude", variable ["y"; "x"] [2; 2]%nat [Num 10; Num 10; Num 11; Num 11]
                           [("standard_name", PStr "latitude")]);
     ("Longitude", variable ["y"; "x"] [2; 2]%nat [Num 20; Num 21; Num 20; Num 21]
                            [("standard_name", PStr "longitude")]);
     ("AOD550", variable ["y"; "x"] [2; 2]%nat [Num (-5); Num 3; Num 7; NaN]
                         [("units", PStr "1")]);
     ("QCAll", variable ["y"; "x"] [2; 2]%nat [Num 0; Num 1; Num 2; Num 3]
                        [("units", PStr "1")])]
    ["Latitude"; "Longitude"] [].

Definition aod_handler : FileHandler cell :=
  mkHandler VIIRSJRRFileHandler {["platform_shortname" := "j01"]}
            "jrr_aod" (matches "jrr_aod") aod_nc true.

(** The configured dataset of the aerosol file, in percent. *)
Definition aod_info : gmap string (pyval cell) :=
  list_to_map [("name", PStr "AOD550"); ("file_key", PStr "AOD550");
               ("file_type", PStr "jrr_aod"); ("units", PStr "%");
               ("valid_range", PTuple [PInt 0; PInt 5])].


(** A dataset that the configuration gives to the cloud mask files. *)
Definition cloud_mask_info : gmap string (pyval cell) :=
  list_to_map [("name", PStr "cloud_mask"); ("file_key", PStr "CloudMask");
               ("file_type", PStr "jrr_cloudmask")].

(** A land surface temperature file before the rescaling. *)
Definition lst_nc : Dataset cell :=
  mkDataset
    [("VLST", variable ["y"; "x"] [1; 2]%nat [Num 3; Num 4] []);
     ("LST_ScaleFact", variable [] [] [Num 2] []);
     ("LST_Offset", variable [] [] [Num 100] []);
     ("emis_m15", variable ["y"; "x"] [1; 2]%nat [Num 5; Num 6] []);
     ("LSE_ScaleFact", variable [] [] [Num 3] []);
     ("LSE_Offset", variable [] [] [Num 1] []);
     ("Quality_Flag", variable ["y"; "x"] [1; 2]%nat [Num 0; Num 1] [])]
    [] [].

Definition lst_handler : FileHandler cell :=
  mkHandler VIIRSJRRFileHandler {["platform_shortname" := "npp"]}
            "jrr_lst" (matches "jrr_lst") lst_nc true.

(** A surface reflectance file: one M-band pixel, clear over land in the
    flags, and the four I-band pixels of NDVI over it. *)
Definition sr_nc (qf1 qf2 qf7 : Z) : Dataset cell :=
  mkDataset
    [("QF1 Surface Reflectance", variable ["y"; "x"] [1; 1]%nat [Num qf1] []);
     ("QF2 Surface Reflectance", variable ["y"; "x"] [1; 1]%nat [Num qf2] []);
     ("QF7 Surface Reflectance", variable ["y"; "x"] [1; 1]%nat [Num qf7] []);
     ("NDVI", variable ["y"; "x"] [2; 2]%nat [Num 1; Num 2; Num 3; Num 9]
                       [("valid_range", PTuple [PInt 0; PInt 5])])]
    [] [].

Definition sr_handler (qf1 qf2 qf7 : Z) : FileHandler cell :=
  mkHandler VIIRSSurfaceReflectanceWithVIHandler {["platform_shortname" := "j02"]}
            "jrr_surfref_product" (matches "jrr_surfref_product")
            (sr_nc qf1 qf2 qf7) true.

Definition ndvi_info : gmap string (pyval cell) :=
  list_to_map [("name", PStr "NDVI"); ("file_key", PStr "NDVI");
               ("file_type", PStr "jrr_surfref_product")].

Definition ndvi_arr : DataArray cell :=
  mkDataArray (variable ["y"; "x"] [2; 2]%nat [Num 1; Num 2; Num 3; Num 9]
                        [("valid_range", PTuple [PInt 0; PInt 5])]) [] [].

Definition aod_arr : DataArray cell :=
  mkDataArray (variable ["y"; "x"] [2; 2]%nat [Num (-5); Num 3; Num 7; NaN]
                        [("units", PStr "1")])
              ["Latitude"; "Longitude"] [].

(** The aerosol array after the masking to the range from 0 to 5. *)
Definition aod_masked : DataArray cell :=
  mkDataArray (variable ["y"; "x"] [2; 2]%nat [NaN; Num 3; NaN; NaN]
                        [("units", PStr "1")])
              ["Latitude"; "Longitude"] [].


(** NDVI after the masking to its valid range. *)
Definition ndvi_base : DataArray cell :=
  mkDataArray (variable ["y"; "x"] [2; 2]%nat [Num 1; Num 2; Num 3; NaN]
                        [("valid_range", PTuple [PInt 0; PInt 5])]) [] [].

(** A scale factor of the LST file, a variable without dimensions. *)
Definition scale_info : gmap string (pyval cell) :=
  list_to_map [("name", PStr "LST_ScaleFact"); ("file_key", PStr "LST_ScaleFact");
               ("file_type", PStr "jrr_lst")].

Definition scale_arr : DataArray cell :=
  mkDataArray (variable [] [] [Num 2] []) [] [].

(** The aerosol file under a platform short name that the table lacks. *)
Definition n20_handler : FileHandler cell :=
  mkHandler VIIRSJRRFileHandler {["platform_shortname" := "n20"]}
            "jrr_aod" (matches "jrr_aod") aod_nc true.

(** The quality flags of the aerosol file, configured without units. *)
Definition qc_info : gmap string (pyval cell) :=
  list_to_map [("name", PStr "QCAll"); ("file_key", PStr "QCAll");
               ("file_type", PStr "jrr_aod")].

Definition qc_arr : DataArray cell :=
  mkDataArray (variable ["y"; "x"] [2; 2]%nat [Num 0; Num 1; Num 2; Num 3]
                        [("units", PStr "1")])
              ["Latitude"; "Longitude"] [].

(** A cloud mask file: a variable with flag meanings, and one with a lower
    bound only. *)
Definition cloud_arr : DataArray cell :=
  mkDataArray (variable ["y"; "x"] [1; 2]%nat [Num 0; Num 3]
                        [("flag_meanings",
                          PStr "clear probably_clear probably_cloudy cloudy")])
              [] [].

Definition cloud_nc : Dataset cell :=
  mkDataset
    [("CloudMask", variable ["y"; "x"] [1; 2]%nat [Num 0; Num 3]
                            [("flag_meanings",
                              PStr "clear probably_clear probably_cloudy cloudy")]);
     ("CloudProbability", variable ["y"; "x"] [1; 2]%nat [Num 0; Num 1]
                                   [("valid_min", PNum (Num 0))])]
    [] [].

Definition cloud_handler : FileHandler cell :=
  mkHandler VIIRSJRRFileHandler {["platform_shortname" := "j01"]}
            "jrr_cloudmask" (matches "jrr_cloudmask") cloud_nc true.

Definition probability_info : gmap string (pyval cell) :=
  list_to_map [("name", PStr "cloud_probability"); ("file_key", PStr "CloudProbability");
               ("file_type", PStr "jrr_cloudmask")].

Definition probability_arr : DataArray cell :=
  mkDataArray (variable ["y"; "x"] [1; 2]%nat [Num 0; Num 1]
                        [("valid_min", PNum (Num 0))]) [] [].

(** A dataset info without a name. *)
Definition nameless_info : gmap string (pyval cell) :=
  list_to_map [("file_key", PStr "AOD550"); ("file_type", PStr "jrr_aod")].

(** A surface reflectance file without quality flags. *)
Definition sr_noflags_nc : Dataset cell :=
  mkDataset
    [("NDVI", variable ["y"; "x"] [2; 2]%nat [Num 1; Num 2; Num 3; Num 9]
                       [("valid_range", PTuple [PInt 0; PInt 5])])]
    [] [].

Definition sr_noflags_handler : FileHandler cell :=
  mkHandler VIIRSSurfaceReflectanceWithVIHandler {["platform_shortname" := "j02"]}
            "jrr_surfref_product" (matches "jrr_surfref_product") sr_noflags_nc true.

(** The aerosol file as it is on disk, with rows and columns and without
    standard names, and what opening and renaming do for it. *)
Definition raw_aod_nc : Dataset cell :=
  mkDataset
    [("Latitude", variable ["Rows"; "Columns"] [2; 2]%nat
                           [Num 10; Num 10; Num 11; Num 11] []);
     ("Longitude", variable ["Rows"; "Columns"] [2; 2]%nat
                            [Num 20; Num 21; Num 20; Num 21] []);
     ("AOD550", variable ["Rows"; "Columns"] [2; 2]%nat
                         [Num (-5); Num 3; Num 7; NaN] [("units", PStr "1")])]
    ["Latitude"; "Longitude"] [].

Definition open_aod (filename : string) (chunks : list (string * Z))
  : result (Dataset cell) :=
  if String.eqb filename "JRR-AOD_j01.nc" then Ok raw_aod_nc
  else Raise (KeyError filename).

Definition rename_dims (ds : Dataset cell) (names : list (string * string))
  : result (Dataset cell) :=
  Ok (mkDataset
        (List.map (fun kv =>
           (fst kv,
            mkVariable (List.map (fun d => default d (assoc d names)) (dims (snd kv)))
                       (data (snd kv)) (attrs (snd kv))))
           (variables ds))
        (coord_names ds) (indexes ds)).

Definition renamed_aod_nc : Dataset cell :=
  mkDataset
    [("Latitude", variable ["y"; "x"] [2; 2]%nat
                           [Num 10; Num 10; Num 11; Num 11] []);
     ("Longitude", variable ["y"; "x"] [2; 2]%nat
                            [Num 20; Num 21; Num 20; Num 21] []);
     ("AOD550", variable ["y"; "x"] [2; 2]%nat
                         [Num (-5); Num 3; Num 7; NaN] [("units", PStr "1")])]
    ["Latitude"; "Longitude"] [].


End Examples.

(** * Properties *)

(** ** The string and array operations on small inputs *)

Example upper_shortname : PyStr.upper "jpss-1" = "JPSS-1".
Proof. reflexivity. Qed.

Example contains_longitude :
  PyStr.contains "longitude" (PyStr.lower "Longitude_at_750m") = true.
Proof. reflexivity. Qed.

Example split_flag_meanings :
  PyStr.split_on " " "clear probably_clear  cloudy" = ["clear"; "probably_clear"; ""; "cloudy"].
Proof. reflexivity. Qed.

Example repeat_columns :
  Nd.repeat 2 1 (NdArray [2; 2]%nat [1; 2; 3; 4])
  = Ok (NdArray [2; 4]%nat [1; 1; 2; 2; 3; 3; 4; 4]).
Proof. reflexivity. Qed.

Example repeat_rows :
  Nd.repeat 2 0 (NdArray [2; 2]%nat [1; 2; 3; 4])
  = Ok (NdArray [4; 2]%nat [1; 2; 1; 2; 3; 4; 3; 4]).
Proof. reflexivity. Qed.

Example repeat_bad_axis : Nd.repeat 2 1 (NdArray [3]%nat [1; 2; 3]) = Raise AxisError.
Proof. reflexivity. Qed.

Example broadcast_row :
  Nd.broadcast_to [2; 3]%nat (NdArray [3]%nat [1; 2; 3]) = Some [1; 2; 3; 1; 2; 3].
Proof. reflexivity. Qed.

Example broadcast_column :
  Nd.broadcast_to [2; 3]%nat (NdArray [2; 1]%nat [1; 2]) = Some [1; 1; 1; 2; 2; 2].
Proof. reflexivity. Qed.

Example broadcast_mismatch :
  Nd.broadcast_to [2; 3]%nat (NdArray [2]%nat [1; 2]) = None.
Proof. reflexivity. Qed.

Section Properties.

Context {T : Type} `{ArrayOps T}.

(** ** Platform names *)

Lemma assoc_platform_dict_None (key : string) :
  key ≠ "NPP" → key ≠ "JPSS-1" → key ≠ "J01" → key ≠ "JPSS-2" → key ≠ "J02" →
  assoc key platform_dict = None.
Proof.
  intros H1 H2 H3 H4 H5. unfold platform_dict. cbn [assoc].
  repeat match goal with
         | |- context [String.eqb ?a key] =>
             destruct (String.eqb_spec a key) as [Heq | _];
             [symmetry in Heq; contradiction |]
         end.
  reflexivity.
Qed.

(** The platform name depends on the short name up to case only. *)
Lemma platform_name_case (h h' : FileHandler T) (s s' : string) :
  filename_info h !! "platform_shortname" = Some s →
  filename_info h' !! "platform_shortname" = Some s' →
  PyStr.upper s = PyStr.upper s' →
  platform_name h = platform_name h'.
Proof.
  intros Hs Hs' Heq. unfold platform_name. rewrite Hs, Hs'.
  cbn [of_option mbind result_bind]. by rewrite Heq.
Qed.

(** C9. The platform name of a handler is looked up by the upper-cased
    short name of the file: NPP gives Suomi-NPP, JPSS-1 and J01 give
    NOAA-20, JPSS-2 and J02 give NOAA-21, and any other short name ends in
    the [KeyError] of the dictionary lookup. *)
Theorem platform_name_spec (h : FileHandler T) (shortname : string) :
  filename_info h !! "platform_shortname" = Some shortname →
  let key := PyStr.upper shortname in
  (key = "NPP" → platform_name h = Ok "Suomi-NPP") ∧
  (key = "JPSS-1" → platform_name h = Ok "NOAA-20") ∧
  (key = "J01" → platform_name h = Ok "NOAA-20") ∧
  (key = "JPSS-2" → platform_name h = Ok "NOAA-21") ∧
  (key = "J02" → platform_name h = Ok "NOAA-21") ∧
  (key ∉ ["NPP"; "JPSS-1"; "J01"; "JPSS-2"; "J02"] →
   platform_name h = Raise (KeyError key)).
Proof.
  intros Hinfo key. unfold platform_name. rewrite Hinfo. cbn [of_option mbind result_bind].
  fold key.
  repeat split; intros Hk; try (rewrite Hk; reflexivity).
  rewrite assoc_platform_dict_None; [reflexivity | ..];
    intros ->; apply Hk; set_solver.
Qed.

(** ** Masking by the valid range *)

Lemma da_where_values (cond : T → bool) (arr : DataArray T) :
  da_values (da_where cond arr)
  = List.map (fun x => if cond x then x else num_nan) (da_values arr).
Proof. reflexivity. Qed.

Lemma da_where_shape (cond : T → bool) (arr : DataArray T) :
  da_shape (da_where cond arr) = da_shape arr.
Proof. reflexivity. Qed.

Lemma da_where_attrs (cond : T → bool) (arr : DataArray T) :
  da_attrs (da_where cond arr) = da_attrs arr.
Proof. reflexivity. Qed.

Lemma is_none_true (v : pyval T) : is_none v = true ↔ v = PNone.
Proof. destruct v; cbn; split; congruence. Qed.

Lemma is_none_false (v : pyval T) : v ≠ PNone → is_none v = false.
Proof. destruct v; cbn; congruence. Qed.

(** With an explicit range the attributes [valid_min] and [valid_max] are
    not looked at. *)
Lemma mask_invalid_base_range (data_arr : DataArray T)
    (ds_info : gmap string (pyval T)) (valid_range : pyval T) (lo hi : T) :
  match ds_info !! "valid_range" with
  | Some v => v
  | None => dict_get (da_attrs data_arr) "valid_range"
  end = valid_range →
  valid_range ≠ PNone →
  item_num valid_range 0 = Ok lo →
  item_num valid_range 1 = Ok hi →
  _mask_invalid_base data_arr ds_info
  = Ok (da_where (fun x => num_le lo x && num_le x hi) data_arr).
Proof.
  intros Hvr Hnn Hlo Hhi. unfold _mask_invalid_base. rewrite Hvr.
  rewrite (is_none_false _ Hnn), andb_false_r. cbn [mbind result_bind].
  rewrite (is_none_false _ Hnn), Hlo, Hhi. reflexivity.
Qed.

(** A [valid_min] attribute without a [valid_max] one ends in a [KeyError]
    when no range was given otherwise. *)
Lemma mask_invalid_base_valid_min_only (data_arr : DataArray T)
    (ds_info : gmap string (pyval T)) :
  ds_info !! "valid_range" = None →
  da_attrs data_arr !! "valid_range" = None →
  is_Some (da_attrs data_arr !! "valid_min") →
  da_attrs data_arr !! "valid_max" = None →
  _mask_invalid_base data_arr ds_info = Raise (KeyError "valid_max").
Proof.
  intros Hi Ha [vmin Hmin] Hmax. unfold _mask_invalid_base, dict_get, dict_item.
  rewrite Hi, Ha, Hmin, Hmax. reflexivity.
Qed.

Lemma mask_invalid_base_no_explicit (data_arr : DataArray T)
    (ds_info : gmap string (pyval T)) :
  is_none (match ds_info !! "valid_range" with
           | Some v => v
           | None => dict_get (da_attrs data_arr) "valid_range"
           end) = true →
  _mask_invalid_base data_arr ds_info
  = match da_attrs data_arr !! "valid_min", da_attrs data_arr !! "valid_max" with
    | None, _ => Ok data_arr
    | Some vmin, Some vmax =>
        lo ← item_num (PTuple [vmin; vmax]) 0;
        hi ← item_num (PTuple [vmin; vmax]) 1;
        Ok (da_where (fun x => num_le lo x && num_le x hi) data_arr)
    | Some _, None => Raise (KeyError "valid_max")
    end.
Proof.
  intros Hnone. unfold _mask_invalid_base. rewrite Hnone, andb_true_r.
  unfold dict_item.
  destruct (da_attrs data_arr !! "valid_min") as [vmin |] eqn:Emin.
  - rewrite bool_decide_eq_true_2 by eauto.
    destruct (da_attrs data_arr !! "valid_max") as [vmax |]; reflexivity.
  - rewrite bool_decide_eq_false_2 by (intros [? ?]; discriminate).
    cbn [mbind result_bind]. by rewrite Hnone.
Qed.

Lemma da_where_spec (data_arr : DataArray T) (lo hi : T) :
  ∃ out, Ok (da_where (fun x => num_le lo x && num_le x hi) data_arr) = Ok out
    ∧ da_shape out = da_shape data_arr
    ∧ da_attrs out = da_attrs data_arr
    ∧ length (da_values out) = length (da_values data_arr)
    ∧ ∀ i x, da_values data_arr !! i = Some x →
        da_values out !! i
        = Some (if num_le lo x && num_le x hi then x else num_nan).
Proof.
  eexists. split; [reflexivity |].
  rewrite da_where_shape, da_where_attrs, da_where_values, length_map.
  repeat split. intros i x Hx.
  change (List.map ?f ?l) with (f <$> l). rewrite list_lookup_fmap, Hx.
  reflexivity.
Qed.

(** C8. [_mask_invalid] of the base handler takes the valid range from the
    dataset info when the info has the entry, else from the [valid_range]
    attribute of the array; when that gives nothing (no entry, or [None])
    and the array has a [valid_min] attribute, the range is the pair of the
    attributes [valid_min] and [valid_max], and a missing [valid_max] is a
    [KeyError]. With a range [lo, hi] every element inside the closed
    interval is kept and every other element is replaced by the fill value;
    without a range the array comes back as it is. *)
Theorem mask_invalid_valid_range_amended (data_arr : DataArray T)
    (ds_info : gmap string (pyval T)) :
  match valid_range_amended ds_info (da_attrs data_arr) with
  | Raise e => _mask_invalid_base data_arr ds_info = Raise e
  | Ok None => _mask_invalid_base data_arr ds_info = Ok data_arr
  | Ok (Some valid_range) =>
      ∀ lo hi, item_num valid_range 0 = Ok lo → item_num valid_range 1 = Ok hi →
      ∃ out, _mask_invalid_base data_arr ds_info = Ok out
        ∧ da_shape out = da_shape data_arr
        ∧ da_attrs out = da_attrs data_arr
        ∧ length (da_values out) = length (da_values data_arr)
        ∧ ∀ i x, da_values data_arr !! i = Some x →
            da_values out !! i
            = Some (if num_le lo x && num_le x hi then x else num_nan)
  end.
Proof.
  unfold valid_range_amended.
  assert (Hpair :
    is_none (match ds_info !! "valid_range" with
             | Some v => v
             | None => dict_get (da_attrs data_arr) "valid_range"
             end) = true →
    match
      match da_attrs data_arr !! "valid_min", da_attrs data_arr !! "valid_max" with
      | None, _ => Ok None
      | Some vmin, Some vmax => Ok (Some (PTuple [vmin; vmax]))
      | Some _, None => Raise (KeyError "valid_max")
      end
    with
    | Raise e => _mask_invalid_base data_arr ds_info = Raise e
    | Ok None => _mask_invalid_base data_arr ds_info = Ok data_arr
    | Ok (Some valid_range) =>
        ∀ lo hi, item_num valid_range 0 = Ok lo → item_num valid_range 1 = Ok hi →
        ∃ out, _mask_invalid_base data_arr ds_info = Ok out
          ∧ da_shape out = da_shape data_arr
          ∧ da_attrs out = da_attrs data_arr
          ∧ length (da_values out) = length (da_values data_arr)
          ∧ ∀ i x, da_values data_arr !! i = Some x →
              da_values out !! i
              = Some (if num_le lo x && num_le x hi then x else num_nan)
    end).
  { intros Hnone. rewrite (mask_invalid_base_no_explicit _ _ Hnone).
    destruct (da_attrs data_arr !! "valid_min") as [vmin |]; [| reflexivity].
    destruct (da_attrs data_arr !! "valid_max") as [vmax |]; [| reflexivity].
    intros lo hi Hlo Hhi. rewrite Hlo, Hhi. apply da_where_spec. }
  assert (Hexplicit : ∀ v,
    match ds_info !! "valid_range" with
    | Some v => v
    | None => dict_get (da_attrs data_arr) "valid_range"
    end = v →
    is_none v = false →
    ∀ lo hi, item_num v 0 = Ok lo → item_num v 1 = Ok hi →
    ∃ out, _mask_invalid_base data_arr ds_info = Ok out
      ∧ da_shape out = da_shape data_arr
      ∧ da_attrs out = da_attrs data_arr
      ∧ length (da_values out) = length (da_values data_arr)
      ∧ ∀ i x, da_values data_arr !! i = Some x →
          da_values out !! i
          = Some (if num_le lo x && num_le x hi then x else num_nan)).
  { intros v Hv Hnone lo hi Hlo Hhi.
    rewrite (mask_invalid_base_range data_arr ds_info v lo hi); auto.
    - apply da_where_spec.
    - intros ->. discriminate. }
  destruct (ds_info !! "valid_range") as [v |] eqn:Ei.
  { destruct (is_none v) eqn:Hnone; [by apply Hpair | by apply Hexplicit]. }
  unfold dict_get in Hpair, Hexplicit.
  destruct (da_attrs data_arr !! "valid_range") as [v |] eqn:Ea.
  { destruct (is_none v) eqn:Hnone; [by apply Hpair | by apply Hexplicit]. }
  by apply Hpair.
Qed.

(** ** Loading a dataset *)

Lemma rows_per_scans_shape (a b : DataArray T) :
  da_shape a = da_shape b → rows_per_scans a = rows_per_scans b.
Proof. unfold rows_per_scans. by intros ->. Qed.

Lemma decode_flag_meanings_shape (a : DataArray T) :
  da_shape (_decode_flag_meanings a) = da_shape a.
Proof.
  unfold _decode_flag_meanings.
  destruct (dict_get _ _); try reflexivity. by destruct (negb _).
Qed.

Lemma decode_flag_meanings_values (a : DataArray T) :
  da_values (_decode_flag_meanings a) = da_values a.
Proof.
  unfold _decode_flag_meanings.
  destruct (dict_get _ _); try reflexivity. by destruct (negb _).
Qed.

Lemma decode_flag_meanings_coords (a : DataArray T) :
  da_coords (_decode_flag_meanings a) = da_coords a
  ∧ da_indexes (_decode_flag_meanings a) = da_indexes a.
Proof.
  unfold _decode_flag_meanings.
  destruct (dict_get _ _); try done. by destruct (negb _).
Qed.

Lemma decode_flag_meanings_attrs (a : DataArray T) (k : string) :
  k ≠ "flag_meanings" →
  da_attrs (_decode_flag_meanings a) !! k = da_attrs a !! k.
Proof.
  intros Hk. unfold _decode_flag_meanings.
  destruct (dict_get _ _); try reflexivity.
  destruct (negb _); [| reflexivity].
  unfold da_attrs, set_attr. cbn. by rewrite lookup_insert_ne.
Qed.

Lemma da_where_mask_frame (arr out : DataArray T) (good : Mask) :
  da_where_mask arr good = Ok out →
  da_attrs out = da_attrs arr ∧ da_shape out = da_shape arr
  ∧ da_coords out = da_coords arr ∧ da_indexes out = da_indexes arr.
Proof.
  unfold da_where_mask. destruct (_ && _); [| discriminate].
  intros [= <-]. done.
Qed.

Lemma mask_invalid_base_frame (arr out : DataArray T) (info : gmap string (pyval T)) :
  _mask_invalid_base arr info = Ok out →
  da_attrs out = da_attrs arr ∧ da_shape out = da_shape arr
  ∧ da_coords out = da_coords arr ∧ da_indexes out = da_indexes arr.
Proof.
  unfold _mask_invalid_base.
  match goal with |- mbind _ ?m = _ → _ => destruct m as [vr |] end;
    [| discriminate].
  cbn [mbind result_bind].
  destruct (is_none vr); [by intros [= <-] |].
  destruct (item_num vr 0); [| discriminate].
  destruct (item_num vr 1); [| discriminate].
  by intros [= <-].
Qed.

(** Masking touches the elements only. *)
Lemma mask_invalid_frame (h : FileHandler T) (arr out : DataArray T)
    (info : gmap string (pyval T)) :
  _mask_invalid h arr info = Ok out →
  da_attrs out = da_attrs arr ∧ da_shape out = da_shape arr
  ∧ da_coords out = da_coords arr ∧ da_indexes out = da_indexes arr.
Proof.
  unfold _mask_invalid, _mask_invalid_vi.
  destruct (cls h); try apply mask_invalid_base_frame.
  destruct (_mask_invalid_base arr info) as [new |] eqn:Ebase; [| discriminate].
  apply mask_invalid_base_frame in Ebase. cbn.
  destruct (dict_item info "file_key"); [| discriminate]. cbn.
  destruct (_ && _).
  - destruct (_get_veg_index_good_mask h); [| discriminate]. cbn.
    intros Hw. apply da_where_mask_frame in Hw. intuition congruence.
  - by intros [= <-].
Qed.

Lemma is_str_true (v : pyval T) (s : string) : is_str v s = true ↔ v = PStr s.
Proof.
  destruct v; cbn; try (split; congruence).
  rewrite String.eqb_eq. split; congruence.
Qed.

(** C7. [get_dataset] takes the units from the dataset info, else from the
    [units] attribute of the file. When they are missing or "unitless" the
    array it returns has units "1"; when the dataset info asks for "%" and
    the file says "1" or "unitless", every element of the masked array is
    multiplied by 100 and the units are "%". *)
Theorem get_dataset_units (h : FileHandler T) (info : gmap string (pyval T))
    (k : string) (arr masked : DataArray T) (pname : string) (rps : Z) :
  info !! "file_key" = Some (PStr k) →
  ds_getitem (nc h) k = Ok arr →
  _mask_invalid h arr info = Ok masked →
  platform_name h = Ok pname →
  rows_per_scans arr = Ok rps →
  let file_units := dict_get (da_attrs arr) "units" in
  let units := match info !! "units" with Some u => u | None => file_units end in
  ∃ out, get_dataset h info = Ok out
    ∧ (units = PNone ∨ units = PStr "unitless" →
       da_attrs out !! "units" = Some (PStr "1"))
    ∧ (info !! "units" = Some (PStr "%") →
       file_units = PStr "1" ∨ file_units = PStr "unitless" →
       da_values out = List.map (fun x => num_mul x num_hundred) (da_values masked)
       ∧ da_attrs out !! "units" = Some (PStr "%")).
Proof.
  intros Hkey Harr Hmask Hplat Hrps file_units units.
  destruct (mask_invalid_frame _ _ _ _ Hmask) as (Hattrs & Hshape & _).
  unfold get_dataset, dict_item. rewrite Hkey. cbn [of_option mbind result_bind].
  rewrite Harr. cbn [mbind result_bind]. rewrite Hmask. cbn [mbind result_bind].
  rewrite Hplat. cbn [mbind result_bind].
  rewrite Hattrs. fold file_units. fold units.
  set (units' := if is_none units || is_str units "unitless" then PStr "1" else units).
  set (scaled_arr := if is_str units' "%" && str_in file_units ["1"; "unitless"]
                     then set_data masked _ else masked).
  set (named := match info !! "standard_name" with
                | Some sn => set_attr (set_attr scaled_arr "units" units') "standard_name" sn
                | None => set_attr scaled_arr "units" units'
                end).
  set (final := set_attr (set_attr (_decode_flag_meanings named) _ _) _ _).
  assert (Hsh : da_shape final = da_shape arr).
  { unfold final. change (da_shape (set_attr (set_attr ?a _ _) _ _)) with (da_shape a).
    rewrite decode_flag_meanings_shape. unfold named.
    destruct (info !! "standard_name");
      change (da_shape (set_attr (set_attr ?a _ _) _ _)) with (da_shape a);
      change (da_shape (set_attr ?a _ _)) with (da_shape a);
      unfold scaled_arr; destruct (_ && _); done. }
  rewrite (rows_per_scans_shape final arr Hsh), Hrps. cbn [mbind result_bind].
  set (out := set_attr final "rows_per_scan" (PInt rps)).
  assert (Hunits : da_attrs out !! "units" = Some units').
  { unfold out, final, da_attrs, set_attr. cbn.
    rewrite !lookup_insert_ne by done.
    fold (da_attrs (_decode_flag_meanings named)).
    rewrite decode_flag_meanings_attrs by done. unfold named.
    destruct (info !! "standard_name"); unfold da_attrs, set_attr; cbn.
    - rewrite lookup_insert_ne by done. by rewrite lookup_insert_eq.
    - by rewrite lookup_insert_eq. }
  assert (Hvals : da_values out = da_values scaled_arr).
  { unfold out, final.
    change (da_values (set_attr (set_attr (set_attr ?a _ _) _ _) _ _)) with (da_values a).
    rewrite decode_flag_meanings_values. unfold named.
    by destruct (info !! "standard_name"). }
  exists (if str_in (dict_get (da_attrs out) "standard_name") ["longitude"; "latitude"]
          then reset_coords_drop out else out).
  split; [by destruct (str_in (dict_get (da_attrs out) _) _) |].
  assert (Hout : ∀ o, (if str_in (dict_get (da_attrs out) "standard_name")
                            ["longitude"; "latitude"]
                       then reset_coords_drop out else out) = o →
                 da_attrs o = da_attrs out ∧ da_values o = da_values out).
  { intros o <-. by destruct (str_in (dict_get (da_attrs out) _) _). }
  destruct (Hout _ eq_refl) as [-> ->]. rewrite Hunits, Hvals. split.
  - intros Hu. unfold units'.
    destruct Hu as [-> | ->]; reflexivity.
  - intros Hpct Hfile.
    assert (Hu : units' = PStr "%").
    { unfold units', units. by rewrite Hpct. }
    assert (Hin : str_in file_units ["1"; "unitless"] = true).
    { destruct Hfile as [-> | ->]; reflexivity. }
    unfold scaled_arr. rewrite Hu, Hin. done.
Qed.

(** ** Longitudes and latitudes carry no coordinates *)

Lemma mem_elem_of (k : string) (l : list string) : mem k l = true ↔ k ∈ l.
Proof.
  unfold mem. rewrite existsb_exists. split.
  - intros (x & Hin & Heq). apply String.eqb_eq in Heq as ->.
    by apply list_elem_of_In.
  - intros Hin. exists k. split; [by apply list_elem_of_In | apply String.eqb_refl].
Qed.



Lemma assoc_is_Some {V : Type} (k : string) (l : list (string * V)) :
  k ∈ keys l → is_Some (assoc k l).
Proof.
  induction l as [| [k' v] l IH]; cbn.
  - intros Hin. by apply elem_of_nil in Hin.
  - intros Hin. destruct (String.eqb_spec k' k) as [-> | Hne]; [eauto |].
    apply elem_of_cons in Hin as [-> | Hin]; [done | auto].
Qed.

Lemma ds_getitem_keys (ds : Dataset T) (k : string) :
  k ∈ keys (variables ds) → ∃ arr, ds_getitem ds k = Ok arr.
Proof.
  intros Hin. destruct (assoc_is_Some k _ Hin) as [v Hv].
  unfold ds_getitem. rewrite Hv. cbn. eauto.
Qed.



Lemma dynamic_loop_spec (h : FileHandler T) (handled : gset string)
    (var_names : list string) :
  (∀ n, n ∈ var_names → n ∈ keys (variables (nc h))) →
  snd (dynamic_loop h handled var_names) = None
  ∧ ∀ item, item ∈ fst (dynamic_loop h handled var_names) ↔
      ∃ var_name data_arr,
        var_name ∈ var_names ∧ discovered h handled var_name data_arr
        ∧ item = (Some true, dynamic_ds_info h var_name data_arr).
Proof.
  induction var_names as [| n rest IH]; intros Hkeys.
  - split; [reflexivity |]. intros item. cbn. split.
    + intros Hin. by apply elem_of_nil in Hin.
    + intros (v & a & Hin & _). by apply elem_of_nil in Hin.
  - destruct IH as [IHe IHi].
    { intros m Hm. apply Hkeys. by apply elem_of_cons; right. }
    destruct (ds_getitem_keys (nc h) n) as [arr Harr].
    { apply Hkeys. by apply elem_of_cons; left. }
    assert (Hrest : ∀ item,
      (∃ var_name data_arr, var_name ∈ n :: rest
         ∧ discovered h handled var_name data_arr
         ∧ item = (Some true, dynamic_ds_info h var_name data_arr))
      ↔ (discovered h handled n arr
         ∧ item = (Some true, dynamic_ds_info h n arr))
        ∨ item ∈ fst (dynamic_loop h handled rest)).
    { intros item. rewrite IHi. split.
      - intros (v & a & Hin & Hd & ->).
        apply elem_of_cons in Hin as [-> | Hin].
        + left. assert (a = arr) as -> by (destruct Hd as [Hget _]; congruence).
          done.
        + right. eauto.
      - intros [[Hd ->] | (v & a & Hin & Hd & ->)].
        + exists n, arr. split; [by apply elem_of_cons; left | done].
        + exists v, a. split; [by apply elem_of_cons; right | done]. }
    cbn [dynamic_loop]. rewrite Harr.
    fold (is_lonlat n).
    destruct (bool_decide (n ∈ handled) && negb (is_lonlat n)) eqn:Hskip.
    { split; [done |]. intros item. rewrite Hrest. split; [by right |].
      intros [[(_ & _ & Hd) _] | Hin]; [| done].
      apply andb_true_iff in Hskip as [Hh Hl].
      apply bool_decide_eq_true in Hh. apply negb_true_iff in Hl.
      destruct Hd as [Hd | Hd]; [done | congruence]. }
    destruct (negb (Nd.ndim (data (da_var arr)) =? 2)%nat) eqn:Hnd.
    { split; [done |]. intros item. rewrite Hrest. split; [by right |].
      intros [[(_ & Hd & _) _] | Hin]; [| done].
      apply negb_true_iff, Nat.eqb_neq in Hnd. done. }
    split; [done |]. intros item. rewrite Hrest. cbn.
    rewrite elem_of_cons. split.
    + intros [-> | Hin]; [| by right]. left. split; [| done].
      split; [done |]. split.
      * by apply negb_false_iff, Nat.eqb_eq in Hnd.
      * apply andb_false_iff in Hskip as [Hh | Hl].
        -- left. by apply bool_decide_eq_false in Hh.
        -- right. by apply negb_false_iff in Hl.
    + intros [[_ ->] | Hin]; [by left | by right].
Qed.

Lemma dynamic_variables_spec (h : FileHandler T) (handled : gset string) :
  snd (_dynamic_variables_from_file h handled) = None
  ∧ ∀ item, item ∈ fst (_dynamic_variables_from_file h handled) ↔
      ∃ var_name data_arr,
        discovered h handled var_name data_arr
        ∧ item = (Some true, dynamic_ds_info h var_name data_arr).
Proof.
  destruct (dynamic_loop_spec h handled (keys (variables (nc h)))) as [He Hi];
    [done |].
  split; [done |]. intros item. unfold _dynamic_variables_from_file.
  rewrite Hi. split.
  - intros (v & a & _ & Hd & ->). eauto.
  - intros (v & a & Hd & ->). exists v, a. split; [| done].
    destruct Hd as (Hget & _). unfold ds_getitem in Hget.
    destruct (assoc v (variables (nc h))) as [x |] eqn:Ex; [| discriminate].
    clear -Ex. induction (variables (nc h)) as [| [k' v'] l IH]; [discriminate |].
    cbn in *. destruct (String.eqb_spec k' v) as [-> | _].
    + by apply elem_of_cons; left.
    + apply elem_of_cons; right. auto.
Qed.



(** ** Rescaling at the initialisation of the LST handler *)

Lemma assoc_set_eq {V : Type} (k : string) (v : V) (l : list (string * V)) :
  assoc k (assoc_set k v l) = Some v.
Proof.
  induction l as [| [k' v'] l IH]; cbn.
  - by rewrite String.eqb_refl.
  - destruct (String.eqb_spec k' k) as [-> | Hne]; cbn.
    + by rewrite String.eqb_refl.
    + by destruct (String.eqb_spec k' k).
Qed.

Lemma assoc_set_ne {V : Type} (k k' : string) (v : V) (l : list (string * V)) :
  k ≠ k' → assoc k' (assoc_set k v l) = assoc k' l.
Proof.
  intros Hne. induction l as [| [k0 v0] l IH]; cbn.
  - by destruct (String.eqb_spec k k').
  - destruct (String.eqb_spec k0 k) as [-> | Hne0]; cbn.
    + by destruct (String.eqb_spec k k').
    + by rewrite IH.
Qed.

Lemma keys_assoc_set {V : Type} (k : string) (v : V) (l : list (string * V)) :
  k ∈ keys l → keys (assoc_set k v l) = keys l.
Proof.
  induction l as [| [k0 v0] l IH]; cbn.
  - intros Hin. by apply elem_of_nil in Hin.
  - intros Hin. destruct (String.eqb_spec k0 k) as [-> | Hne]; cbn; [done |].
    apply elem_of_cons in Hin as [-> | Hin]; [done |].
    f_equal. by apply IH.
Qed.

Lemma assoc_Some_keys {V : Type} (k : string) (v : V) (l : list (string * V)) :
  assoc k l = Some v → k ∈ keys l.
Proof.
  induction l as [| [k0 v0] l IH]; cbn; [discriminate |].
  destruct (String.eqb_spec k0 k) as [-> | Hne].
  - intros _. by apply elem_of_cons; left.
  - intros Hl. apply elem_of_cons; right. auto.
Qed.

(** The companions are not rescaled themselves. *)
Lemma manual_scalings_companions (var_name scale_name offset_name : string) :
  assoc var_name _manual_scalings = Some (scale_name, offset_name) →
  assoc scale_name _manual_scalings = None
  ∧ assoc offset_name _manual_scalings = None.
Proof.
  unfold _manual_scalings. cbn [assoc].
  repeat match goal with
         | |- context [String.eqb ?a var_name] => destruct (String.eqb a var_name)
         end; intros [= <- <-] || discriminate; done.
Qed.

Lemma manual_scalings_names (var_name : string) :
  assoc var_name _manual_scalings = None
  ↔ var_name ∉ ["VLST"; "emis_m15"; "emis_m16"; "emis_bbe"; "Satellite_Azimuth_Angle"].
Proof.
  unfold _manual_scalings. cbn [assoc]. rewrite !not_elem_of_cons.
  repeat match goal with
         | |- context [String.eqb ?a var_name] =>
             destruct (String.eqb_spec a var_name) as [<- | ?]
         end; split; try done; try (intros; intuition congruence).
  intros _. repeat split; try congruence. apply not_elem_of_nil.
Qed.

Lemma scale_var_rescaled (orig cur : Dataset T) (var_name : string)
    (var var' : XVariable T) :
  (∀ name, assoc name _manual_scalings = None →
           assoc name (variables cur) = assoc name (variables orig)) →
  assoc var_name (variables cur) = Some var →
  rescaled_of_spec orig var_name var = Ok var' →
  scale_var cur var_name
  = Ok (mkDataset (assoc_set var_name var' (variables cur))
                  (coord_names cur) (indexes cur))
  ∨ (assoc var_name _manual_scalings = None ∧ var' = var
     ∧ scale_var cur var_name = Ok cur).
Proof.
  intros Hcomp Hvar. unfold rescaled_of_spec, scale_var.
  destruct (assoc var_name _manual_scalings) as [[sf off] |] eqn:Hm.
  - destruct (manual_scalings_companions _ _ _ Hm) as [Hsf Hoff].
    unfold ds_getitem. rewrite Hvar, (Hcomp _ Hsf), (Hcomp _ Hoff).
    destruct (assoc sf (variables orig)) as [s |]; [| discriminate].
    destruct (assoc off (variables orig)) as [o |]; [| discriminate].
    cbn. destruct (scaled _ _ _) as [new |]; [| discriminate].
    cbn. intros [= <-]. by left.
  - intros [= <-]. by right.
Qed.

Lemma scale_loop_spec (orig : Dataset T) (remaining : list string) :
  ∀ cur : Dataset T,
  NoDup remaining →
  keys (variables cur) = keys (variables orig) →
  coord_names cur = coord_names orig →
  indexes cur = indexes orig →
  (∀ name, name ∈ remaining → assoc name (variables cur) = assoc name (variables orig)) →
  (∀ name, assoc name _manual_scalings = None →
           assoc name (variables cur) = assoc name (variables orig)) →
  (∀ name var, name ∉ remaining → assoc name (variables orig) = Some var →
     ∃ var', rescaled_of_spec orig name var = Ok var'
             ∧ assoc name (variables cur) = Some var') →
  (∀ name var, assoc name (variables orig) = Some var →
     ∃ var', rescaled_of_spec orig name var = Ok var') →
  (∀ name, name ∈ remaining → name ∈ keys (variables orig)) →
  ∃ final, scale_loop cur remaining = Ok final
    ∧ keys (variables final) = keys (variables orig)
    ∧ coord_names final = coord_names orig
    ∧ indexes final = indexes orig
    ∧ ∀ name var, assoc name (variables orig) = Some var →
        ∃ var', rescaled_of_spec orig name var = Ok var'
                ∧ assoc name (variables final) = Some var'.
Proof.
  induction remaining as [| n rest IH];
    intros cur Hnd Hkeys Hcn Hidx Hrem Hcomp Hdone Hok Hin.
  - exists cur. cbn. repeat split; try done.
    intros name var Hvar. apply Hdone; [apply not_elem_of_nil | done].
  - apply NoDup_cons in Hnd as [Hn Hnd].
    destruct (assoc_is_Some n (variables orig)) as [var Hvar].
    { apply Hin. by apply elem_of_cons; left. }
    destruct (Hok n var Hvar) as [var' Hvar'].
    assert (Hcur : assoc n (variables cur) = Some var).
    { rewrite Hrem; [done | by apply elem_of_cons; left]. }
    cbn [scale_loop].
    destruct (scale_var_rescaled orig cur n var var' Hcomp Hcur Hvar')
      as [-> | (Hm & -> & ->)]; cbn [mbind result_bind].
    + apply IH; cbn [variables coord_names indexes]; try done.
      * rewrite keys_assoc_set; [done |]. rewrite Hkeys.
        by apply (assoc_Some_keys _ var).
      * intros name Hname. rewrite assoc_set_ne by (intros ->; done).
        apply Hrem. by apply elem_of_cons; right.
      * intros name Hname. destruct (decide (name = n)) as [-> | Hne].
        -- rewrite assoc_set_eq. unfold rescaled_of_spec in Hvar'.
           rewrite Hname in Hvar'. congruence.
        -- rewrite assoc_set_ne by done. by apply Hcomp.
      * intros name v Hname Hv.
        destruct (decide (name = n)) as [-> | Hne].
        -- exists var'. rewrite assoc_set_eq. split; [| done]. congruence.
        -- rewrite assoc_set_ne by done. apply Hdone; [| done].
           rewrite not_elem_of_cons. done.
      * intros name Hname. apply Hin. by apply elem_of_cons; right.
    + apply IH; try done.
      * intros name Hname. apply Hrem. by apply elem_of_cons; right.
      * intros name v Hname Hv.
        destruct (decide (name = n)) as [-> | Hne].
        -- exists var. split; [congruence | done].
        -- apply Hdone; [| done]. rewrite not_elem_of_cons. done.
      * intros name Hname. apply Hin. by apply elem_of_cons; right.
Qed.

Lemma assoc_Some_In {V : Type} (k : string) (v : V) (l : list (string * V)) :
  assoc k l = Some v → In (k, v) l.
Proof.
  induction l as [| [k0 v0] l IH]; cbn; [discriminate |].
  destruct (String.eqb_spec k0 k) as [-> | Hne].
  - intros [= ->]. by left.
  - intros Hl. right. auto.
Qed.

Lemma In_assoc {V : Type} (k : string) (v : V) (l : list (string * V)) :
  NoDup (keys l) → In (k, v) l → assoc k l = Some v.
Proof.
  induction l as [| [k0 v0] l IH]; cbn; [done |].
  intros Hnd Hin. apply NoDup_cons in Hnd as [Hk0 Hnd].
  destruct Hin as [[= -> ->] | Hin].
  - by rewrite String.eqb_refl.
  - destruct (String.eqb_spec k0 k) as [-> | Hne]; [| auto].
    destruct Hk0. apply list_elem_of_In. apply in_map_iff. by exists (k, v).
Qed.

Lemma companions_ok_rescaled (ds : Dataset T) (name : string) (var : XVariable T) :
  companions_ok ds = true →
  assoc name (variables ds) = Some var →
  ∃ var', rescaled_of_spec ds name var = Ok var'.
Proof.
  unfold companions_ok. rewrite forallb_forall. intros Hall Hvar.
  specialize (Hall (name, var) (assoc_Some_In _ _ _ Hvar)). cbn in Hall.
  destruct (rescaled_of_spec ds name var); [eauto | discriminate].
Qed.

Lemma scale_data_spec (ds : Dataset T) :
  NoDup (keys (variables ds)) →
  companions_ok ds = true →
  ∃ ds', _scale_data ds = Ok ds'
    ∧ keys (variables ds') = keys (variables ds)
    ∧ coord_names ds' = coord_names ds
    ∧ indexes ds' = indexes ds
    ∧ ∀ name var, assoc name (variables ds) = Some var →
        ∃ var', rescaled_of_spec ds name var = Ok var'
                ∧ assoc name (variables ds') = Some var'.
Proof.
  intros Hnd Hok. unfold _scale_data.
  apply (scale_loop_spec ds (keys (variables ds)) ds); try done.
  - intros name var Hname Hvar. destruct Hname. by apply (assoc_Some_keys _ var).
  - intros name var. by apply companions_ok_rescaled.
Qed.

(** A companion with a single element is the same factor, or offset, for
    every element. *)
Lemma broadcast_flat_scalar {A : Type} (s : list nat) (x : A) :
  Nd.broadcast_flat s [] [x] = Some (replicate (Nd.size s) x).
Proof.
  induction s as [| d s IH]; [done |]. cbn [Nd.broadcast_flat].
  rewrite decide_True by (cbn; lia). rewrite IH. cbn. f_equal.
  induction d as [| d IHd]; [done |]. cbn. rewrite IHd.
  by rewrite replicate_add.
Qed.

Lemma scaled_scalar (a : ndarray T) (s o : T) :
  Nd.wf a →
  scaled a (NdArray [] [s]) (NdArray [] [o])
  = Ok (NdArray (shape a) (List.map (fun x => num_add (num_mul x s) o) (flat a))).
Proof.
  unfold Nd.wf, scaled, Nd.broadcast_to. intros Hwf. cbn [shape flat].
  rewrite !broadcast_flat_scalar, <- Hwf. cbn [of_option mbind result_bind].
  assert (Hzip : ∀ l : list T,
    zip_with num_add (zip_with num_mul l (replicate (length l) s))
             (replicate (length l) o)
    = List.map (fun x => num_add (num_mul x s) o) l).
  { induction l as [| x l IH]; [done |]. cbn. by rewrite IH. }
  by rewrite Hzip.
Qed.

(** The condition on the companions, stated on the file and computed. *)
Lemma companions_ok_present (ds : Dataset T) :
  companions_ok ds = true → companions_present ds.
Proof.
  intros Hok name var scale_name offset_name Hvar Hm.
  destruct (companions_ok_rescaled ds name var Hok Hvar) as [var' Hspec].
  unfold rescaled_of_spec in Hspec. rewrite Hm in Hspec.
  destruct (assoc scale_name _) as [s |]; [| discriminate].
  destruct (assoc offset_name _) as [o |]; [| discriminate].
  cbn in Hspec. unfold scaled in Hspec.
  destruct (Nd.broadcast_to _ (data s)) as [sc |] eqn:Esc; [| discriminate].
  destruct (Nd.broadcast_to _ (data o)) as [off |] eqn:Eoff; [| discriminate].
  exists s, o. rewrite Esc, Eoff. repeat split; by eexists.
Qed.

Lemma companions_present_ok (ds : Dataset T) :
  NoDup (keys (variables ds)) → companions_present ds → companions_ok ds = true.
Proof.
  intros Hnd Hpres. unfold companions_ok. apply forallb_forall.
  intros [name var] Hin. cbn [fst snd].
  pose proof (In_assoc _ _ _ Hnd Hin) as Hvar. unfold rescaled_of_spec.
  destruct (assoc name _manual_scalings) as [[scale_name offset_name] |] eqn:Hm;
    [| done].
  destruct (Hpres name var scale_name offset_name Hvar Hm)
    as (s & o & Hs & Ho & [sc Hsc] & [off Hoff]).
  rewrite Hs, Ho. cbn. unfold scaled. by rewrite Hsc, Hoff.
Qed.

(** The rows of the table of companions. *)
Lemma manual_scalings_rows (name scale_name offset_name : string) :
  (name, (scale_name, offset_name))
    ∈ [("VLST", ("LST_ScaleFact", "LST_Offset"));
       ("emis_m15", ("LSE_ScaleFact", "LSE_Offset"));
       ("emis_m16", ("LSE_ScaleFact", "LSE_Offset"));
       ("emis_bbe", ("LSE_ScaleFact", "LSE_Offset"));
       ("Satellite_Azimuth_Angle", ("AZI_ScaleFact", "AZI_Offset"))] →
  assoc name _manual_scalings = Some (scale_name, offset_name).
Proof.
  intros Hin.
  repeat (apply elem_of_cons in Hin as [[= -> -> ->] | Hin]; [reflexivity |]).
  by apply elem_of_nil in Hin.
Qed.

(** C5. The initialisation of the LST handler rescales five variables of
    the file, each with its own pair of companion variables: VLST with
    LST_ScaleFact and LST_Offset, emis_m15, emis_m16 and emis_bbe with
    LSE_ScaleFact and LSE_Offset, and Satellite_Azimuth_Angle with
    AZI_ScaleFact and AZI_Offset. Each element becomes the element times
    the scale factor plus the offset; every other variable stays as it is.
    The companions of the variables to rescale are in the file and
    broadcast to their shapes. *)
Theorem lst_init_rescales (h : FileHandler T) :
  NoDup (keys (variables (nc h))) →
  companions_present (nc h) →
  ∃ h', VIIRSLSTHandler_init h = Ok h'
    ∧ keys (variables (nc h')) = keys (variables (nc h))
    ∧ ∀ name var, assoc name (variables (nc h)) = Some var →
        (name ∉ ["VLST"; "emis_m15"; "emis_m16"; "emis_bbe"; "Satellite_Azimuth_Angle"] →
         assoc name (variables (nc h')) = Some var)
        ∧ ∀ scale_name offset_name,
            (name, (scale_name, offset_name))
              ∈ [("VLST", ("LST_ScaleFact", "LST_Offset"));
                 ("emis_m15", ("LSE_ScaleFact", "LSE_Offset"));
                 ("emis_m16", ("LSE_ScaleFact", "LSE_Offset"));
                 ("emis_bbe", ("LSE_ScaleFact", "LSE_Offset"));
                 ("Satellite_Azimuth_Angle", ("AZI_ScaleFact", "AZI_Offset"))] →
            ∃ scale_factor add_offset sc off,
              assoc scale_name (variables (nc h)) = Some scale_factor
              ∧ assoc offset_name (variables (nc h)) = Some add_offset
              ∧ Nd.broadcast_to (shape (data var)) (data scale_factor) = Some sc
              ∧ Nd.broadcast_to (shape (data var)) (data add_offset) = Some off
              ∧ assoc name (variables (nc h'))
                = Some (mkVariable (dims var)
                          (NdArray (shape (data var))
                             (zip_with num_add
                                (zip_with num_mul (flat (data var)) sc) off))
                          (attrs var)).
Proof.
  intros Hnd Hpres.
  pose proof (companions_present_ok (nc h) Hnd Hpres) as Hok.
  destruct (scale_data_spec (nc h) Hnd Hok) as (ds' & Hrun & Hkeys & _ & _ & Hvars).
  unfold VIIRSLSTHandler_init. rewrite Hrun. cbn [mbind result_bind].
  eexists. split; [reflexivity |]. cbn [nc]. split; [done |].
  intros name var Hvar. destruct (Hvars name var Hvar) as (var' & Hspec & Hnew).
  unfold rescaled_of_spec in Hspec. split.
  - intros Hname. apply manual_scalings_names in Hname. rewrite Hname in Hspec.
    congruence.
  - intros scale_name offset_name Hm. apply manual_scalings_rows in Hm.
    rewrite Hm in Hspec.
    destruct (assoc scale_name _) as [s |] eqn:Es; [| discriminate].
    destruct (assoc offset_name _) as [o |] eqn:Eo; [| discriminate].
    cbn in Hspec. unfold scaled in Hspec.
    destruct (Nd.broadcast_to _ (data s)) as [sc |] eqn:Esc; [| discriminate].
    destruct (Nd.broadcast_to _ (data o)) as [off |] eqn:Eoff; [| discriminate].
    cbn in Hspec. injection Hspec as <-. exists s, o, sc, off. done.
Qed.

(** ** The vegetation-index filter *)

(** A flag is set when the masked value is positive. *)
Lemma land_pow2_testbit (q k : Z) :
  (0 <= k)%Z → (Z.land q (2 ^ k) >? 0)%Z = Z.testbit q k.
Proof.
  intros Hk.
  assert (Hland : Z.land q (2 ^ k) = if Z.testbit q k then (2 ^ k)%Z else 0%Z).
  { apply Z.bits_inj'. intros n Hn. rewrite Z.land_spec, Z.pow2_bits_eqb by done.
    destruct (Z.eqb_spec k n) as [-> | Hne].
    - destruct (Z.testbit q n); [| by rewrite Z.bits_0].
      by rewrite Z.pow2_bits_true.
    - rewrite andb_false_r. destruct (Z.testbit q k); [| by rewrite Z.bits_0].
      by rewrite Z.pow2_bits_false. }
  rewrite Hland. destruct (Z.testbit q k).
  - apply Z.gtb_lt. by apply Z.pow_pos_nonneg.
  - reflexivity.
Qed.

Section Lists.
Context {A : Type}.

Lemma blocks_singletons (l : list A) :
  Nd.blocks (length l) 1 l = List.map (fun x => [x]) l.
Proof.
  induction l as [| x l IH]; [done |]. cbn. rewrite drop_0, take_0. by rewrite IH.
Qed.

(** Repeating every element twice: position [k] holds element [k / 2]. *)
Lemma lookup_repeat_last (l : list A) (k : nat) :
  concat (List.map (fun blk => concat (replicate 2 blk)) (List.map (fun x => [x]) l)) !! k
  = l !! (k / 2)%nat.
Proof.
  revert k. induction l as [| x l IH]; intros k; [done |].
  destruct k as [| [| k]]; [done | done |]. cbn [List.map concat replicate app].
  change (S (S k)) with (1 * 2 + k)%nat.
  rewrite Nat.div_add_l by done. cbn. apply IH.
Qed.

(** Repeating every row of [c] elements twice: row [i] is row [i / 2]. *)
Lemma lookup_repeat_rows (r c : nat) (l : list A) (i j : nat) :
  length l = (r * c)%nat → (j < c)%nat →
  concat (List.map (fun blk => concat (replicate 2 blk)) (Nd.blocks r c l))
    !! (i * c + j)%nat
  = if decide (i < 2 * r)%nat then l !! (i / 2 * c + j)%nat else None.
Proof.
  revert l i. induction r as [| r IH]; intros l i Hlen Hj.
  - cbn. rewrite decide_False by lia. done.
  - cbn [Nd.blocks List.map concat].
    change (concat (replicate 2 (take c l))) with (take c l ++ take c l ++ [])%list.
    assert (Htake : length (take c l) = c) by (rewrite length_take; lia).
    rewrite List.app_nil_r.
    destruct i as [| [| i]].
    + rewrite decide_True by lia. cbn.
      rewrite <- app_assoc, lookup_app_l by lia. by rewrite lookup_take_lt.
    + rewrite decide_True by lia. cbn. rewrite Nat.add_0_r.
      rewrite <- app_assoc, lookup_app_r by lia.
      rewrite lookup_app_l by lia. rewrite Htake.
      replace (c + j - c)%nat with j by lia. by rewrite lookup_take_lt.
    + rewrite <- app_assoc, lookup_app_r by lia.
      rewrite lookup_app_r by lia. rewrite Htake.
      replace (S (S i) * c + j - c - c)%nat with (i * c + j)%nat by lia.
      rewrite IH by (rewrite ?length_drop; lia).
      change (S (S i)) with (1 * 2 + i)%nat.
      rewrite Nat.div_add_l by done.
      destruct (decide (i < 2 * r)%nat).
      * rewrite decide_True by lia. rewrite lookup_drop. f_equal. lia.
      * rewrite decide_False by lia. done.
Qed.

(** [a.repeat(2, axis=1).repeat(2, axis=0)] on an array of [r] rows and
    [c] columns: element [i, j] is element [i / 2, j / 2] of [a]. *)
Lemma repeat_2x2 (r c : nat) (l : list A) :
  length l = (r * c)%nat →
  ∃ l', (r1 ← Nd.repeat 2 1 (NdArray [r; c] l); Nd.repeat 2 0 r1)
        = Ok (NdArray [r * 2; c * 2]%nat l')
    ∧ length l' = (r * 2 * (c * 2))%nat
    ∧ ∀ i j, (i < r * 2)%nat → (j < c * 2)%nat →
        l' !! (i * (c * 2) + j)%nat = l !! (i / 2 * c + j / 2)%nat.
Proof.
  intros Hlen. cbn -[Nd.blocks replicate Nat.mul Nat.div].
  rewrite !Nat.mul_1_r. rewrite <- Hlen, blocks_singletons.
  set (l1 := concat (List.map (fun blk => concat (replicate 2 blk))
                              (List.map (fun x => [x]) l))).
  assert (Hl1 : length l1 = (r * (c * 2))%nat).
  { unfold l1. rewrite Nat.mul_assoc, <- Hlen. clear.
    induction l as [| x l IH]; [done |]. cbn in *. lia. }
  eexists. split; [reflexivity |]. split.
  - clearbody l1. clear -Hl1. revert l1 Hl1. generalize (c * 2)%nat as c'.
    induction r as [| r IH]; intros c' l1 Hl1; [done |].
    cbn [Nd.blocks List.map concat].
    change (concat (replicate 2 (take c' l1))) with (take c' l1 ++ take c' l1 ++ [])%list.
    rewrite List.app_nil_r, !length_app, length_take.
    rewrite IH by (rewrite length_drop; lia). lia.
  - intros i j Hi Hj.
    rewrite (lookup_repeat_rows r (c * 2) l1 i j Hl1 Hj).
    rewrite decide_True by lia. unfold l1. rewrite lookup_repeat_last.
    f_equal.
    replace (i / 2 * (c * 2) + j)%nat with (i / 2 * c * 2 + j)%nat by lia.
    by rewrite Nat.div_add_l.
Qed.

End Lists.

Lemma mask_or_ok (a b : Mask) :
  mk_dims a = mk_dims b →
  shape (mk_data a) = shape (mk_data b) →
  mask_or a b
  = Ok (mkMask (mk_dims a)
          (NdArray (shape (mk_data a))
                   (zip_with orb (flat (mk_data a)) (flat (mk_data b))))).
Proof.
  intros Hd Hs. unfold mask_or. by rewrite !bool_decide_eq_true_2.
Qed.

Lemma bad_pixel_flags (a b d : Z) :
  (Z.land a 192 >? 0)%Z || (Z.land a 12 >? 0)%Z || (Z.land a 3 <? 2)%Z
  || (Z.land b 32 >? 0)%Z || (Z.land b 8 >? 0)%Z
  || ((Z.land b 7 <=? 2)%Z || (Z.land b 7 =? 5)%Z)
  || (Z.land d 12 >? 8)%Z || (Z.land d 2 >? 0)%Z
  = bad_pixel_of_spec a b d.
Proof.
  unfold bad_pixel_of_spec.
  rewrite <- (land_pow2_testbit b 5), <- (land_pow2_testbit b 3),
          <- (land_pow2_testbit d 1) by done.
  reflexivity.
Qed.

Section VegIndex.

Variables (h : FileHandler T) (flag_dims : list string) (r c : nat)
          (q1 q2 q7 : ndarray Z).
Hypothesis Hflags : flags_ok h flag_dims r c q1 q2 q7.

(** The good mask has twice the rows and columns of the flags, and says
    of pixel [i, j] what the flags of pixel [i / 2, j / 2] say. *)
Lemma good_mask_spec :
  ∃ good,
    _get_veg_index_good_mask h
    = Ok (mkMask flag_dims (NdArray [r * 2; c * 2]%nat good))
    ∧ length good = (r * 2 * (c * 2))%nat
    ∧ ∀ i j, (i < r * 2)%nat → (j < c * 2)%nat →
        ∃ a b d,
          Nd.at2 q1 (i / 2) (j / 2) = Some a
          ∧ Nd.at2 q2 (i / 2) (j / 2) = Some b
          ∧ Nd.at2 q7 (i / 2) (j / 2) = Some d
          ∧ good !! (i * (c * 2) + j)%nat = Some (negb (bad_pixel_of_spec a b d)).
Proof.
  destruct Hflags as (qf1 & qf2 & qf7 & Hqf1 & Hqf2 & Hqf7 & Hq1 & Hq2 & Hq7
                      & Hd1 & Hd2 & Hd7 & Hnd & Hs1 & Hs2 & Hs7 & Hw1 & Hw2 & Hw7).
  destruct q1 as [s1 z1], q2 as [s2 z2], q7 as [s7 z7].
  unfold Nd.wf in *. cbn [shape flat] in *. subst s1 s2 s7.
  cbn [Nd.size foldr] in Hw1, Hw2, Hw7. rewrite Nat.mul_1_r in Hw1, Hw2, Hw7.
  unfold _get_veg_index_good_mask.
  rewrite Hqf1, Hqf2, Hqf7. cbn [mbind result_bind].
  rewrite Hq1, Hq2, Hq7. cbn [mbind result_bind].
  unfold flag_mask.
  repeat (rewrite mask_or_ok by (cbn [mk_dims mk_data Nd.map shape]; congruence);
          cbn [mbind result_bind mk_dims mk_data Nd.map shape flat]).
  set (bad := zip_with orb _ _).
  assert (Hbad : ∀ k a b d,
    z1 !! k = Some a → z2 !! k = Some b → z7 !! k = Some d →
    bad !! k = Some (bad_pixel_of_spec a b d)).
  { intros k a b d Ha Hb Hd. unfold bad.
    rewrite !lookup_zip_with.
    change (List.map ?f ?l) with (f <$> l). rewrite !list_lookup_fmap.
    rewrite Ha, Hb, Hd. cbn. by rewrite <- bad_pixel_flags. }
  assert (Hlen : length bad = (r * c)%nat).
  { unfold bad. rewrite !length_zip_with, !length_map. lia. }
  destruct (repeat_2x2 r c bad Hlen) as (rep & Hrep & Hreplen & Hidx).
  revert Hrep.
  destruct (Nd.repeat 2 1 (NdArray [r; c] bad)) as [r1 |];
    cbn [mbind result_bind]; [| discriminate].
  intros ->. cbn [mbind result_bind].
  rewrite bool_decide_eq_true_2 by (by rewrite Hd1, Hnd).
  exists (List.map negb rep). rewrite Hd1.
  split; [reflexivity |]. split; [by rewrite length_map |].
  intros i j Hi Hj.
  assert (Hi2 : (i / 2 < r)%nat) by (apply Nat.Div0.div_lt_upper_bound; lia).
  assert (Hj2 : (j / 2 < c)%nat) by (apply Nat.Div0.div_lt_upper_bound; lia).
  assert (Hk : (i / 2 * c + j / 2 < r * c)%nat) by nia.
  destruct (lookup_lt_is_Some_2 z1 _ ltac:(rewrite Hw1; exact Hk)) as [a Ha].
  destruct (lookup_lt_is_Some_2 z2 _ ltac:(rewrite Hw2; exact Hk)) as [b Hb].
  destruct (lookup_lt_is_Some_2 z7 _ ltac:(rewrite Hw7; exact Hk)) as [d Hd].
  exists a, b, d. unfold Nd.at2. cbn [shape flat].
  rewrite !decide_True by done. repeat split; try done.
  change (List.map ?f ?l) with (f <$> l).
  rewrite list_lookup_fmap, (Hidx i j Hi Hj), (Hbad _ a b d Ha Hb Hd). done.
Qed.

End VegIndex.

(** C6. In a surface reflectance handler, NDVI and EVI are filtered when
    [filter_veg] is on: pixel [i, j] is masked exactly when the quality
    flags of the M-band pixel [i / 2, j / 2] show sun glint, a pixel not
    confidently clear, a low cloud mask quality, snow or ice, a cloud
    shadow, water, a high aerosol quantity, or a neighbouring cloud, and
    otherwise keeps what the base masking gave it. Any other dataset, and
    every dataset when [filter_veg] is off, gets the base masking only. *)
Theorem veg_index_filter (h : FileHandler T) (data_arr base : DataArray T)
    (ds_info : gmap string (pyval T)) (file_key : pyval T) :
  cls h = VIIRSSurfaceReflectanceWithVIHandler →
  _mask_invalid_base data_arr ds_info = Ok base →
  ds_info !! "file_key" = Some file_key →
  (str_in file_key ["NDVI"; "EVI"] = false ∨ _filter_veg h = false →
   _mask_invalid h data_arr ds_info = Ok base)
  ∧ (str_in file_key ["NDVI"; "EVI"] = true → _filter_veg h = true →
     ∀ r c q1 q2 q7,
       flags_ok h (dims (da_var base)) r c q1 q2 q7 →
       da_shape base = [r * 2; c * 2]%nat →
       Nd.wf (data (da_var base)) →
       ∃ out, _mask_invalid h data_arr ds_info = Ok out
         ∧ da_shape out = da_shape base
         ∧ da_attrs out = da_attrs base
         ∧ ∀ i j, (i < r * 2)%nat → (j < c * 2)%nat →
             ∃ x a b d,
               Nd.at2 (data (da_var base)) i j = Some x
               ∧ Nd.at2 q1 (i / 2) (j / 2) = Some a
               ∧ Nd.at2 q2 (i / 2) (j / 2) = Some b
               ∧ Nd.at2 q7 (i / 2) (j / 2) = Some d
               ∧ Nd.at2 (data (da_var out)) i j
                 = Some (if bad_pixel_of_spec a b d then num_nan else x)).
Proof.
  intros Hcls Hbase Hkey. unfold _mask_invalid, _mask_invalid_vi, dict_item.
  rewrite Hcls, Hbase, Hkey. cbn [of_option mbind result_bind]. split.
  - intros [-> | ->]; [done | by rewrite andb_false_r].
  - intros -> -> r c q1 q2 q7 Hflags Hshape Hwf. cbn [andb].
    destruct (good_mask_spec h _ r c q1 q2 q7 Hflags) as (good & -> & Hlen & Hgood).
    cbn [mbind result_bind]. unfold da_where_mask. cbn [mk_dims mk_data shape flat].
    rewrite !bool_decide_eq_true_2 by done. cbn [andb].
    eexists. split; [reflexivity |]. split; [done |]. split; [done |].
    intros i j Hi Hj. destruct (Hgood i j Hi Hj) as (a & b & d & Ha & Hb & Hd & Hg).
    unfold Nd.wf in Hwf. unfold da_shape in Hshape. rewrite Hshape in Hwf.
    cbn [Nd.size foldr] in Hwf. rewrite Nat.mul_1_r in Hwf.
    assert (Hk : (i * (c * 2) + j < length (da_values base))%nat).
    { unfold da_values. rewrite Hwf. nia. }
    destruct (lookup_lt_is_Some_2 _ _ Hk) as [x Hx].
    exists x, a, b, d. unfold Nd.at2 at 1 5. cbn [set_data da_var data shape flat].
    unfold da_shape. rewrite Hshape.
    rewrite !decide_True by done. repeat split; try done.
    rewrite lookup_zip_with, Hx, Hg. cbn. by destruct (bad_pixel_of_spec a b d).
Qed.

(** ** The configured datasets *)

Lemma handled_add_ok (handled : gset string) (v : pyval T) :
  hashable v = true → ∃ handled', handled_add handled v = Ok handled'.
Proof.
  intros Hv. unfold handled_add. rewrite Hv. destruct v; by eexists.
Qed.

Section Configured.

Variables (h : FileHandler T) (handled : gset string)
          (ds_info : gmap string (pyval T)) (rest : list (ds_item T))
          (name : pyval T).
Hypothesis Hname : ds_info !! "name" = Some name.

Hypothesis Hhashable : hashable (default name (ds_info !! "file_key")) = true.

Lemma handled_add_hashable :
  ∃ handled', handled_add handled (default name (ds_info !! "file_key")) = Ok handled'.
Proof using Hhashable. by apply handled_add_ok. Qed.

(** A dataset that an earlier handler decided on is passed on once. *)
Lemma configured_decided (b : bool) :
  ∃ handled',
    configured_loop h handled ((Some b, ds_info) :: rest)
    = gen_yield [(Some b, ds_info)] (configured_loop h handled' rest).
Proof using Hname Hhashable.
  destruct handled_add_hashable as [handled' Hadd].
  exists handled'. cbn [configured_loop]. unfold dict_item. rewrite Hname.
  cbn [of_option mbind result_bind]. by rewrite Hadd.
Qed.

(** An undecided dataset of the handler's file type is answered once. *)
Lemma configured_ours (ds_ftype : pyval T) :
  ds_info !! "file_type" = Some ds_ftype →
  is_Some (file_type_matches h ds_ftype) →
  ∃ handled',
    configured_loop h handled ((None, ds_info) :: rest)
    = gen_yield [(Some (in_nc h (default name (ds_info !! "file_key"))), ds_info)]
                (configured_loop h handled' rest).
Proof using Hname Hhashable.
  intros Hft [m Hm]. destruct handled_add_hashable as [handled' Hadd].
  exists handled'. cbn [configured_loop]. unfold dict_item. rewrite Hname, Hft.
  cbn [of_option mbind result_bind]. by rewrite Hadd, Hm.
Qed.

(** An undecided dataset of another file type is answered twice: with
    [None], and then with what the file says of its key. *)
Lemma configured_not_ours (ds_ftype : pyval T) :
  ds_info !! "file_type" = Some ds_ftype →
  file_type_matches h ds_ftype = None →
  ∃ handled',
    configured_loop h handled ((None, ds_info) :: rest)
    = gen_yield [(None, ds_info); (Some (in_nc h (default name (ds_info !! "file_key"))), ds_info)]
                (configured_loop h handled' rest).
Proof using Hname Hhashable.
  intros Hft Hm. destruct handled_add_hashable as [handled' Hadd].
  exists handled'. cbn [configured_loop]. unfold dict_item. rewrite Hname, Hft.
  cbn [of_option mbind result_bind]. by rewrite Hadd, Hm.
Qed.

End Configured.

End Properties.

(** * Further properties of the handlers *)

Section Loading.

Context {T : Type} `{ArrayOps T}.

Lemma mask_invalid_base_dims (arr out : DataArray T) (info : gmap string (pyval T)) :
  _mask_invalid_base arr info = Ok out → dims (da_var out) = dims (da_var arr).
Proof.
  unfold _mask_invalid_base.
  match goal with |- mbind _ ?m = _ → _ => destruct m as [vr |] end;
    [| discriminate].
  cbn [mbind result_bind].
  destruct (is_none vr); [by intros [= <-] |].
  destruct (item_num vr 0); [| discriminate].
  destruct (item_num vr 1); [| discriminate].
  by intros [= <-].
Qed.

Lemma mask_invalid_dims (h : FileHandler T) (arr out : DataArray T)
    (info : gmap string (pyval T)) :
  _mask_invalid h arr info = Ok out → dims (da_var out) = dims (da_var arr).
Proof.
  unfold _mask_invalid, _mask_invalid_vi.
  destruct (cls h); try apply mask_invalid_base_dims.
  destruct (_mask_invalid_base arr info) as [new |] eqn:Ebase; [| discriminate].
  apply mask_invalid_base_dims in Ebase. cbn [mbind result_bind].
  destruct (dict_item info "file_key"); [| discriminate]. cbn [mbind result_bind].
  destruct (_ && _).
  - destruct (_get_veg_index_good_mask h); [| discriminate]. cbn [mbind result_bind].
    unfold da_where_mask. destruct (_ && _); [| discriminate].
    intros [= <-]. done.
  - by intros [= <-].
Qed.

Lemma decode_flag_meanings_dims (a : DataArray T) :
  dims (da_var (_decode_flag_meanings a)) = dims (da_var a).
Proof.
  unfold _decode_flag_meanings.
  destruct (dict_get _ _); try reflexivity. by destruct (negb _).
Qed.

Lemma loaded_shape info masked pname rps :
  da_shape (loaded info masked pname rps) = da_shape masked.
Proof.
  unfold loaded. cbn zeta.
  change (da_shape (set_attr (set_attr (set_attr ?a _ _) _ _) _ _)) with (da_shape a).
  rewrite decode_flag_meanings_shape.
  destruct (info !! "standard_name");
    change (da_shape (set_attr (set_attr ?a _ _) _ _)) with (da_shape a);
    change (da_shape (set_attr ?a _ _)) with (da_shape a);
    by destruct (_ && _).
Qed.

Lemma loaded_dims info masked pname rps :
  dims (da_var (loaded info masked pname rps)) = dims (da_var masked).
Proof.
  unfold loaded. cbn zeta.
  change (dims (da_var (set_attr (set_attr (set_attr ?a _ _) _ _) _ _)))
    with (dims (da_var a)).
  rewrite decode_flag_meanings_dims.
  destruct (info !! "standard_name");
    change (dims (da_var (set_attr (set_attr ?a _ _) _ _))) with (dims (da_var a));
    change (dims (da_var (set_attr ?a _ _))) with (dims (da_var a));
    by destruct (_ && _).
Qed.

Lemma loaded_coords info masked pname rps :
  da_coords (loaded info masked pname rps) = da_coords masked
  ∧ da_indexes (loaded info masked pname rps) = da_indexes masked.
Proof.
  unfold loaded. cbn zeta.
  change (da_coords (set_attr (set_attr (set_attr ?a _ _) _ _) _ _)) with (da_coords a).
  change (da_indexes (set_attr (set_attr (set_attr ?a _ _) _ _) _ _))
    with (da_indexes a).
  match goal with |- context [da_coords (_decode_flag_meanings ?a)] =>
    destruct (decode_flag_meanings_coords a) as [-> ->] end.
  destruct (info !! "standard_name"); by destruct (_ && _).
Qed.

Lemma loaded_attr_late info masked pname rps :
  da_attrs (loaded info masked pname rps) !! "platform_name" = Some (PStr pname)
  ∧ da_attrs (loaded info masked pname rps) !! "sensor" = Some (PStr "viirs")
  ∧ da_attrs (loaded info masked pname rps) !! "rows_per_scan" = Some (PInt rps).
Proof.
  unfold loaded, da_attrs, set_attr. cbn.
  rewrite !lookup_insert_ne by done. rewrite !lookup_insert_eq.
  rewrite lookup_insert_ne by done. by rewrite lookup_insert_eq.
Qed.

Lemma loaded_standard_name info masked pname rps :
  da_attrs (loaded info masked pname rps) !! "standard_name"
  = match info !! "standard_name" with
    | Some sn => Some sn
    | None => da_attrs masked !! "standard_name"
    end.
Proof.
  unfold loaded. cbn zeta. unfold da_attrs at 1, set_attr at 1 2 3. cbn.
  rewrite !lookup_insert_ne by done.
  match goal with |- attrs (da_var (_decode_flag_meanings ?a)) !! _ = _ =>
    change (attrs (da_var (_decode_flag_meanings a)))
      with (da_attrs (_decode_flag_meanings a)) end.
  rewrite decode_flag_meanings_attrs by done.
  destruct (info !! "standard_name"); unfold da_attrs, set_attr; cbn.
  - by rewrite lookup_insert_eq.
  - rewrite lookup_insert_ne by done. by destruct (_ && _).
Qed.

Lemma loaded_values info masked pname rps :
  da_values (loaded info masked pname rps)
  = if is_str (let units := match info !! "units" with
                            | Some u => u
                            | None => dict_get (da_attrs masked) "units"
                            end in
               if is_none units || is_str units "unitless" then PStr "1" else units)
              "%"
       && str_in (dict_get (da_attrs masked) "units") ["1"; "unitless"]
    then List.map (fun x => num_mul x num_hundred) (da_values masked)
    else da_values masked.
Proof.
  unfold loaded. cbn zeta.
  change (da_values (set_attr (set_attr (set_attr ?a _ _) _ _) _ _)) with (da_values a).
  rewrite decode_flag_meanings_values.
  destruct (info !! "standard_name");
    change (da_values (set_attr (set_attr ?a _ _) _ _)) with (da_values a);
    change (da_values (set_attr ?a _ _)) with (da_values a);
    by destruct (_ && _).
Qed.

(** [get_dataset] step by step, when its lookups succeed. *)
Lemma get_dataset_run (h : FileHandler T) (info : gmap string (pyval T))
    (k : string) (arr masked : DataArray T) (pname : string) (rps : Z) :
  info !! "file_key" = Some (PStr k) →
  ds_getitem (nc h) k = Ok arr →
  _mask_invalid h arr info = Ok masked →
  platform_name h = Ok pname →
  rows_per_scans arr = Ok rps →
  let out := loaded info masked pname rps in
  get_dataset h info
  = Ok (if str_in (dict_get (da_attrs out) "standard_name") ["longitude"; "latitude"]
        then reset_coords_drop out else out).
Proof.
  intros Hkey Harr Hmask Hplat Hrps out.
  destruct (mask_invalid_frame _ _ _ _ Hmask) as (_ & Hshape & _).
  unfold get_dataset, dict_item. rewrite Hkey. cbn [of_option mbind result_bind].
  rewrite Harr. cbn [mbind result_bind]. rewrite Hmask. cbn [mbind result_bind].
  rewrite Hplat. cbn [mbind result_bind].
  match goal with |- mbind _ (rows_per_scans ?a) = _ =>
    assert (Hsh : da_shape a = da_shape arr) end.
  { rewrite <- Hshape, <- (loaded_shape info masked pname 0). reflexivity. }
  rewrite (rows_per_scans_shape _ arr Hsh), Hrps. cbn [mbind result_bind].
  fold (loaded info masked pname rps). fold out.
  by destruct (str_in (dict_get (da_attrs out) _) _).
Qed.

Lemma ds_getitem_missing (ds : Dataset T) (k : string) :
  ds_contains ds k = false → ds_getitem ds k = Raise (KeyError k).
Proof.
  unfold ds_contains, ds_getitem. intros Hc.
  destruct (assoc k (variables ds)) as [v |] eqn:Hv; [| done].
  apply assoc_Some_keys, mem_elem_of in Hv. congruence.
Qed.

(** X1. A variable of fewer than two dimensions cannot be loaded: when the
    variable is in the file, masks without error and the platform is known,
    [get_dataset] still ends in an [IndexError], from the number of rows
    per scan that it reads off the second axis. *)
Theorem get_dataset_needs_two_dims (h : FileHandler T)
    (info : gmap string (pyval T)) (k : string) (arr masked : DataArray T)
    (pname : string) :
  info !! "file_key" = Some (PStr k) →
  ds_getitem (nc h) k = Ok arr →
  _mask_invalid h arr info = Ok masked →
  platform_name h = Ok pname →
  (Nd.ndim (data (da_var arr)) < 2)%nat →
  get_dataset h info = Raise IndexError.
Proof.
  intros Hkey Harr Hmask Hplat Hnd.
  destruct (mask_invalid_frame _ _ _ _ Hmask) as (_ & Hshape & _).
  unfold get_dataset, dict_item. rewrite Hkey. cbn [of_option mbind result_bind].
  rewrite Harr. cbn [mbind result_bind]. rewrite Hmask. cbn [mbind result_bind].
  rewrite Hplat. cbn [mbind result_bind].
  match goal with |- mbind _ (rows_per_scans ?a) = _ =>
    assert (Hsh : da_shape a = da_shape arr) end.
  { rewrite <- Hshape, <- (loaded_shape info masked pname 0). reflexivity. }
  rewrite (rows_per_scans_shape _ arr Hsh). unfold rows_per_scans.
  rewrite (lookup_ge_None_2 (da_shape arr) 1); [done |].
  unfold Nd.ndim, da_shape in *. lia.
Qed.

(** X2. With a platform short name outside the table no dataset can be
    loaded, whatever the file holds: [get_dataset] ends in the [KeyError]
    of the upper-cased short name. *)
Theorem get_dataset_unknown_platform (h : FileHandler T)
    (info : gmap string (pyval T)) (k shortname : string)
    (arr masked : DataArray T) :
  info !! "file_key" = Some (PStr k) →
  ds_getitem (nc h) k = Ok arr →
  _mask_invalid h arr info = Ok masked →
  filename_info h !! "platform_shortname" = Some shortname →
  PyStr.upper shortname ∉ ["NPP"; "JPSS-1"; "J01"; "JPSS-2"; "J02"] →
  get_dataset h info = Raise (KeyError (PyStr.upper shortname)).
Proof.
  intros Hkey Harr Hmask Hname Hunknown.
  assert (Hplat : platform_name h = Raise (KeyError (PyStr.upper shortname))).
  { unfold platform_name. rewrite Hname. cbn [of_option mbind result_bind].
    rewrite assoc_platform_dict_None; [done | ..];
      intros Heq; apply Hunknown; rewrite Heq;
      apply (bool_decide_unpack _); vm_compute; exact I. }
  unfold get_dataset, dict_item. rewrite Hkey. cbn [of_option mbind result_bind].
  rewrite Harr. cbn [mbind result_bind]. rewrite Hmask. cbn [mbind result_bind].
  by rewrite Hplat.
Qed.

(** X3. [get_dataset] ends in a [KeyError] of ["file_key"] for a dataset
    info without that entry, and in a [KeyError] for the key when the key
    names neither a variable nor a dimension of the file and has no dot in
    it. *)
Theorem get_dataset_missing_variable (h : FileHandler T)
    (info : gmap string (pyval T)) :
  (info !! "file_key" = None → get_dataset h info = Raise (KeyError "file_key"))
  ∧ ∀ k, info !! "file_key" = Some (PStr k) →
         ds_contains (nc h) k = false →
         k ∉ ds_dims (nc h) →
         PyStr.contains "." k = false →
         get_dataset h info = Raise (KeyError k).
Proof.
  split.
  - intros Hkey. unfold get_dataset, dict_item. by rewrite Hkey.
  - intros k Hkey Hc _ _. unfold get_dataset, dict_item. rewrite Hkey.
    cbn [of_option mbind result_bind]. by rewrite (ds_getitem_missing _ _ Hc).
Qed.

(** X4. What [get_dataset] returns has the shape and the dimensions of the
    variable in the file, the platform name of the handler, the sensor
    "viirs", and 16 rows per scan when the variable has 3200 columns, 32
    otherwise. *)
Theorem get_dataset_metadata (h : FileHandler T) (info : gmap string (pyval T))
    (k : string) (arr masked : DataArray T) (pname : string) (cols : nat) :
  info !! "file_key" = Some (PStr k) →
  ds_getitem (nc h) k = Ok arr →
  _mask_invalid h arr info = Ok masked →
  platform_name h = Ok pname →
  da_shape arr !! 1%nat = Some cols →
  ∃ out, get_dataset h info = Ok out
    ∧ da_shape out = da_shape arr
    ∧ dims (da_var out) = dims (da_var arr)
    ∧ da_attrs out !! "platform_name" = Some (PStr pname)
    ∧ da_attrs out !! "sensor" = Some (PStr "viirs")
    ∧ da_attrs out !! "rows_per_scan"
      = Some (PInt (if decide (cols = 3200%nat) then 16 else 32)).
Proof.
  intros Hkey Harr Hmask Hplat Hcols.
  set (rps := (if decide (cols = 3200%nat) then 16 else 32) : Z).
  assert (Hrps : rows_per_scans arr = Ok rps).
  { unfold rows_per_scans. rewrite Hcols. cbn [of_option mbind result_bind].
    unfold rps. destruct (Nat.eqb_spec cols M_COLS) as [-> | Hne].
    - by rewrite decide_True.
    - by rewrite decide_False. }
  destruct (mask_invalid_frame _ _ _ _ Hmask) as (_ & Hshape & _).
  pose proof (mask_invalid_dims _ _ _ _ Hmask) as Hdims.
  rewrite (get_dataset_run h info k arr masked pname rps Hkey Harr Hmask Hplat Hrps).
  destruct (loaded_attr_late info masked pname rps) as (Hp & Hs & Hr).
  eexists. split; [reflexivity |].
  destruct (str_in _ _);
    change (da_shape (reset_coords_drop ?a)) with (da_shape a);
    change (dims (da_var (reset_coords_drop ?a))) with (dims (da_var a));
    change (da_attrs (reset_coords_drop ?a)) with (da_attrs a);
    rewrite loaded_shape, loaded_dims, Hshape, Hdims, Hp, Hs, Hr; done.
Qed.

(** X5. Unless the dataset info asks for "%" while the file says "1" or
    "unitless", [get_dataset] returns the elements exactly as the masking
    left them. *)
Theorem get_dataset_values_unscaled (h : FileHandler T)
    (info : gmap string (pyval T)) (k : string) (arr masked : DataArray T)
    (pname : string) (rps : Z) :
  info !! "file_key" = Some (PStr k) →
  ds_getitem (nc h) k = Ok arr →
  _mask_invalid h arr info = Ok masked →
  platform_name h = Ok pname →
  rows_per_scans arr = Ok rps →
  info !! "units" ≠ Some (PStr "%")
  ∨ str_in (dict_get (da_attrs arr) "units") ["1"; "unitless"] = false →
  ∃ out, get_dataset h info = Ok out ∧ da_values out = da_values masked.
Proof.
  intros Hkey Harr Hmask Hplat Hrps Hno.
  destruct (mask_invalid_frame _ _ _ _ Hmask) as (Hattrs & _).
  rewrite (get_dataset_run h info k arr masked pname rps Hkey Harr Hmask Hplat Hrps).
  eexists. split; [reflexivity |].
  assert (Hv : da_values (loaded info masked pname rps) = da_values masked).
  { rewrite loaded_values, Hattrs. cbn zeta.
    destruct (str_in (dict_get (da_attrs arr) "units") ["1"; "unitless"]) eqn:Hin;
      [| by rewrite andb_false_r].
    destruct Hno as [Hno | Hno]; [| discriminate].
    destruct (info !! "units") as [u |] eqn:Hu.
    - destruct (is_none u || is_str u "unitless"); [done |].
      destruct (is_str u "%") eqn:Eu; [| done].
      apply is_str_true in Eu. congruence.
    - unfold str_in in Hin. cbn [existsb] in Hin.
      apply orb_true_iff in Hin as [Hin | Hin].
      + apply is_str_true in Hin. by rewrite Hin.
      + rewrite orb_false_r in Hin. apply is_str_true in Hin. by rewrite Hin. }
  destruct (str_in (dict_get (da_attrs (loaded info masked pname rps)) _) _);
    exact Hv.
Qed.

(** X6. The standard name of what [get_dataset] returns is the one of the
    dataset info, else the one of the file; unless it is "longitude" or
    "latitude" the array keeps the coordinates the dataset gave it. *)
Theorem get_dataset_keeps_coords (h : FileHandler T)
    (info : gmap string (pyval T)) (k : string) (arr masked : DataArray T)
    (pname : string) (rps : Z) :
  info !! "file_key" = Some (PStr k) →
  ds_getitem (nc h) k = Ok arr →
  _mask_invalid h arr info = Ok masked →
  platform_name h = Ok pname →
  rows_per_scans arr = Ok rps →
  let standard_name := match info !! "standard_name" with
                       | Some sn => Some sn
                       | None => da_attrs arr !! "standard_name"
                       end in
  ∃ out, get_dataset h info = Ok out
    ∧ da_attrs out !! "standard_name" = standard_name
    ∧ (str_in (default PNone standard_name) ["longitude"; "latitude"] = false →
       da_coords out = da_coords arr).
Proof.
  intros Hkey Harr Hmask Hplat Hrps standard_name.
  destruct (mask_invalid_frame _ _ _ _ Hmask) as (Hattrs & _ & Hcoords & _).
  rewrite (get_dataset_run h info k arr masked pname rps Hkey Harr Hmask Hplat Hrps).
  eexists. split; [reflexivity |].
  pose proof (loaded_standard_name info masked pname rps) as Hsn.
  rewrite Hattrs in Hsn. fold standard_name in Hsn.
  unfold dict_get. rewrite Hsn.
  destruct (str_in (default PNone standard_name) _) eqn:Hin.
  - split; [exact Hsn | discriminate].
  - split; [exact Hsn |]. intros _.
    destruct (loaded_coords info masked pname rps) as [-> _]. done.
Qed.

(** ** Masking, again *)

Lemma where_twice (cond : T → bool) (x : T) :
  (let y := if cond x then x else num_nan in if cond y then y else num_nan)
  = if cond x then x else num_nan.
Proof.
  cbn zeta. destruct (cond x) eqn:Hx; [by rewrite Hx |].
  by destruct (cond num_nan).
Qed.

Lemma da_where_idem (cond : T → bool) (arr : DataArray T) :
  da_where cond (da_where cond arr) = da_where cond arr.
Proof.
  unfold da_where, set_data, Nd.map. cbn. do 3 f_equal.
  rewrite List.map_map. apply List.map_ext. intros x.
  apply (where_twice cond x).
Qed.

Lemma zip_mask_twice (l : list T) (g : list bool) :
  zip_with (fun x (b : bool) => if b then x else num_nan)
           (zip_with (fun x (b : bool) => if b then x else num_nan) l g) g
  = zip_with (fun x (b : bool) => if b then x else num_nan) l g.
Proof.
  revert g. induction l as [| x l IH]; intros [| b g]; cbn; try done.
  rewrite IH. by destruct b.
Qed.

Lemma zip_mask_where (cond : T → bool) (l : list T) (g : list bool) :
  zip_with (fun x (b : bool) => if b then x else num_nan)
    (List.map (fun x => if cond x then x else num_nan)
       (zip_with (fun x (b : bool) => if b then x else num_nan)
          (List.map (fun x => if cond x then x else num_nan) l) g)) g
  = zip_with (fun x (b : bool) => if b then x else num_nan)
      (List.map (fun x => if cond x then x else num_nan) l) g.
Proof.
  revert g. induction l as [| x l IH]; intros [| b g]; cbn; try done.
  rewrite IH. f_equal. destruct b; [| done].
  apply (where_twice cond x).
Qed.

(** The masking of the base handler, by the range it finds. *)
Lemma mask_invalid_base_cases (arr out : DataArray T) (info : gmap string (pyval T)) :
  _mask_invalid_base arr info = Ok out →
  (out = arr ∧ ∀ a, da_attrs a = da_attrs arr → _mask_invalid_base a info = Ok a)
  ∨ ∃ cond, out = da_where cond arr
      ∧ ∀ a, da_attrs a = da_attrs arr → _mask_invalid_base a info = Ok (da_where cond a).
Proof.
  unfold _mask_invalid_base.
  match goal with |- mbind _ ?m = _ → _ => destruct m as [vr |] eqn:Hvr end;
    [| discriminate].
  cbn [mbind result_bind].
  destruct (is_none vr) eqn:Hnone.
  - intros [= <-]. left. split; [done |]. intros a ->. rewrite Hvr.
    cbn [mbind result_bind]. by rewrite Hnone.
  - destruct (item_num vr 0) as [lo |] eqn:Hlo; [| discriminate].
    destruct (item_num vr 1) as [hi |] eqn:Hhi; [| discriminate].
    cbn [mbind result_bind]. intros [= <-]. right.
    exists (fun x => num_le lo x && num_le x hi). split; [done |].
    intros a ->. rewrite Hvr. cbn [mbind result_bind].
    by rewrite Hnone, Hlo, Hhi.
Qed.

(** X7. Masking twice is masking once: in a handler of any class,
    [_mask_invalid] gives back unchanged what it has produced. *)
Theorem mask_invalid_idempotent (h : FileHandler T) (arr out : DataArray T)
    (info : gmap string (pyval T)) :
  _mask_invalid h arr info = Ok out →
  _mask_invalid h out info = Ok out.
Proof.
  assert (Hbase : ∀ a o, _mask_invalid_base a info = Ok o →
                         _mask_invalid_base o info = Ok o).
  { intros a o Hrun. destruct (mask_invalid_base_cases a o info Hrun)
      as [[-> Hsame] | (cond & -> & Hsame)].
    - by apply Hsame.
    - rewrite (Hsame (da_where cond a)) by done. by rewrite da_where_idem. }
  unfold _mask_invalid, _mask_invalid_vi.
  destruct (cls h); try apply Hbase.
  destruct (_mask_invalid_base arr info) as [new |] eqn:Enew; [| discriminate].
  cbn [mbind result_bind].
  destruct (dict_item info "file_key") as [fk |]; [| discriminate].
  cbn [mbind result_bind].
  destruct (str_in fk ["NDVI"; "EVI"] && _filter_veg h).
  2: { intros [= <-]. by rewrite (Hbase arr new Enew). }
  destruct (_get_veg_index_good_mask h) as [good |]; [| discriminate].
  cbn [mbind result_bind]. unfold da_where_mask.
  destruct (bool_decide (dims (da_var new) = mk_dims good)) eqn:Hd; [| discriminate].
  destruct (bool_decide (da_shape new = shape (mk_data good))) eqn:Hs; [| discriminate].
  cbn [andb]. intros [= <-].
  destruct (mask_invalid_base_cases arr new info Enew)
    as [[-> Hsame] | (cond & -> & Hsame)].
  - rewrite Hsame by done. cbn [mbind result_bind].
    change (dims (da_var (set_data ?a _))) with (dims (da_var a)).
    change (da_shape (set_data ?a ?d)) with (shape d). cbn [shape].
    rewrite Hd, Hs. cbn [andb]. unfold set_data, da_values. cbn.
    by rewrite zip_mask_twice.
  - rewrite Hsame by done. cbn [mbind result_bind].
    change (dims (da_var (da_where ?c (set_data ?a _)))) with (dims (da_var a)).
    change (da_shape (da_where ?c (set_data ?a ?d))) with (shape d). cbn [shape].
    rewrite Hd, Hs. cbn [andb]. unfold da_where, set_data, da_values, Nd.map. cbn.
    by rewrite zip_mask_where.
Qed.

(** X8. A variable with a [valid_min] attribute and no [valid_max], for
    which neither the dataset info nor the file gives a [valid_range],
    cannot be loaded: [get_dataset] ends in the [KeyError] of
    ["valid_max"], for a handler of any class. *)
Theorem get_dataset_valid_min_without_max (h : FileHandler T)
    (info : gmap string (pyval T)) (k : string) (arr : DataArray T) :
  info !! "file_key" = Some (PStr k) →
  ds_getitem (nc h) k = Ok arr →
  info !! "valid_range" = None →
  da_attrs arr !! "valid_range" = None →
  is_Some (da_attrs arr !! "valid_min") →
  da_attrs arr !! "valid_max" = None →
  get_dataset h info = Raise (KeyError "valid_max").
Proof.
  intros Hkey Harr Hi Ha Hmin Hmax.
  pose proof (mask_invalid_base_valid_min_only arr info Hi Ha Hmin Hmax) as Hbase.
  unfold get_dataset, dict_item. rewrite Hkey. cbn [of_option mbind result_bind].
  rewrite Harr. cbn [mbind result_bind].
  unfold _mask_invalid, _mask_invalid_vi. rewrite Hbase.
  by destruct (cls h).
Qed.

Lemma da_where_mask_values (arr out : DataArray T) (good : Mask) :
  da_where_mask arr good = Ok out →
  da_values out
  = zip_with (fun x (g : bool) => if g then x else num_nan)
             (da_values arr) (flat (mk_data good)).
Proof.
  unfold da_where_mask. destruct (_ && _); [| discriminate]. by intros [= <-].
Qed.

(** X9. Masking, in a handler of any class, changes elements only, and
    only into the fill value: what [_mask_invalid] returns has the
    attributes, dimensions, shape and coordinates of the array it was
    given, and each of its elements is the element at that place or the
    fill value. *)
Theorem mask_invalid_keeps_or_fills (h : FileHandler T) (arr out : DataArray T)
    (info : gmap string (pyval T)) :
  _mask_invalid h arr info = Ok out →
  da_attrs out = da_attrs arr
  ∧ dims (da_var out) = dims (da_var arr)
  ∧ da_shape out = da_shape arr
  ∧ da_coords out = da_coords arr
  ∧ ∀ i y, da_values out !! i = Some y →
      ∃ x, da_values arr !! i = Some x ∧ (y = x ∨ y = num_nan).
Proof.
  intros Hrun.
  destruct (mask_invalid_frame h arr out info Hrun) as (Ha & Hs & Hc & _).
  pose proof (mask_invalid_dims h arr out info Hrun) as Hd.
  repeat (split; [done |]).
  assert (Hbase : ∀ new, _mask_invalid_base arr info = Ok new →
    ∀ i y, da_values new !! i = Some y →
      ∃ x, da_values arr !! i = Some x ∧ (y = x ∨ y = num_nan)).
  { intros new Hnew i y Hy.
    destruct (mask_invalid_base_cases arr new info Hnew)
      as [[-> _] | (cond & -> & _)]; [eauto |].
    rewrite da_where_values in Hy. change (List.map ?f ?l) with (f <$> l) in Hy.
    rewrite list_lookup_fmap in Hy.
    destruct (da_values arr !! i) as [x |]; [| discriminate].
    injection Hy as <-. exists x. split; [done |]. destruct (cond x); auto. }
  revert Hrun. unfold _mask_invalid, _mask_invalid_vi.
  destruct (cls h); try (intros Hrun; by apply Hbase).
  destruct (_mask_invalid_base arr info) as [new |] eqn:Enew; [| discriminate].
  cbn [mbind result_bind].
  destruct (dict_item info "file_key"); [| discriminate]. cbn [mbind result_bind].
  destruct (_ && _).
  - destruct (_get_veg_index_good_mask h) as [good |]; [| discriminate].
    cbn [mbind result_bind]. intros Hw i y Hy.
    rewrite (da_where_mask_values _ _ _ Hw), lookup_zip_with in Hy.
    destruct (da_values new !! i) as [x' |] eqn:Hx'; [| discriminate].
    destruct (flat (mk_data good) !! i) as [g |]; [| discriminate].
    cbn in Hy. injection Hy as <-.
    destruct (Hbase new eq_refl i x' Hx') as (x & Hx & Hor).
    exists x. split; [done |]. destruct g; auto.
  - intros [= <-]. by apply Hbase.
Qed.

(** ** Flag meanings *)

Lemma split_on_nonempty (c : ascii) (s : string) : PyStr.split_on c s ≠ [].
Proof.
  destruct s as [| a s]; cbn; [done |].
  destruct (Ascii.eqb a c); [done |]. by destruct (PyStr.split_on c s).
Qed.

Lemma join_cons (sep w : string) (ws : list string) :
  ws ≠ [] → PyStr.join sep (w :: ws) = w +:+ sep +:+ PyStr.join sep ws.
Proof. by destruct ws. Qed.

Lemma join_cons_char (sep : string) (a : ascii) (w : string) (ws : list string) :
  PyStr.join sep (String a w :: ws) = String a (PyStr.join sep (w :: ws)).
Proof. by destruct ws. Qed.

Lemma join_split_on (c : ascii) (s : string) :
  PyStr.join (String c EmptyString) (PyStr.split_on c s) = s.
Proof.
  induction s as [| a s IH]; [done |]. cbn [PyStr.split_on].
  destruct (Ascii.eqb_spec a c) as [-> | Hne].
  - rewrite join_cons by apply split_on_nonempty. cbn. by rewrite IH.
  - pose proof (split_on_nonempty c s) as Hnil.
    destruct (PyStr.split_on c s) as [| w ws]; [done |].
    by rewrite join_cons_char, IH.
Qed.

Lemma contains_char_cons (c a : ascii) (w : string) :
  PyStr.contains (String c EmptyString) (String a w)
  = Ascii.eqb c a || PyStr.contains (String c EmptyString) w.
Proof.
  cbn [PyStr.contains String.prefix]. destruct (ascii_dec c a) as [-> | Hne].
  - rewrite Ascii.eqb_refl. by destruct w.
  - by destruct (Ascii.eqb_spec c a).
Qed.

Lemma split_on_pieces (c : ascii) (s : string) :
  Forall (fun w => PyStr.contains (String c EmptyString) w = false)
         (PyStr.split_on c s).
Proof.
  induction s as [| a s IH]; cbn [PyStr.split_on].
  - by constructor.
  - destruct (Ascii.eqb_spec a c) as [-> | Hne].
    + by constructor.
    + pose proof (split_on_nonempty c s) as Hnil.
      destruct (PyStr.split_on c s) as [| w ws]; [done |].
      apply Forall_cons in IH as [Hw Hws]. constructor; [| done].
      rewrite contains_char_cons, Hw.
      by destruct (Ascii.eqb_spec c a) as [-> | _].
Qed.

(** X10. A one-line [flag_meanings] string is decoded into the list of its
    pieces between the spaces: joining the pieces with a space gives the
    string back, and no piece holds a space. *)
Theorem decode_flag_meanings_round_trip (data_arr : DataArray T)
    (flag_meanings : string) :
  da_attrs data_arr !! "flag_meanings" = Some (PStr flag_meanings) →
  PyStr.contains PyStr.newline flag_meanings = false →
  ∃ pieces,
    da_attrs (_decode_flag_meanings data_arr) !! "flag_meanings"
    = Some (PList (List.map PStr pieces))
    ∧ PyStr.join " " pieces = flag_meanings
    ∧ Forall (fun w => PyStr.contains " " w = false) pieces.
Proof.
  intros Hattr Hline. exists (PyStr.split_on " " flag_meanings).
  split; [| split].
  - unfold _decode_flag_meanings, dict_get. rewrite Hattr. cbn [default id from_option].
    rewrite Hline. cbn [negb]. unfold da_attrs, set_attr. cbn.
    by rewrite lookup_insert_eq.
  - apply join_split_on.
  - apply split_on_pieces.
Qed.

(** X11. Decoding the flag meanings a second time changes nothing, and an
    array whose [flag_meanings] are missing, not a string, or a string of
    several lines is not changed at all. *)
Theorem decode_flag_meanings_idempotent (data_arr : DataArray T) :
  _decode_flag_meanings (_decode_flag_meanings data_arr)
  = _decode_flag_meanings data_arr
  ∧ ((∀ s, da_attrs data_arr !! "flag_meanings" = Some (PStr s) →
           PyStr.contains PyStr.newline s = true) →
     _decode_flag_meanings data_arr = data_arr).
Proof.
  split.
  - assert (Hcases : (∃ l, dict_get (da_attrs (_decode_flag_meanings data_arr))
                                    "flag_meanings" = PList l)
                     ∨ _decode_flag_meanings data_arr = data_arr).
    { unfold _decode_flag_meanings.
      destruct (dict_get (da_attrs data_arr) "flag_meanings"); auto.
      destruct (negb _); auto. left. eexists.
      unfold dict_get, da_attrs, set_attr. cbn. by rewrite lookup_insert_eq. }
    destruct Hcases as [[l Hl] | Hsame].
    + unfold _decode_flag_meanings at 1. by rewrite Hl.
    + by rewrite !Hsame.
  - intros Hlines. unfold _decode_flag_meanings, dict_get.
    destruct (da_attrs data_arr !! "flag_meanings") as [v |] eqn:Hfm; [| done].
    destruct v; try done. cbn [default id from_option]. by rewrite (Hlines _ eq_refl).
Qed.

End Loading.

Section Advertising.

Context {T : Type} `{ArrayOps T}.

Lemma handled_add_grows (handled handled' : gset string) (v : pyval T) :
  handled_add handled v = Ok handled' →
  handled ⊆ handled' ∧ ∀ k, v = PStr k → k ∈ handled'.
Proof.
  unfold handled_add. destruct v; try (destruct (hashable _); [| discriminate]);
    intros [= <-]; split; try done; try set_solver.
Qed.

(** The loop over a prefix of answerable datasets. *)
Lemma configured_loop_answerable (h : FileHandler T) (pre tail : list (ds_item T)) :
  Forall (answerable h) pre →
  ∀ handled, ∃ handled',
    configured_loop h handled (pre ++ tail)
    = gen_yield (List.map (answer h) pre) (configured_loop h handled' tail)
    ∧ handled ⊆ handled'
    ∧ ∀ item k, item ∈ pre → file_key_of (snd item) = PStr k → k ∈ handled'.
Proof.
  induction 1 as [| [is_avail ds_info] pre Hitem Hpre IH]; intros handled.
  - exists handled. cbn. split; [by destruct (configured_loop _ _ _) |].
    split; [done |]. intros item k Hin. by apply elem_of_nil in Hin.
  - destruct Hitem as ([name Hname] & Hhash & Hours). cbn [fst snd] in *.
    assert (Hfk : file_key_of ds_info = default name (ds_info !! "file_key")).
    { unfold file_key_of, dict_get. by rewrite Hname. }
    rewrite Hfk in Hhash.
    destruct (handled_add_ok handled _ Hhash) as [handled1 Hadd].
    destruct (handled_add_grows _ _ _ Hadd) as [Hsub1 Hkey1].
    destruct (IH handled1) as (handled' & Hrun & Hsub & Hkeys).
    exists handled'. split; [| split].
    + cbn [app configured_loop List.map]. unfold dict_item. rewrite Hname.
      cbn [of_option mbind result_bind]. rewrite Hadd.
      cbn [mbind result_bind].
      unfold answer at 1. cbn [fst snd]. rewrite Hfk.
      destruct is_avail as [b |].
      * rewrite Hrun. unfold gen_yield. cbn. done.
      * destruct (Hours eq_refl) as (ft & Hft & [m Hm]). rewrite Hft.
        cbn [of_option]. rewrite Hm, Hrun. unfold gen_yield. cbn. done.
    + set_solver.
    + intros item k Hin Hk. apply elem_of_cons in Hin as [-> | Hin].
      * cbn [snd] in Hk. rewrite Hfk in Hk. apply Hsub. by apply Hkey1.
      * by apply (Hkeys item).
Qed.

Lemma dynamic_ds_info_file_key (h : FileHandler T) (var_name : string)
    (data_arr : DataArray T) :
  dynamic_ds_info h var_name data_arr !! "file_key" = Some (PStr var_name)
  ∧ dynamic_ds_info h var_name data_arr !! "file_type" = Some (PStr (ftype h)).
Proof.
  unfold dynamic_ds_info. cbn zeta.
  destruct (PyStr.contains "longitude" _); [| destruct (PyStr.contains "latitude" _)];
    rewrite ?lookup_delete_ne by done; rewrite !lookup_insert_ne by done;
    rewrite !lookup_insert_eq; rewrite ?lookup_insert_ne by done;
    by rewrite ?lookup_insert_eq.
Qed.

Lemma handled_add_keys (handled handled' : gset string) (item : ds_item T) :
  handled_add handled (file_key_of (snd item)) = Ok handled' →
  ∀ rest, configured_keys rest ∪ handled' = configured_keys (item :: rest) ∪ handled.
Proof.
  intros Hadd rest. cbn [configured_keys]. revert Hadd. unfold handled_add.
  destruct (file_key_of (snd item));
    try (destruct (hashable _); [| discriminate]); intros [= <-];
    try reflexivity.
  by rewrite (assoc_L (∪)), (comm_L (∪) (configured_keys rest)).
Qed.

(** The loop over a prefix of answerable datasets, with the names it has
    handled afterwards. *)
Lemma configured_loop_keys (h : FileHandler T) (pre tail : list (ds_item T)) :
  Forall (answerable h) pre →
  ∀ handled,
    configured_loop h handled (pre ++ tail)
    = gen_yield (List.map (answer h) pre)
                (configured_loop h (configured_keys pre ∪ handled) tail).
Proof.
  induction 1 as [| [is_avail ds_info] pre Hitem Hpre IH]; intros handled.
  - cbn [app List.map configured_keys]. rewrite (left_id_L ∅ (∪)).
    unfold gen_yield. cbn. by destruct (configured_loop _ _ _).
  - destruct Hitem as ([name Hname] & Hhash & Hours). cbn [fst snd] in *.
    assert (Hfk : file_key_of ds_info = default name (ds_info !! "file_key")).
    { unfold file_key_of, dict_get. by rewrite Hname. }
    destruct (handled_add_ok handled _ Hhash) as [handled1 Hadd].
    rewrite <- (handled_add_keys handled handled1 (is_avail, ds_info) Hadd pre).
    rewrite Hfk in Hadd.
    cbn [app configured_loop List.map]. unfold dict_item. rewrite Hname.
    cbn [of_option mbind result_bind]. rewrite Hadd.
    cbn [mbind result_bind].
    unfold answer at 1. cbn [fst snd]. rewrite Hfk.
    destruct is_avail as [b |].
    + rewrite (IH handled1). unfold gen_yield. cbn. done.
    + destruct (Hours eq_refl) as (ft & Hft & [m Hm]). rewrite Hft.
      cbn [of_option]. rewrite Hm, (IH handled1). unfold gen_yield. cbn. done.
Qed.

(** X12. One answer for each configured dataset, in the order given: when
    every configured dataset is answerable, [available_datasets] yields the
    earlier decision for a decided dataset and whether the key is in the
    file for an undecided one, each with its unchanged info, then the
    variables that the dynamic part finds in the file when the handled
    names are the string keys of the configured datasets, and ends without
    an exception. *)
Theorem available_datasets_answers (h : FileHandler T)
    (configured : list (ds_item T)) :
  Forall (answerable h) configured →
  available_datasets h (Some configured)
  = ((List.map (answer h) configured
      ++ fst (_dynamic_variables_from_file h (configured_keys configured)))%list,
     None).
Proof.
  intros Hall.
  pose proof (configured_loop_keys h configured [] Hall ∅) as Hrun.
  unfold available_datasets. cbn [default from_option id].
  rewrite List.app_nil_r, (right_id_L ∅ (∪)) in Hrun. rewrite Hrun.
  cbn [configured_loop]. unfold gen_yield.
  by rewrite (proj1 (dynamic_variables_spec h (configured_keys configured))).
Qed.

(** X13. No variable is advertised twice: a variable that an answerable
    configuration names by its key is not among the variables found in the
    file, unless its name holds "longitude" or "latitude". *)
Theorem available_datasets_no_duplicates (h : FileHandler T)
    (configured : list (ds_item T)) :
  Forall (answerable h) configured →
  ∃ handled,
    fst (available_datasets h (Some configured))
    = (List.map (answer h) configured
       ++ fst (_dynamic_variables_from_file h handled))%list
    ∧ ∀ item k, item ∈ configured → file_key_of (snd item) = PStr k →
        is_lonlat k = false →
        ∀ found, found ∈ fst (_dynamic_variables_from_file h handled) →
                 snd found !! "file_key" ≠ Some (PStr k).
Proof.
  intros Hall.
  destruct (configured_loop_answerable h configured [] Hall ∅)
    as (handled & Hrun & _ & Hkeys).
  exists handled. split.
  - unfold available_datasets. cbn [default from_option id].
    rewrite List.app_nil_r in Hrun. rewrite Hrun. by cbn.
  - intros item k Hin Hk Hll found Hfound Hfk.
    apply (dynamic_variables_spec h handled) in Hfound
      as (v & arr & (_ & _ & Hnew) & ->).
    cbn [snd] in Hfk. rewrite (proj1 (dynamic_ds_info_file_key h v arr)) in Hfk.
    injection Hfk as ->.
    destruct Hnew as [Hnew | Hnew]; [| congruence].
    apply Hnew. by apply (Hkeys item).
Qed.

(** X14. A configured dataset without a name ends the generator with the
    [KeyError] of ["name"], also when it has a [file_key]: after answerable
    datasets, their answers are all that was yielded, and the variables of
    the file are not reached. *)
Theorem available_datasets_missing_name (h : FileHandler T)
    (pre rest : list (ds_item T)) (is_avail : option bool)
    (ds_info : gmap string (pyval T)) :
  Forall (answerable h) pre →
  ds_info !! "name" = None →
  available_datasets h (Some (pre ++ (is_avail, ds_info) :: rest)%list)
  = (List.map (answer h) pre, Some (KeyError "name")).
Proof.
  intros Hall Hname.
  destruct (configured_loop_answerable h pre ((is_avail, ds_info) :: rest) Hall ∅)
    as (handled & Hrun & _ & _).
  unfold available_datasets. cbn [default from_option id]. rewrite Hrun.
  cbn [configured_loop]. unfold dict_item. rewrite Hname.
  cbn [of_option mbind result_bind]. unfold gen_yield. cbn [fst snd].
  by rewrite List.app_nil_r.
Qed.


Lemma dynamic_ds_info_resolution (h : FileHandler T) (var_name : string)
    (data_arr : DataArray T) :
  dynamic_ds_info h var_name data_arr !! "resolution"
  = Some (PInt (if bool_decide (da_shape data_arr !! 1%nat = Some M_COLS)
                then 750 else 375)).
Proof.
  unfold dynamic_ds_info. cbn zeta.
  destruct (PyStr.contains "longitude" _); [| destruct (PyStr.contains "latitude" _)];
    rewrite ?lookup_delete_ne by done; rewrite !lookup_insert_ne by done;
    by rewrite lookup_insert_eq.
Qed.


(** X15. A variable that the dynamic part advertises can be found again:
    with its advertised info [get_dataset] fails neither at the key, nor at
    the variable, nor at the rows per scan, so it returns an array when the
    masking succeeds and the platform is known; and the resolution it was
    advertised with, 750 or 375, goes with 16 or 32 rows per scan. *)
Theorem dynamic_dataset_loads (h : FileHandler T) (handled : gset string)
    (var_name : string) (data_arr masked : DataArray T) (pname : string) :
  discovered h handled var_name data_arr →
  let info := dynamic_ds_info h var_name data_arr in
  _mask_invalid h data_arr info = Ok masked →
  platform_name h = Ok pname →
  ∃ out, get_dataset h info = Ok out
    ∧ da_shape out = da_shape data_arr
    ∧ ((info !! "resolution" = Some (PInt 750)
        ∧ da_attrs out !! "rows_per_scan" = Some (PInt 16))
       ∨ (info !! "resolution" = Some (PInt 375)
          ∧ da_attrs out !! "rows_per_scan" = Some (PInt 32))).
Proof.
  intros (Hget & Hnd & _) info Hmask Hplat.
  destruct (lookup_lt_is_Some_2 (da_shape data_arr) 1) as [cols Hcols].
  { unfold Nd.ndim, da_shape in *. lia. }
  set (rps := (if Nat.eqb cols M_COLS then 16 else 32) : Z).
  assert (Hrps : rows_per_scans data_arr = Ok rps).
  { unfold rows_per_scans. by rewrite Hcols. }
  destruct (mask_invalid_frame _ _ _ _ Hmask) as (_ & Hshape & _).
  rewrite (get_dataset_run h info var_name data_arr masked pname rps
             (proj1 (dynamic_ds_info_file_key h var_name data_arr))
             Hget Hmask Hplat Hrps).
  destruct (loaded_attr_late info masked pname rps) as (_ & _ & Hr).
  eexists. split; [reflexivity |].
  assert (Hres : info !! "resolution"
                 = Some (PInt (if Nat.eqb cols M_COLS then 750 else 375))).
  { unfold info. rewrite dynamic_ds_info_resolution, Hcols.
    destruct (Nat.eqb_spec cols M_COLS) as [-> | Hne].
    - by rewrite bool_decide_eq_true_2.
    - rewrite bool_decide_eq_false_2; [done | congruence]. }
  rewrite Hres.
  destruct (str_in _ _);
    change (da_shape (reset_coords_drop ?a)) with (da_shape a);
    change (da_attrs (reset_coords_drop ?a)) with (da_attrs a);
    rewrite loaded_shape, Hshape, Hr; (split; [done |]);
    unfold rps; destruct (Nat.eqb cols M_COLS); auto.
Qed.


End Advertising.

Section Rescaling.

Context {T : Type} `{ArrayOps T}.

Lemma scale_var_inv (orig cur cur' : Dataset T) (var_name : string) (var : XVariable T) :
  (∀ name, assoc name _manual_scalings = None →
           assoc name (variables cur) = assoc name (variables orig)) →
  assoc var_name (variables cur) = Some var →
  scale_var cur var_name = Ok cur' →
  ∃ var', rescaled_of_spec orig var_name var = Ok var'
    ∧ ((assoc var_name _manual_scalings = None ∧ cur' = cur)
       ∨ (is_Some (assoc var_name _manual_scalings)
          ∧ cur' = mkDataset (assoc_set var_name var' (variables cur))
                             (coord_names cur) (indexes cur))).
Proof.
  intros Hcomp Hvar. unfold rescaled_of_spec, scale_var.
  destruct (assoc var_name _manual_scalings) as [[sf off] |] eqn:Hm.
  - destruct (manual_scalings_companions _ _ _ Hm) as [Hsf Hoff].
    unfold ds_getitem. rewrite Hvar, (Hcomp _ Hsf), (Hcomp _ Hoff).
    cbn [of_option mbind result_bind].
    destruct (assoc sf (variables orig)) as [s |]; [| discriminate].
    destruct (assoc off (variables orig)) as [o |]; [| discriminate].
    cbn [of_option mbind result_bind da_var data].
    destruct (scaled _ _ _) as [new |]; [| discriminate].
    cbn [mbind result_bind]. intros [= <-]. eexists. split; [reflexivity |].
    right. split; [by eexists | reflexivity].
  - intros [= <-]. eexists. split; [reflexivity |]. by left.
Qed.

(** When the loop ends without an exception, every variable it went
    through could be rescaled from the dataset it started from. *)
Lemma scale_loop_success (orig : Dataset T) (remaining : list string) :
  ∀ cur final : Dataset T,
  NoDup remaining →
  (∀ name, name ∈ remaining → assoc name (variables cur) = assoc name (variables orig)) →
  (∀ name, assoc name _manual_scalings = None →
           assoc name (variables cur) = assoc name (variables orig)) →
  scale_loop cur remaining = Ok final →
  ∀ name var, name ∈ remaining → assoc name (variables orig) = Some var →
    ∃ var', rescaled_of_spec orig name var = Ok var'.
Proof.
  induction remaining as [| n rest IH]; intros cur final Hnd Hrem Hcomp Hrun name var Hin Hvar.
  - by apply elem_of_nil in Hin.
  - apply NoDup_cons in Hnd as [Hn Hnd]. cbn [scale_loop] in Hrun.
    destruct (scale_var cur n) as [cur' |] eqn:Hstep; [| discriminate].
    cbn [mbind result_bind] in Hrun.
    destruct (assoc n (variables orig)) as [nvar |] eqn:Hnvar.
    + assert (Hcur : assoc n (variables cur) = Some nvar).
      { rewrite Hrem; [done | by apply elem_of_cons; left]. }
      destruct (scale_var_inv orig cur cur' n nvar Hcomp Hcur Hstep)
        as (nvar' & Hspec & Hcases).
      apply elem_of_cons in Hin as [-> | Hin].
      { rewrite Hnvar in Hvar. injection Hvar as <-. eauto. }
      apply (IH cur' final Hnd); try done.
      * intros m Hm. destruct Hcases as [[_ ->] | [_ ->]]; cbn [variables].
        -- apply Hrem. by apply elem_of_cons; right.
        -- rewrite assoc_set_ne by (intros ->; done).
           apply Hrem. by apply elem_of_cons; right.
      * intros m Hm. destruct Hcases as [[_ ->] | [[x Hx] ->]]; cbn [variables].
        -- by apply Hcomp.
        -- rewrite assoc_set_ne by (intros ->; congruence). by apply Hcomp.
    + apply elem_of_cons in Hin as [-> | Hin]; [congruence |].
      assert (Hcur : assoc n (variables cur) = None).
      { rewrite Hrem; [done | by apply elem_of_cons; left]. }
      assert (cur' = cur) as ->.
      { revert Hstep. unfold scale_var, ds_getitem. rewrite Hcur.
        destruct (assoc n _manual_scalings) as [[sf off] |]; [discriminate |].
        by intros [= <-]. }
      apply (IH cur final Hnd); try done.
      intros m Hm. apply Hrem. by apply elem_of_cons; right.
Qed.


(** X17. The rescaling of an LST file ends without an exception exactly
    when every variable that [_manual_scalings] names and the file holds
    has both companions in the file, of shapes that broadcast to its own. *)
Theorem scale_data_succeeds_iff (ds : Dataset T) :
  NoDup (keys (variables ds)) →
  (∃ ds', _scale_data ds = Ok ds')
  ↔ ∀ name var scale_name offset_name,
      assoc name (variables ds) = Some var →
      assoc name _manual_scalings = Some (scale_name, offset_name) →
      ∃ scale_factor add_offset,
        assoc scale_name (variables ds) = Some scale_factor
        ∧ assoc offset_name (variables ds) = Some add_offset
        ∧ is_Some (Nd.broadcast_to (shape (data var)) (data scale_factor))
        ∧ is_Some (Nd.broadcast_to (shape (data var)) (data add_offset)).
Proof.
  intros Hnd. split.
  - intros [ds' Hrun]. apply companions_ok_present.
    unfold companions_ok. apply forallb_forall.
    intros [k v] Hin. cbn [fst snd].
    destruct (scale_loop_success ds (keys (variables ds)) ds ds' Hnd
                ltac:(done) ltac:(done) Hrun k v) as [v' ->]; [| | done].
    + apply list_elem_of_In, in_map_iff. by exists (k, v).
    + by apply In_assoc.
  - intros Hpres.
    destruct (scale_data_spec ds Hnd (companions_present_ok ds Hnd Hpres))
      as (ds' & Hrun & _).
    eauto.
Qed.

(** X18. With companions of a single element each, the initialisation of
    the LST handler turns every element [x] of a variable that
    [_manual_scalings] names into [x * scale + offset], and leaves the
    dimensions, the shape and the attributes of the variable as they are. *)
Theorem lst_init_scalar (h : FileHandler T) (name scale_name offset_name : string)
    (var scale_factor add_offset : XVariable T) (s o : T) :
  NoDup (keys (variables (nc h))) →
  companions_ok (nc h) = true →
  assoc name _manual_scalings = Some (scale_name, offset_name) →
  assoc name (variables (nc h)) = Some var →
  assoc scale_name (variables (nc h)) = Some scale_factor →
  assoc offset_name (variables (nc h)) = Some add_offset →
  data scale_factor = NdArray [] [s] →
  data add_offset = NdArray [] [o] →
  Nd.wf (data var) →
  ∃ h', VIIRSLSTHandler_init h = Ok h'
    ∧ assoc name (variables (nc h'))
      = Some (mkVariable (dims var)
                (NdArray (shape (data var))
                   (List.map (fun x => num_add (num_mul x s) o) (flat (data var))))
                (attrs var)).
Proof.
  intros Hnd Hok Hm Hvar Hs Ho Hsd Hod Hwf.
  destruct (scale_data_spec (nc h) Hnd Hok) as (ds' & Hrun & _ & _ & _ & Hvars).
  unfold VIIRSLSTHandler_init. rewrite Hrun. cbn [mbind result_bind].
  eexists. split; [reflexivity |]. cbn [nc].
  destruct (Hvars name var Hvar) as (var' & Hspec & ->).
  unfold rescaled_of_spec in Hspec. rewrite Hm, Hs, Ho in Hspec.
  cbn [of_option mbind result_bind] in Hspec.
  rewrite Hsd, Hod, (scaled_scalar _ s o Hwf) in Hspec.
  cbn [mbind result_bind] in Hspec. congruence.
Qed.

End Rescaling.

Section Opening.

Context {T : Type} `{ArrayOps T}.

Variable get_chunk_size_limit : Z.
Variable open_dataset : string → list (string * Z) → result (Dataset T).
Variable rename : Dataset T → list (string * string) → result (Dataset T).

(** X19. The chunks are entire rows, at least one: the rows of an M-band
    chunk are the chunk size limit divided by the 12800 bytes of a row of
    3200 32-bit elements, and one when that is less, so a chunk stays
    within a limit of a row or more and could not hold a row more; the
    rows of an I-band chunk are twice as many. *)
Theorem row_chunks_bounds :
  let m := row_chunks_m get_chunk_size_limit in
  m = Z.max (get_chunk_size_limit / 12800) 1
  ∧ (1 ≤ m)%Z
  ∧ ((12800 ≤ get_chunk_size_limit)%Z →
     (m * 12800 ≤ get_chunk_size_limit < (m + 1) * 12800)%Z)
  ∧ row_chunks_i get_chunk_size_limit = 2 * m.
Proof.
  cbn zeta. unfold row_chunks_i, row_chunks_m.
  change (Z.of_nat M_COLS) with 3200.
  rewrite Z.div_div by lia. change (4 * 3200) with 12800.
  split; [done |]. split; [lia |]. split; [| lia].
  intros Hlimit.
  assert (1 ≤ get_chunk_size_limit / 12800)%Z by (apply Z.div_le_lower_bound; lia).
  rewrite Z.max_l by lia.
  pose proof (Z.mul_div_le get_chunk_size_limit 12800 ltac:(lia)).
  pose proof (Z.mul_succ_div_gt get_chunk_size_limit 12800 ltac:(lia)).
  lia.
Qed.

Lemma attrs_update_run (ds : Dataset T) (k key : string) (v : pyval T) :
  ds_contains ds k = true →
  ∃ var, assoc k (variables ds) = Some var
    ∧ attrs_update ds k key v
      = Ok (mkDataset
              (assoc_set k (mkVariable (dims var) (data var)
                                       (<[key := v]> (attrs var)))
                         (variables ds))
              (coord_names ds) (indexes ds)).
Proof.
  unfold ds_contains. intros Hin.
  apply mem_elem_of, assoc_is_Some in Hin as [var Hvar].
  exists var. split; [done |]. unfold attrs_update, ds_getitem. by rewrite Hvar.
Qed.

Lemma ds_contains_assoc (ds : Dataset T) (k : string) :
  ds_contains ds k = false → assoc k (variables ds) = None.
Proof.
  unfold ds_contains. intros Hc.
  destruct (assoc k (variables ds)) as [v |] eqn:Hv; [| done].
  apply assoc_Some_keys, mem_elem_of in Hv. congruence.
Qed.

(** One standard name set by hand. *)
Lemma standard_name_step (ds : Dataset T) (k sn : string) :
  ∃ ds', (if ds_contains ds k
          then attrs_update ds k "standard_name" (PStr sn) else Ok ds) = Ok ds'
    ∧ keys (variables ds') = keys (variables ds)
    ∧ coord_names ds' = coord_names ds ∧ indexes ds' = indexes ds
    ∧ ∀ name,
        assoc name (variables ds')
        = (fun var => if decide (name = k)
                      then mkVariable (dims var) (data var)
                             (<["standard_name" := PStr sn]> (attrs var))
                      else var) <$> assoc name (variables ds).
Proof.
  destruct (ds_contains ds k) eqn:Hc.
  - destruct (attrs_update_run ds k "standard_name" (PStr sn) Hc) as (var & Hvar & ->).
    eexists. split; [reflexivity |]. cbn [variables coord_names indexes].
    split; [apply keys_assoc_set; by apply (assoc_Some_keys _ var) |].
    split; [done |]. split; [done |]. intros name.
    destruct (decide (name = k)) as [-> | Hne].
    + by rewrite assoc_set_eq, Hvar.
    + rewrite assoc_set_ne by done. by destruct (assoc name (variables ds)).
  - exists ds. repeat (split; [done |]). intros name.
    destruct (decide (name = k)) as [-> | Hne].
    + by rewrite (ds_contains_assoc _ _ Hc).
    + by destruct (assoc name (variables ds)).
Qed.

(** X20. The initialisation opens the file, renames, and then gives the
    variables Latitude and Longitude, when the file has them, the standard
    names "latitude" and "longitude"; it changes nothing else of what the
    renaming gave, and the algorithm version it keeps is the platform short
    name of the file name. *)
Theorem init_standard_names (c : handler_class) (filter_veg : bool)
    (filename : string) (filename_info : gmap string string) (file_type : string)
    (matches : pyval T → option bool) (raw renamed : Dataset T)
    (shortname : string) :
  open_dataset filename (chunks get_chunk_size_limit) = Ok raw →
  rename_xy rename raw = Ok renamed →
  filename_info !! "platform_shortname" = Some shortname →
  ∃ h, base_init get_chunk_size_limit open_dataset rename c filter_veg
                 filename filename_info file_type matches
       = Ok (h, shortname)
    ∧ keys (variables (nc h)) = keys (variables renamed)
    ∧ coord_names (nc h) = coord_names renamed
    ∧ indexes (nc h) = indexes renamed
    ∧ ∀ name var, assoc name (variables renamed) = Some var →
        assoc name (variables (nc h))
        = Some (if decide (name = "Latitude") then
                  mkVariable (dims var) (data var)
                             (<["standard_name" := PStr "latitude"]> (attrs var))
                else if decide (name = "Longitude") then
                  mkVariable (dims var) (data var)
                             (<["standard_name" := PStr "longitude"]> (attrs var))
                else var).
Proof.
  intros Hopen Hren Hname. unfold base_init. rewrite Hopen. cbn [mbind result_bind].
  rewrite Hren. cbn [mbind result_bind]. unfold set_standard_names.
  destruct (standard_name_step renamed "Latitude" "latitude")
    as (ds1 & -> & Hk1 & Hc1 & Hi1 & Hv1).
  cbn [mbind result_bind].
  destruct (standard_name_step ds1 "Longitude" "longitude")
    as (ds2 & -> & Hk2 & Hc2 & Hi2 & Hv2).
  cbn [mbind result_bind]. rewrite Hname. cbn [of_option mbind result_bind].
  eexists. split; [reflexivity |]. cbn [nc].
  split; [congruence |]. split; [congruence |]. split; [congruence |].
  intros name var Hvar. rewrite Hv2, Hv1, Hvar. cbn.
  destruct (decide (name = "Latitude")) as [-> | ?]; [done |].
  by destruct (decide (name = "Longitude")).
Qed.




End Opening.

Section Filtering.

Context {T : Type} `{ArrayOps T}.

(** X22. A vegetation index cannot be loaded with the filter on from a file
    without the first quality flags: for NDVI or EVI that the valid range
    masks without error, [get_dataset] of a surface reflectance handler
    ends in the [KeyError] of the flag variable. *)
Theorem veg_index_needs_flags (h : FileHandler T) (info : gmap string (pyval T))
    (k : string) (arr base : DataArray T) :
  cls h = VIIRSSurfaceReflectanceWithVIHandler →
  _filter_veg h = true →
  info !! "file_key" = Some (PStr k) →
  k = "NDVI" ∨ k = "EVI" →
  ds_getitem (nc h) k = Ok arr →
  _mask_invalid_base arr info = Ok base →
  ds_contains (nc h) "QF1 Surface Reflectance" = false →
  get_dataset h info = Raise (KeyError "QF1 Surface Reflectance").
Proof.
  intros Hcls Hfilter Hkey Hk Harr Hbase Hqf.
  unfold get_dataset, dict_item. rewrite Hkey. cbn [of_option mbind result_bind].
  rewrite Harr. cbn [mbind result_bind].
  unfold _mask_invalid, _mask_invalid_vi, dict_item.
  rewrite Hcls, Hbase, Hkey, Hfilter. cbn [of_option mbind result_bind].
  assert (Hin : str_in (PStr k : pyval T) ["NDVI"; "EVI"] = true)
    by (destruct Hk as [-> | ->]; reflexivity).
  rewrite Hin. cbn [andb]. unfold _get_veg_index_good_mask.
  by rewrite (ds_getitem_missing _ _ Hqf).
Qed.

Lemma testbit_low8 (q k : Z) :
  (0 <= k < 8)%Z → Z.testbit q k = Z.testbit (q mod 256) k.
Proof.
  intros Hk. change 256%Z with (2 ^ 8)%Z. by rewrite Z.mod_pow2_bits_low by lia.
Qed.

Lemma land_low8 (q m : Z) :
  (0 <= m < 256)%Z → Z.land q m = Z.land (q mod 256) m.
Proof.
  intros Hm. apply Z.bits_inj'. intros n Hn. rewrite !Z.land_spec.
  destruct (Z.lt_ge_cases n 8) as [Hlt | Hge].
  - by rewrite <- testbit_low8 by lia.
  - assert (Z.testbit m n = false) as ->; [| by rewrite !andb_false_r].
    destruct (Z.eq_dec m 0) as [-> | Hne]; [apply Z.bits_0 |].
    apply Z.bits_above_log2; [lia |].
    apply Z.lt_le_trans with 8%Z; [| lia].
    apply Z.log2_lt_pow2; lia.
Qed.

Lemma low8_cases (P : Z → bool) (q : Z) :
  forallb P (seqZ 0 256) = true → P (q mod 256)%Z = true.
Proof.
  intros Hall. apply (proj1 (forallb_forall P (seqZ 0 256)) Hall).
  apply list_elem_of_In, elem_of_seqZ.
  pose proof (Z.mod_pos_bound q 256 ltac:(lia)). lia.
Qed.

Lemma good_qf1 (q : Z) :
  (Z.land q 192 >? 0)%Z || (Z.land q 12 >? 0)%Z || (Z.land q 3 <? 2)%Z
  = negb ((Z.land q 207 =? 2)%Z || (Z.land q 207 =? 3)%Z).
Proof.
  rewrite (land_low8 q 192), (land_low8 q 12), (land_low8 q 3), (land_low8 q 207) by lia.
  apply Bool.eqb_prop.
  apply (low8_cases
    (fun r => Bool.eqb
       ((Z.land r 192 >? 0)%Z || (Z.land r 12 >? 0)%Z || (Z.land r 3 <? 2)%Z)
       (negb ((Z.land r 207 =? 2)%Z || (Z.land r 207 =? 3)%Z))) q).
  vm_compute. reflexivity.
Qed.

Lemma good_qf2 (q : Z) :
  Z.testbit q 5 || Z.testbit q 3
  || ((Z.land q 7 <=? 2)%Z || (Z.land q 7 =? 5)%Z)
  = negb ((Z.land q 47 =? 3)%Z || (Z.land q 47 =? 4)%Z
          || (Z.land q 47 =? 6)%Z || (Z.land q 47 =? 7)%Z).
Proof.
  rewrite (testbit_low8 q 5), (testbit_low8 q 3), (land_low8 q 7), (land_low8 q 47) by lia.
  apply Bool.eqb_prop.
  apply (low8_cases
    (fun r => Bool.eqb
       (Z.testbit r 5 || Z.testbit r 3
        || ((Z.land r 7 <=? 2)%Z || (Z.land r 7 =? 5)%Z))
       (negb ((Z.land r 47 =? 3)%Z || (Z.land r 47 =? 4)%Z
              || (Z.land r 47 =? 6)%Z || (Z.land r 47 =? 7)%Z))) q).
  vm_compute. reflexivity.
Qed.

Lemma good_qf7 (q : Z) :
  (Z.land q 12 >? 8)%Z || Z.testbit q 1
  = negb ((Z.land q 14 =? 0)%Z || (Z.land q 14 =? 4)%Z || (Z.land q 14 =? 8)%Z).
Proof.
  rewrite (testbit_low8 q 1), (land_low8 q 12), (land_low8 q 14) by lia.
  apply Bool.eqb_prop.
  apply (low8_cases
    (fun r => Bool.eqb
       ((Z.land r 12 >? 8)%Z || Z.testbit r 1)
       (negb ((Z.land r 14 =? 0)%Z || (Z.land r 14 =? 4)%Z
              || (Z.land r 14 =? 8)%Z))) q).
  vm_compute. reflexivity.
Qed.

Lemma good_pixel_flags (a b d : Z) :
  negb (bad_pixel_of_spec a b d)
  = ((Z.land a 207 =? 2)%Z || (Z.land a 207 =? 3)%Z)
    && ((Z.land b 47 =? 3)%Z || (Z.land b 47 =? 4)%Z
        || (Z.land b 47 =? 6)%Z || (Z.land b 47 =? 7)%Z)
    && ((Z.land d 14 =? 0)%Z || (Z.land d 14 =? 4)%Z || (Z.land d 14 =? 8)%Z).
Proof.
  unfold bad_pixel_of_spec.
  pose proof (good_qf1 a) as H1. pose proof (good_qf2 b) as H2.
  pose proof (good_qf7 d) as H7.
  destruct (Z.land a 192 >? 0)%Z, (Z.land a 12 >? 0)%Z, (Z.land a 3 <? 2)%Z;
    cbn [orb negb] in H1 |- *; apply (f_equal negb) in H1;
    rewrite negb_involutive in H1; rewrite <- H1; cbn [negb andb]; try done;
  destruct (Z.testbit b 5), (Z.testbit b 3),
           ((Z.land b 7 <=? 2)%Z || (Z.land b 7 =? 5)%Z);
    cbn [orb negb] in H2 |- *; apply (f_equal negb) in H2;
    rewrite negb_involutive in H2; rewrite <- H2; cbn [negb andb]; try done;
  destruct ((Z.land d 12 >? 8)%Z), (Z.testbit d 1);
    cbn [orb negb] in H7 |- *; apply (f_equal negb) in H7;
    rewrite negb_involutive in H7; by rewrite <- H7.
Qed.

(** X23. Which pixels the filter keeps, by the bits of the flags: the good
    mask holds for pixel [i, j] exactly when, at the M-band pixel
    [i / 2, j / 2], the first flags masked with 0b11001111 are 2 or 3, the
    second flags masked with 0b00101111 are 3, 4, 6 or 7, and the seventh
    flags masked with 0b00001110 are 0, 4 or 8. *)
Theorem good_mask_by_bits (h : FileHandler T) (flag_dims : list string)
    (r c : nat) (q1 q2 q7 : ndarray Z) :
  flags_ok h flag_dims r c q1 q2 q7 →
  ∃ good,
    _get_veg_index_good_mask h
    = Ok (mkMask flag_dims (NdArray [r * 2; c * 2]%nat good))
    ∧ ∀ i j, (i < r * 2)%nat → (j < c * 2)%nat →
        ∃ a b d,
          Nd.at2 q1 (i / 2) (j / 2) = Some a
          ∧ Nd.at2 q2 (i / 2) (j / 2) = Some b
          ∧ Nd.at2 q7 (i / 2) (j / 2) = Some d
          ∧ good !! (i * (c * 2) + j)%nat
            = Some (((Z.land a 207 =? 2)%Z || (Z.land a 207 =? 3)%Z)
                    && ((Z.land b 47 =? 3)%Z || (Z.land b 47 =? 4)%Z
                        || (Z.land b 47 =? 6)%Z || (Z.land b 47 =? 7)%Z)
                    && ((Z.land d 14 =? 0)%Z || (Z.land d 14 =? 4)%Z
                        || (Z.land d 14 =? 8)%Z)).
Proof.
  intros Hflags.
  destruct (good_mask_spec h flag_dims r c q1 q2 q7 Hflags) as (good & Hrun & _ & Hpix).
  exists good. split; [done |]. intros i j Hi Hj.
  destruct (Hpix i j Hi Hj) as (a & b & d & Ha & Hb & Hd & Hg).
  exists a, b, d. by rewrite <- good_pixel_flags.
Qed.

End Filtering.

(** * The handlers on the example files *)

Import Cells Examples.

Example platform_name_lowercase : platform_name lst_handler = Ok "Suomi-NPP".
Proof. reflexivity. Qed.

Example platform_name_unknown :
  platform_name (mkHandler VIIRSJRRFileHandler {["platform_shortname" := "n20"]}
                           "jrr_aod" (matches "jrr_aod") aod_nc true)
  = Raise (KeyError "N20").
Proof. reflexivity. Qed.

Lemma platform_name_spec_witness :
  filename_info aod_handler !! "platform_shortname" = Some "j01"
  ∧ platform_name aod_handler = Ok "NOAA-20".
Proof.
  split; [reflexivity |].
  exact (proj1 (proj2 (proj2 (platform_name_spec aod_handler "j01" eq_refl))) eq_refl).
Defined.

(** The precedence of the specification fails on an array that has a
    [valid_min] attribute and no [valid_max]: it finds no valid range there,
    so the array should come back as it is, and the handler raises. *)
Lemma mask_invalid_valid_range_counterexample :
  valid_range_of_spec probability_info (da_attrs probability_arr) = None
  ∧ _mask_invalid_base probability_arr probability_info = Raise (KeyError "valid_max")
  ∧ _mask_invalid_base probability_arr probability_info ≠ Ok probability_arr.
Proof.
  assert (Hrun : _mask_invalid_base probability_arr probability_info
                 = Raise (KeyError "valid_max")) by reflexivity.
  split; [reflexivity |]. split; [exact Hrun |].
  rewrite Hrun. discriminate.
Qed.

Lemma mask_invalid_valid_range_amended_witness :
  valid_range_amended aod_info (da_attrs aod_arr) = Ok (Some (PTuple [PInt 0; PInt 5]))
  ∧ (∃ out, _mask_invalid_base aod_arr aod_info = Ok out
      ∧ da_values out !! 0%nat = Some NaN
      ∧ da_values out !! 1%nat = Some (Num 3)
      ∧ da_values out !! 2%nat = Some NaN
      ∧ da_values out !! 3%nat = Some NaN)
  ∧ valid_range_amended probability_info (da_attrs probability_arr)
    = Raise (KeyError "valid_max")
  ∧ _mask_invalid_base probability_arr probability_info = Raise (KeyError "valid_max").
Proof.
  assert (Hvr : valid_range_amended aod_info (da_attrs aod_arr)
                = Ok (Some (PTuple [PInt 0; PInt 5]))) by reflexivity.
  assert (Hprob : valid_range_amended probability_info (da_attrs probability_arr)
                  = Raise (KeyError "valid_max")) by reflexivity.
  split; [exact Hvr |]. split.
  - pose proof (mask_invalid_valid_range_amended aod_arr aod_info) as Hspec.
    rewrite Hvr in Hspec.
    destruct (Hspec (Num 0) (Num 5) eq_refl eq_refl) as (out & Hrun & _ & _ & _ & Hvals).
    exists out. split; [exact Hrun |].
    rewrite (Hvals 0%nat (Num (-5)) eq_refl), (Hvals 1%nat (Num 3) eq_refl),
            (Hvals 2%nat (Num 7) eq_refl), (Hvals 3%nat NaN eq_refl).
    repeat split.
  - split; [exact Hprob |].
    pose proof (mask_invalid_valid_range_amended probability_arr probability_info)
      as Hspec.
    rewrite Hprob in Hspec. exact Hspec.
Defined.

Lemma get_dataset_units_witness :
  aod_info !! "file_key" = Some (PStr "AOD550")
  ∧ ds_getitem (nc aod_handler) "AOD550" = Ok aod_arr
  ∧ _mask_invalid aod_handler aod_arr aod_info = Ok aod_masked
  ∧ platform_name aod_handler = Ok "NOAA-20"
  ∧ rows_per_scans aod_arr = Ok 32%Z
  ∧ ∃ out, get_dataset aod_handler aod_info = Ok out
      ∧ da_values out
        = List.map (fun x => num_mul x num_hundred) (da_values aod_masked)
      ∧ da_attrs out !! "units" = Some (PStr "%").
Proof.
  assert (Hkey : aod_info !! "file_key" = Some (PStr "AOD550")) by reflexivity.
  assert (Harr : ds_getitem (nc aod_handler) "AOD550" = Ok aod_arr) by reflexivity.
  assert (Hmask : _mask_invalid aod_handler aod_arr aod_info = Ok aod_masked)
    by reflexivity.
  assert (Hplat : platform_name aod_handler = Ok "NOAA-20") by reflexivity.
  assert (Hrps : rows_per_scans aod_arr = Ok 32%Z) by reflexivity.
  repeat (split; [assumption |]).
  destruct (get_dataset_units aod_handler aod_info "AOD550" aod_arr aod_masked
              "NOAA-20" 32%Z Hkey Harr Hmask Hplat Hrps)
    as (out & Hrun & _ & Hpct).
  exists out. split; [exact Hrun |].
  exact (Hpct eq_refl (or_introl eq_refl)).
Defined.


Lemma lst_init_rescales_witness :
  NoDup (keys (variables (nc lst_handler)))
  ∧ companions_present (nc lst_handler)
  ∧ ∃ h', VIIRSLSTHandler_init lst_handler = Ok h'
      ∧ assoc "Quality_Flag" (variables (nc h'))
        = assoc "Quality_Flag" (variables (nc lst_handler))
      ∧ (flat ∘ data) <$> assoc "VLST" (variables (nc h'))
        = Some [Num 106; Num 108]
      ∧ (flat ∘ data) <$> assoc "emis_m15" (variables (nc h'))
        = Some [Num 16; Num 19].
Proof.
  assert (Hnd : NoDup (keys (variables (nc lst_handler)))).
  { apply (bool_decide_unpack _). vm_compute. exact I. }
  assert (Hpres : companions_present (nc lst_handler)).
  { apply companions_ok_present. reflexivity. }
  split; [exact Hnd |]. split; [exact Hpres |].
  destruct (lst_init_rescales lst_handler Hnd Hpres) as (h' & Hrun & _ & Hvars).
  exists h'. split; [exact Hrun |]. split; [| split].
  - destruct (Hvars "Quality_Flag" _ eq_refl) as [Hsame _].
    rewrite Hsame; [reflexivity |].
    apply (bool_decide_unpack _). vm_compute. exact I.
  - destruct (Hvars "VLST" _ eq_refl) as [_ Hscaled].
    destruct (Hscaled "LST_ScaleFact" "LST_Offset")
      as (s & o & sc & off & Hs & Ho & Hsc & Hoff & ->).
    { apply (bool_decide_unpack _). vm_compute. exact I. }
    vm_compute in Hs, Ho. injection Hs as <-. injection Ho as <-.
    vm_compute in Hsc, Hoff. injection Hsc as <-. injection Hoff as <-.
    reflexivity.
  - destruct (Hvars "emis_m15" _ eq_refl) as [_ Hscaled].
    destruct (Hscaled "LSE_ScaleFact" "LSE_Offset")
      as (s & o & sc & off & Hs & Ho & Hsc & Hoff & ->).
    { apply (bool_decide_unpack _). vm_compute. exact I. }
    vm_compute in Hs, Ho. injection Hs as <-. injection Ho as <-.
    vm_compute in Hsc, Hoff. injection Hsc as <-. injection Hoff as <-.
    reflexivity.
Defined.

Example ndvi_clear_land :
  da_values <$> _mask_invalid (sr_handler 2 3 0) ndvi_arr ndvi_info
  = Ok [Num 1; Num 2; Num 3; NaN].
Proof. reflexivity. Qed.

Example ndvi_not_filtered :
  da_values <$> _mask_invalid
                  (mkHandler VIIRSSurfaceReflectanceWithVIHandler ∅ "jrr_surfref_product"
                             (matches "jrr_surfref_product") (sr_nc 66 3 0) false)
                  ndvi_arr ndvi_info
  = Ok [Num 1; Num 2; Num 3; NaN].
Proof. reflexivity. Qed.

Lemma veg_index_filter_witness :
  cls (sr_handler 66 3 0) = VIIRSSurfaceReflectanceWithVIHandler
  ∧ _mask_invalid_base ndvi_arr ndvi_info = Ok ndvi_base
  ∧ ndvi_info !! "file_key" = Some (PStr "NDVI")
  ∧ flags_ok (sr_handler 66 3 0) (dims (da_var ndvi_base)) 1 1
             (NdArray [1; 1]%nat [66]) (NdArray [1; 1]%nat [3]) (NdArray [1; 1]%nat [0])
  ∧ ∃ out, _mask_invalid (sr_handler 66 3 0) ndvi_arr ndvi_info = Ok out
      ∧ Nd.at2 (data (da_var out)) 1 0 = Some NaN.
Proof.
  assert (Hbase : _mask_invalid_base ndvi_arr ndvi_info = Ok ndvi_base) by reflexivity.
  assert (Hkey : ndvi_info !! "file_key" = Some (PStr "NDVI")) by reflexivity.
  assert (Hflags : flags_ok (sr_handler 66 3 0) (dims (da_var ndvi_base)) 1 1
                     (NdArray [1; 1]%nat [66]) (NdArray [1; 1]%nat [3])
                     (NdArray [1; 1]%nat [0])).
  { do 3 eexists. repeat (split; [reflexivity |]). reflexivity. }
  split; [reflexivity |]. split; [exact Hbase |]. split; [exact Hkey |].
  split; [exact Hflags |].
  destruct (veg_index_filter (sr_handler 66 3 0) ndvi_arr ndvi_base ndvi_info
              (PStr "NDVI") eq_refl Hbase Hkey) as [_ Hfilter].
  destruct (Hfilter eq_refl eq_refl 1 1 _ _ _ Hflags eq_refl eq_refl)%nat
    as (out & Hrun & _ & _ & Hpix).
  exists out. split; [exact Hrun |].
  destruct (Hpix 1 0 ltac:(lia) ltac:(lia))%nat
    as (x & a & b & d & Hx & Ha & Hb & Hd & ->).
  vm_compute in Hx, Ha, Hb, Hd.
  injection Hx as <-. injection Ha as <-. injection Hb as <-. injection Hd as <-.
  reflexivity.
Defined.

(** C4. A configured dataset that no handler has decided on and whose file
    type is not the handler's is answered twice by [available_datasets],
    with [None] and then with [False], before the variables of the file
    follow: the step for a foreign file type does not end after its
    [None]. *)
Theorem available_datasets_other_file_type :
  available_datasets aod_handler (Some [(None, cloud_mask_info)])
  = ([(None, cloud_mask_info); (Some false, cloud_mask_info)]
     ++ fst (_dynamic_variables_from_file aod_handler {["CloudMask"]}),
     None)%list.
Proof. vm_compute. reflexivity. Qed.

(** A dataset that some handler decided on is passed on once, unchanged. *)
Example available_datasets_decided :
  available_datasets aod_handler (Some [(Some false, cloud_mask_info)])
  = ([(Some false, cloud_mask_info)]
     ++ fst (_dynamic_variables_from_file aod_handler {["CloudMask"]}),
     None)%list.
Proof. vm_compute. reflexivity. Qed.

(** ** Runs for the further properties *)

Lemma get_dataset_needs_two_dims_witness :
  scale_info !! "file_key" = Some (PStr "LST_ScaleFact")
  ∧ ds_getitem (nc lst_handler) "LST_ScaleFact" = Ok scale_arr
  ∧ _mask_invalid lst_handler scale_arr scale_info = Ok scale_arr
  ∧ platform_name lst_handler = Ok "Suomi-NPP"
  ∧ (Nd.ndim (data (da_var scale_arr)) < 2)%nat
  ∧ get_dataset lst_handler scale_info = Raise IndexError.
Proof.
  assert (Hkey : scale_info !! "file_key" = Some (PStr "LST_ScaleFact")) by reflexivity.
  assert (Harr : ds_getitem (nc lst_handler) "LST_ScaleFact" = Ok scale_arr)
    by reflexivity.
  assert (Hmask : _mask_invalid lst_handler scale_arr scale_info = Ok scale_arr)
    by reflexivity.
  assert (Hplat : platform_name lst_handler = Ok "Suomi-NPP") by reflexivity.
  assert (Hnd : (Nd.ndim (data (da_var scale_arr)) < 2)%nat) by (cbn; lia).
  repeat (split; [assumption |]).
  exact (get_dataset_needs_two_dims lst_handler scale_info "LST_ScaleFact"
           scale_arr scale_arr "Suomi-NPP" Hkey Harr Hmask Hplat Hnd).
Defined.

Lemma get_dataset_unknown_platform_witness :
  aod_info !! "file_key" = Some (PStr "AOD550")
  ∧ ds_getitem (nc n20_handler) "AOD550" = Ok aod_arr
  ∧ _mask_invalid n20_handler aod_arr aod_info = Ok aod_masked
  ∧ filename_info n20_handler !! "platform_shortname" = Some "n20"
  ∧ (PyStr.upper "n20" ∉ ["NPP"; "JPSS-1"; "J01"; "JPSS-2"; "J02"])
  ∧ get_dataset n20_handler aod_info = Raise (KeyError "N20").
Proof.
  assert (Hkey : aod_info !! "file_key" = Some (PStr "AOD550")) by reflexivity.
  assert (Harr : ds_getitem (nc n20_handler) "AOD550" = Ok aod_arr) by reflexivity.
  assert (Hmask : _mask_invalid n20_handler aod_arr aod_info = Ok aod_masked)
    by reflexivity.
  assert (Hname : filename_info n20_handler !! "platform_shortname" = Some "n20")
    by reflexivity.
  assert (Hnot : PyStr.upper "n20" ∉ ["NPP"; "JPSS-1"; "J01"; "JPSS-2"; "J02"]).
  { apply (bool_decide_unpack _). vm_compute. exact I. }
  repeat (split; [assumption |]).
  exact (get_dataset_unknown_platform n20_handler aod_info "AOD550" "n20"
           aod_arr aod_masked Hkey Harr Hmask Hname Hnot).
Defined.

Lemma get_dataset_missing_variable_witness :
  get_dataset aod_handler ∅ = Raise (KeyError "file_key")
  ∧ cloud_mask_info !! "file_key" = Some (PStr "CloudMask")
  ∧ ds_contains (nc aod_handler) "CloudMask" = false
  ∧ ("CloudMask" ∉ ds_dims (nc aod_handler))
  ∧ PyStr.contains "." "CloudMask" = false
  ∧ get_dataset aod_handler cloud_mask_info = Raise (KeyError "CloudMask").
Proof.
  assert (Hdims : "CloudMask" ∉ ds_dims (nc aod_handler)).
  { apply (bool_decide_unpack _). vm_compute. exact I. }
  split; [| repeat (split; [first [reflexivity | exact Hdims] |])].
  - exact (proj1 (get_dataset_missing_variable aod_handler ∅) eq_refl).
  - exact (proj2 (get_dataset_missing_variable aod_handler cloud_mask_info)
             "CloudMask" eq_refl eq_refl Hdims eq_refl).
Defined.

Lemma get_dataset_metadata_witness :
  aod_info !! "file_key" = Some (PStr "AOD550")
  ∧ ds_getitem (nc aod_handler) "AOD550" = Ok aod_arr
  ∧ _mask_invalid aod_handler aod_arr aod_info = Ok aod_masked
  ∧ platform_name aod_handler = Ok "NOAA-20"
  ∧ da_shape aod_arr !! 1%nat = Some 2%nat
  ∧ ∃ out, get_dataset aod_handler aod_info = Ok out
      ∧ da_shape out = [2; 2]%nat
      ∧ da_attrs out !! "platform_name" = Some (PStr "NOAA-20")
      ∧ da_attrs out !! "rows_per_scan" = Some (PInt 32).
Proof.
  assert (Hkey : aod_info !! "file_key" = Some (PStr "AOD550")) by reflexivity.
  assert (Harr : ds_getitem (nc aod_handler) "AOD550" = Ok aod_arr) by reflexivity.
  assert (Hmask : _mask_invalid aod_handler aod_arr aod_info = Ok aod_masked)
    by reflexivity.
  assert (Hplat : platform_name aod_handler = Ok "NOAA-20") by reflexivity.
  assert (Hcols : da_shape aod_arr !! 1%nat = Some 2%nat) by reflexivity.
  repeat (split; [assumption |]).
  destruct (get_dataset_metadata aod_handler aod_info "AOD550" aod_arr aod_masked
              "NOAA-20" 2 Hkey Harr Hmask Hplat Hcols)
    as (out & Hrun & Hshape & _ & Hp & _ & Hr).
  exists out. repeat split; assumption.
Defined.

Lemma get_dataset_values_unscaled_witness :
  qc_info !! "file_key" = Some (PStr "QCAll")
  ∧ ds_getitem (nc aod_handler) "QCAll" = Ok qc_arr
  ∧ _mask_invalid aod_handler qc_arr qc_info = Ok qc_arr
  ∧ platform_name aod_handler = Ok "NOAA-20"
  ∧ rows_per_scans qc_arr = Ok 32%Z
  ∧ qc_info !! "units" ≠ Some (PStr "%")
  ∧ ∃ out, get_dataset aod_handler qc_info = Ok out
      ∧ da_values out = [Num 0; Num 1; Num 2; Num 3].
Proof.
  assert (Hkey : qc_info !! "file_key" = Some (PStr "QCAll")) by reflexivity.
  assert (Harr : ds_getitem (nc aod_handler) "QCAll" = Ok qc_arr) by reflexivity.
  assert (Hmask : _mask_invalid aod_handler qc_arr qc_info = Ok qc_arr) by reflexivity.
  assert (Hplat : platform_name aod_handler = Ok "NOAA-20") by reflexivity.
  assert (Hrps : rows_per_scans qc_arr = Ok 32%Z) by reflexivity.
  assert (Hunits : qc_info !! "units" ≠ Some (PStr "%")) by (vm_compute; discriminate).
  repeat (split; [assumption |]).
  exact (get_dataset_values_unscaled aod_handler qc_info "QCAll" qc_arr qc_arr
           "NOAA-20" 32%Z Hkey Harr Hmask Hplat Hrps (or_introl Hunits)).
Defined.

Lemma get_dataset_keeps_coords_witness :
  qc_info !! "file_key" = Some (PStr "QCAll")
  ∧ ds_getitem (nc aod_handler) "QCAll" = Ok qc_arr
  ∧ _mask_invalid aod_handler qc_arr qc_info = Ok qc_arr
  ∧ platform_name aod_handler = Ok "NOAA-20"
  ∧ rows_per_scans qc_arr = Ok 32%Z
  ∧ ∃ out, get_dataset aod_handler qc_info = Ok out
      ∧ da_attrs out !! "standard_name" = None
      ∧ da_coords out = ["Latitude"; "Longitude"].
Proof.
  assert (Hkey : qc_info !! "file_key" = Some (PStr "QCAll")) by reflexivity.
  assert (Harr : ds_getitem (nc aod_handler) "QCAll" = Ok qc_arr) by reflexivity.
  assert (Hmask : _mask_invalid aod_handler qc_arr qc_info = Ok qc_arr) by reflexivity.
  assert (Hplat : platform_name aod_handler = Ok "NOAA-20") by reflexivity.
  assert (Hrps : rows_per_scans qc_arr = Ok 32%Z) by reflexivity.
  repeat (split; [assumption |]).
  destruct (get_dataset_keeps_coords aod_handler qc_info "QCAll" qc_arr qc_arr
              "NOAA-20" 32%Z Hkey Harr Hmask Hplat Hrps)
    as (out & Hrun & Hsn & Hcoords).
  exists out. split; [exact Hrun |]. split; [exact Hsn |]. exact (Hcoords eq_refl).
Defined.

Lemma mask_invalid_idempotent_witness :
  _mask_invalid aod_handler aod_arr aod_info = Ok aod_masked
  ∧ _mask_invalid aod_handler aod_masked aod_info = Ok aod_masked.
Proof.
  assert (Hmask : _mask_invalid aod_handler aod_arr aod_info = Ok aod_masked)
    by reflexivity.
  split; [exact Hmask |].
  exact (mask_invalid_idempotent aod_handler aod_arr aod_masked aod_info Hmask).
Defined.

Lemma get_dataset_valid_min_without_max_witness :
  probability_info !! "file_key" = Some (PStr "CloudProbability")
  ∧ ds_getitem (nc cloud_handler) "CloudProbability" = Ok probability_arr
  ∧ probability_info !! "valid_range" = None
  ∧ da_attrs probability_arr !! "valid_range" = None
  ∧ is_Some (da_attrs probability_arr !! "valid_min")
  ∧ da_attrs probability_arr !! "valid_max" = None
  ∧ get_dataset cloud_handler probability_info = Raise (KeyError "valid_max").
Proof.
  assert (Hkey : probability_info !! "file_key" = Some (PStr "CloudProbability"))
    by reflexivity.
  assert (Harr : ds_getitem (nc cloud_handler) "CloudProbability" = Ok probability_arr)
    by reflexivity.
  assert (Hi : probability_info !! "valid_range" = None) by reflexivity.
  assert (Ha : da_attrs probability_arr !! "valid_range" = None) by reflexivity.
  assert (Hmin : is_Some (da_attrs probability_arr !! "valid_min")).
  { exists (PNum (Num 0)). reflexivity. }
  assert (Hmax : da_attrs probability_arr !! "valid_max" = None) by reflexivity.
  repeat (split; [assumption |]).
  exact (get_dataset_valid_min_without_max cloud_handler probability_info
           "CloudProbability" probability_arr Hkey Harr Hi Ha Hmin Hmax).
Defined.

Lemma mask_invalid_keeps_or_fills_witness :
  _mask_invalid (sr_handler 66 3 0) ndvi_arr ndvi_info
  = Ok (set_data ndvi_arr (NdArray [2; 2]%nat [NaN; NaN; NaN; NaN]))
  ∧ ∀ i y, [NaN; NaN; NaN; NaN] !! i = Some y →
      ∃ x, da_values ndvi_arr !! i = Some x ∧ (y = x ∨ y = NaN).
Proof.
  assert (Hrun : _mask_invalid (sr_handler 66 3 0) ndvi_arr ndvi_info
                 = Ok (set_data ndvi_arr (NdArray [2; 2]%nat [NaN; NaN; NaN; NaN])))
    by reflexivity.
  split; [exact Hrun |].
  exact (proj2 (proj2 (proj2 (proj2
           (mask_invalid_keeps_or_fills (sr_handler 66 3 0) ndvi_arr _ ndvi_info Hrun))))).
Defined.

Lemma decode_flag_meanings_round_trip_witness :
  da_attrs cloud_arr !! "flag_meanings"
  = Some (PStr "clear probably_clear probably_cloudy cloudy")
  ∧ PyStr.contains PyStr.newline "clear probably_clear probably_cloudy cloudy" = false
  ∧ ∃ pieces,
      da_attrs (_decode_flag_meanings cloud_arr) !! "flag_meanings"
      = Some (PList (List.map PStr pieces))
      ∧ PyStr.join " " pieces = "clear probably_clear probably_cloudy cloudy".
Proof.
  assert (Hattr : da_attrs cloud_arr !! "flag_meanings"
                  = Some (PStr "clear probably_clear probably_cloudy cloudy"))
    by reflexivity.
  assert (Hline : PyStr.contains PyStr.newline
                    "clear probably_clear probably_cloudy cloudy" = false)
    by reflexivity.
  repeat (split; [assumption |]).
  destruct (decode_flag_meanings_round_trip cloud_arr _ Hattr Hline)
    as (pieces & Hdec & Hjoin & _).
  exists pieces. split; assumption.
Defined.

Lemma decode_flag_meanings_idempotent_witness :
  _decode_flag_meanings (_decode_flag_meanings cloud_arr)
  = _decode_flag_meanings cloud_arr
  ∧ _decode_flag_meanings aod_arr = aod_arr.
Proof.
  split.
  - exact (proj1 (decode_flag_meanings_idempotent cloud_arr)).
  - apply (proj2 (decode_flag_meanings_idempotent aod_arr)).
    intros s Hs. vm_compute in Hs. discriminate.
Defined.

Lemma aod_configured_answerable :
  Forall (answerable aod_handler) [(None, aod_info); (Some false, cloud_mask_info)].
Proof.
  constructor; [| constructor; [| constructor]].
  - split; [by eexists |]. split; [reflexivity |]. intros _.
    exists (PStr "jrr_aod"). split; [reflexivity | by eexists].
  - split; [by eexists |]. split; [reflexivity |]. intros Hnone. discriminate Hnone.
Defined.

Lemma available_datasets_answers_witness :
  Forall (answerable aod_handler) [(None, aod_info); (Some false, cloud_mask_info)]
  ∧ configured_keys [(None, aod_info); (Some false, cloud_mask_info)]
    = {["AOD550"]} ∪ ({["CloudMask"]} ∪ ∅)
  ∧ available_datasets aod_handler
      (Some [(None, aod_info); (Some false, cloud_mask_info)])
    = (([(Some true, aod_info); (Some false, cloud_mask_info)]
        ++ fst (_dynamic_variables_from_file aod_handler
                  (configured_keys [(None, aod_info); (Some false, cloud_mask_info)])))%list,
       None).
Proof.
  split; [exact aod_configured_answerable |]. split; [reflexivity |].
  exact (available_datasets_answers aod_handler _ aod_configured_answerable).
Defined.

Lemma available_datasets_no_duplicates_witness :
  Forall (answerable aod_handler) [(None, aod_info); (Some false, cloud_mask_info)]
  ∧ ∃ handled,
      (∀ found, found ∈ fst (_dynamic_variables_from_file aod_handler handled) →
                snd found !! "file_key" ≠ Some (PStr "AOD550"))
      ∧ fst (available_datasets aod_handler
               (Some [(None, aod_info); (Some false, cloud_mask_info)]))
        = ([(Some true, aod_info); (Some false, cloud_mask_info)]
           ++ fst (_dynamic_variables_from_file aod_handler handled))%list.
Proof.
  split; [exact aod_configured_answerable |].
  destruct (available_datasets_no_duplicates aod_handler _ aod_configured_answerable)
    as (handled & Hrun & Hnodup).
  exists handled. split; [| exact Hrun].
  apply (Hnodup (None, aod_info) "AOD550").
  - apply elem_of_cons. by left.
  - reflexivity.
  - reflexivity.
Defined.

Lemma available_datasets_missing_name_witness :
  Forall (answerable aod_handler) [(None, aod_info)]
  ∧ nameless_info !! "name" = None
  ∧ available_datasets aod_handler
      (Some [(None, aod_info); (None, nameless_info); (None, cloud_mask_info)])
    = ([(Some true, aod_info)], Some (KeyError "name")).
Proof.
  assert (Hpre : Forall (answerable aod_handler) [(None, aod_info)]).
  { constructor; [| constructor].
    split; [by eexists |]. split; [reflexivity |]. intros _.
    exists (PStr "jrr_aod"). split; [reflexivity | by eexists]. }
  split; [exact Hpre |]. split; [reflexivity |].
  exact (available_datasets_missing_name aod_handler [(None, aod_info)]
           [(None, cloud_mask_info)] None nameless_info Hpre eq_refl).
Defined.

Lemma dynamic_dataset_loads_witness :
  discovered aod_handler ∅ "QCAll" qc_arr
  ∧ _mask_invalid aod_handler qc_arr (dynamic_ds_info aod_handler "QCAll" qc_arr)
    = Ok qc_arr
  ∧ platform_name aod_handler = Ok "NOAA-20"
  ∧ ∃ out, get_dataset aod_handler (dynamic_ds_info aod_handler "QCAll" qc_arr) = Ok out
      ∧ da_shape out = [2; 2]%nat
      ∧ da_attrs out !! "rows_per_scan" = Some (PInt 32).
Proof.
  assert (Hd : discovered aod_handler ∅ "QCAll" qc_arr).
  { split; [reflexivity | split; [reflexivity | left; apply not_elem_of_empty]]. }
  assert (Hmask : _mask_invalid aod_handler qc_arr
                    (dynamic_ds_info aod_handler "QCAll" qc_arr) = Ok qc_arr)
    by reflexivity.
  assert (Hplat : platform_name aod_handler = Ok "NOAA-20") by reflexivity.
  repeat (split; [assumption |]).
  destruct (dynamic_dataset_loads aod_handler ∅ "QCAll" qc_arr qc_arr "NOAA-20"
              Hd Hmask Hplat) as (out & Hrun & Hshape & Hres).
  exists out. split; [exact Hrun |]. split; [exact Hshape |].
  destruct Hres as [[Hres _] | [_ Hrps]]; [| exact Hrps].
  vm_compute in Hres. discriminate Hres.
Defined.


Lemma scale_data_succeeds_iff_witness :
  NoDup (keys (variables lst_nc))
  ∧ (∃ ds', _scale_data lst_nc = Ok ds')
  ∧ ∃ scale_factor add_offset,
      assoc "LST_ScaleFact" (variables lst_nc) = Some scale_factor
      ∧ assoc "LST_Offset" (variables lst_nc) = Some add_offset
      ∧ is_Some (Nd.broadcast_to [1; 2]%nat (data scale_factor))
      ∧ is_Some (Nd.broadcast_to [1; 2]%nat (data add_offset)).
Proof.
  assert (Hnd : NoDup (keys (variables lst_nc))).
  { apply (bool_decide_unpack _). vm_compute. exact I. }
  assert (Hrun : ∃ ds', _scale_data lst_nc = Ok ds').
  { eexists. vm_compute. reflexivity. }
  split; [exact Hnd |]. split; [exact Hrun |].
  exact (proj1 (scale_data_succeeds_iff lst_nc Hnd) Hrun
           "VLST" (variable ["y"; "x"] [1; 2]%nat [Num 3; Num 4] [])
           "LST_ScaleFact" "LST_Offset" eq_refl eq_refl).
Defined.

Lemma lst_init_scalar_witness :
  NoDup (keys (variables (nc lst_handler)))
  ∧ companions_ok (nc lst_handler) = true
  ∧ assoc "emis_m15" _manual_scalings = Some ("LSE_ScaleFact", "LSE_Offset")
  ∧ Nd.wf (NdArray [1; 2]%nat [Num 5; Num 6])
  ∧ ∃ h', VIIRSLSTHandler_init lst_handler = Ok h'
      ∧ assoc "emis_m15" (variables (nc h'))
        = Some (variable ["y"; "x"] [1; 2]%nat [Num 16; Num 19] []).
Proof.
  assert (Hnd : NoDup (keys (variables (nc lst_handler)))).
  { apply (bool_decide_unpack _). vm_compute. exact I. }
  assert (Hok : companions_ok (nc lst_handler) = true) by reflexivity.
  assert (Hwf : Nd.wf (NdArray [1; 2]%nat [Num 5; Num 6])) by reflexivity.
  split; [exact Hnd |]. split; [exact Hok |]. split; [reflexivity |].
  split; [exact Hwf |].
  exact (lst_init_scalar lst_handler "emis_m15" "LSE_ScaleFact" "LSE_Offset"
           (variable ["y"; "x"] [1; 2]%nat [Num 5; Num 6] [])
           (variable [] [] [Num 3] []) (variable [] [] [Num 1] [])
           (Num 3) (Num 1) Hnd Hok eq_refl eq_refl eq_refl eq_refl eq_refl eq_refl Hwf).
Defined.

Lemma row_chunks_bounds_witness :
  row_chunks_m 134217728 = 10485%Z
  ∧ row_chunks_i 134217728 = 20970%Z
  ∧ row_chunks_m 4096 = 1%Z.
Proof.
  destruct (row_chunks_bounds 134217728) as (Hm & _ & _ & Hi).
  destruct (row_chunks_bounds 4096) as (Hsmall & _).
  cbn zeta in *. rewrite Hi, Hm, Hsmall. repeat split.
Defined.

Lemma init_standard_names_witness :
  open_aod "JRR-AOD_j01.nc" (chunks 134217728) = Ok raw_aod_nc
  ∧ rename_xy rename_dims raw_aod_nc = Ok renamed_aod_nc
  ∧ ∃ h, VIIRSJRRFileHandler_init 134217728 open_aod rename_dims "JRR-AOD_j01.nc"
           (filename_info aod_handler) "jrr_aod" (matches "jrr_aod")
         = Ok (h, "j01")
      ∧ attrs <$> assoc "Latitude" (variables (nc h))
        = Some {["standard_name" := PStr "latitude"]}
      ∧ assoc "AOD550" (variables (nc h)) = assoc "AOD550" (variables renamed_aod_nc).
Proof.
  assert (Hopen : open_aod "JRR-AOD_j01.nc" (chunks 134217728) = Ok raw_aod_nc)
    by reflexivity.
  assert (Hren : rename_xy rename_dims raw_aod_nc = Ok renamed_aod_nc) by reflexivity.
  assert (Hname : filename_info aod_handler !! "platform_shortname" = Some "j01")
    by reflexivity.
  split; [exact Hopen |]. split; [exact Hren |].
  destruct (init_standard_names 134217728 open_aod rename_dims VIIRSJRRFileHandler true
              "JRR-AOD_j01.nc" (filename_info aod_handler) "jrr_aod"
              (matches "jrr_aod") raw_aod_nc renamed_aod_nc "j01" Hopen Hren Hname)
    as (h & Hrun & _ & _ & _ & Hvars).
  exists h. split; [exact Hrun |]. split.
  - rewrite (Hvars "Latitude" _ eq_refl). reflexivity.
  - rewrite (Hvars "AOD550" _ eq_refl). reflexivity.
Defined.


Lemma veg_index_needs_flags_witness :
  cls sr_noflags_handler = VIIRSSurfaceReflectanceWithVIHandler
  ∧ _filter_veg sr_noflags_handler = true
  ∧ ndvi_info !! "file_key" = Some (PStr "NDVI")
  ∧ ds_getitem (nc sr_noflags_handler) "NDVI" = Ok ndvi_arr
  ∧ _mask_invalid_base ndvi_arr ndvi_info = Ok ndvi_base
  ∧ ds_contains (nc sr_noflags_handler) "QF1 Surface Reflectance" = false
  ∧ get_dataset sr_noflags_handler ndvi_info
    = Raise (KeyError "QF1 Surface Reflectance").
Proof.
  assert (Hkey : ndvi_info !! "file_key" = Some (PStr "NDVI")) by reflexivity.
  assert (Harr : ds_getitem (nc sr_noflags_handler) "NDVI" = Ok ndvi_arr)
    by reflexivity.
  assert (Hbase : _mask_invalid_base ndvi_arr ndvi_info = Ok ndvi_base) by reflexivity.
  split; [reflexivity |]. split; [reflexivity |].
  repeat (split; [assumption |]). split; [reflexivity |].
  exact (veg_index_needs_flags sr_noflags_handler ndvi_info "NDVI" ndvi_arr ndvi_base
           eq_refl eq_refl Hkey (or_introl eq_refl) Harr Hbase eq_refl).
Defined.

Lemma good_mask_by_bits_witness :
  flags_ok (sr_handler 2 3 0) ["y"; "x"] 1 1
           (NdArray [1; 1]%nat [2]) (NdArray [1; 1]%nat [3]) (NdArray [1; 1]%nat [0])
  ∧ ∃ good,
      _get_veg_index_good_mask (sr_handler 2 3 0)
      = Ok (mkMask ["y"; "x"] (NdArray [2; 2]%nat good))
      ∧ good !! 3%nat = Some true.
Proof.
  assert (Hflags : flags_ok (sr_handler 2 3 0) ["y"; "x"] 1 1
                     (NdArray [1; 1]%nat [2]) (NdArray [1; 1]%nat [3])
                     (NdArray [1; 1]%nat [0])).
  { do 3 eexists. repeat (split; [reflexivity |]). reflexivity. }
  split; [exact Hflags |].
  destruct (good_mask_by_bits (sr_handler 2 3 0) _ 1 1 _ _ _ Hflags)
    as (good & Hrun & Hpix).
  exists good. split; [exact Hrun |].
  destruct (Hpix 1 1 ltac:(lia) ltac:(lia))%nat
    as (a & b & d & Ha & Hb & Hd & Hg).
  vm_compute in Ha, Hb, Hd.
  injection Ha as <-. injection Hb as <-. injection Hd as <-.
  exact Hg.
Defined.
